(** * Booking lifecycle and date-availability engine of the property API

    A shallow embedding of the booking ledger, the availability checker, the
    payment-proof tracker and the review aggregator:

    - [models/Booking.js]   (schema, [pre('save')], [isDateRangeAvailable],
                             [cancel], [addPaymentProof]),
    - [models/Property.js]  ([isAvailableForDates]),
    - [models/Review.js]    ([calcAverageRatings] and its hooks),
    - [controllers/bookingController.js] and the review controller.

    Conventions of the embedding.
    - A [Date] is its time value (milliseconds since the epoch, what
      [valueOf] returns and what [<], [-] and the query operators compare);
      invalid dates are outside the model.
    - Numbers that the code only adds, multiplies and compares (prices,
      guest counts, sizes) are integers; rating averages are rationals.
    - A collection is the list of its documents in natural order; [findOne]
      returns the first match and [save] rewrites the document that carries
      the same [_id].
    - A handler is a function from the store (and the request, the clock and
      the results of the external collaborators) to the response and the new
      store.  [asyncHandler] forwards whatever the handler throws to [next],
      so a thrown error and [next(err)] are one outcome, [Next].
    - The schemas are strict: a write reaches the paths a schema declares
      and no other. *)

From Stdlib Require Import ZArith List String Bool Lia QArith Qround.
From Stdlib Require Import Lqa.
Import ListNotations.
Open Scope string_scope.
Open Scope list_scope.
Open Scope Z_scope.

(** ** Values, documents and queries *)

Definition ObjectId := string.
Definition Date := Z.

(** What a path of a stored document can hold, as far as the queries of the
    controllers look at it. *)
Inductive Value :=
| VString (s : string)
| VDate (d : Date)
| VNull
| VUndefined.

Definition value_eqb (v w : Value) : bool :=
  match v, w with
  | VString s, VString t => String.eqb s t
  | VDate d, VDate e => d =? e
  | VNull, VNull => true
  | VUndefined, VUndefined => true
  | _, _ => false
  end.

(** Order comparison of the query operators: only two dates compare. *)
Definition value_cmp (test : Z -> Z -> bool) (v w : Value) : bool :=
  match v, w with
  | VDate d, VDate e => test d e
  | _, _ => false
  end.

(** The query operators the controllers use.  [op_eq v] is the implicit
    equality of [{ path: v }]. *)
Inductive Op :=
| op_eq (v : Value)
| op_ne (v : Value)
| op_lt (v : Value)
| op_lte (v : Value)
| op_gt (v : Value)
| op_gte (v : Value)
| op_exists (b : bool).

Definition op_holds (field : Value) (o : Op) : bool :=
  match o with
  | op_eq v => value_eqb field v
  | op_ne v => negb (value_eqb field v)
  | op_lt v => value_cmp Z.ltb field v
  | op_lte v => value_cmp Z.leb field v
  | op_gt v => value_cmp Z.gtb field v
  | op_gte v => value_cmp Z.geb field v
  | op_exists b => Bool.eqb b (negb (value_eqb field VUndefined))
  end.

(** [{ path: { $op: v, ... }, ... }]: every operator of every path holds. *)
Definition FieldQuery := list (string * list Op).

(** A top-level entry is either the operators of a path or [$or: [...]]. *)
Inductive Clause :=
| Cond (ops : list Op)
| Or (alternatives : list FieldQuery).

Definition Query := list (string * Clause).

(** A JavaScript object literal: entries are taken left to right, and an
    entry whose key is already there overwrites the value of the earlier
    one (the key keeps its place).  Assigning a property afterwards
    ([query._id = ...]) is the same operation. *)
Fixpoint setProp {A} (o : list (string * A)) (k : string) (v : A)
  : list (string * A) :=
  match o with
  | [] => [(k, v)]
  | (k', v') :: rest =>
      if String.eqb k' k then (k', v) :: rest
      else (k', v') :: setProp rest k v
  end.

Definition objectLiteral {A} (entries : list (string * A))
  : list (string * A) :=
  fold_left (fun o kv => setProp o (fst kv) (snd kv)) entries [].

(** A document type gives the value stored at a path. *)
Class Document (A : Type) := path : A -> string -> Value.

Section Matching.
Context {A : Type} `{Document A}.

Definition matchesFields (q : FieldQuery) (doc : A) : bool :=
  forallb (fun kv => forallb (op_holds (path doc (fst kv))) (snd kv)) q.

Definition matchesClause (doc : A) (kv : string * Clause) : bool :=
  match snd kv with
  | Cond ops => forallb (op_holds (path doc (fst kv))) ops
  | Or alts => existsb (fun q => matchesFields q doc) alts
  end.

Definition matches (q : Query) (doc : A) : bool :=
  forallb (matchesClause doc) q.

Definition findOne (q : Query) (coll : list A) : option A :=
  find (matches q) coll.

Definition countDocuments (q : Query) (coll : list A) : Z :=
  Z.of_nat (List.length (filter (matches q) coll)).
End Matching.

(** ** Time arithmetic *)

Definition msPerDay : Z := 1000 * 60 * 60 * 24.

(** [Math.ceil(a / d)] for a positive divisor. *)
Definition ceilDiv (a d : Z) : Z := - ((- a) / d).

(** [Math.ceil((endDate - startDate) / (1000 * 60 * 60 * 24))] *)
Definition nights (startDate endDate : Date) : Z :=
  ceilDiv (endDate - startDate) msPerDay.

(** ** The Property model *)

Module Property.
(** The paths of the schema that the handlers read;
    [features.availableFrom] and [features.availableTo] are flattened. *)
Record t := {
  _id : ObjectId;
  price : Z;
  availableFrom : Date;
  availableTo : option Date;
  isAvailable : bool;
  createdBy : ObjectId
}.

(** The top-level paths that the schema declares, with the two that every
    schema has.  The schema sets no [strict] option, so these are the only
    paths a write can reach. *)
Definition schemaPaths : list string :=
  ["title"; "description"; "price"; "address"; "features"; "images";
   "isAvailable"; "createdBy"; "createdAt"; "updatedAt"; "_id"; "__v"].

Definition setPrice (v : Z) (p : t) : t :=
  {| _id := _id p; price := v; availableFrom := availableFrom p;
     availableTo := availableTo p; isAvailable := isAvailable p;
     createdBy := createdBy p |}.
End Property.

(** ** The Booking model *)

(** A date path with [default: null]: a stored document carries the path
    with [null] or a date; a document written without it does not carry
    it at all. *)
Inductive DateField :=
| Missing
| Null
| At (d : Date).

Definition dateFieldValue (f : DateField) : Value :=
  match f with
  | Missing => VUndefined
  | Null => VNull
  | At d => VDate d
  end.

Module PaymentProof.
Record t := {
  url : string;
  publicId : string;
  verified : bool;
  verifiedAt : option Date;
  verifiedBy : option ObjectId
}.
End PaymentProof.

Module Booking.
Record t := {
  _id : ObjectId;
  property : ObjectId;
  user : ObjectId;
  startDate : Date;
  endDate : Date;
  guests : Z;
  totalPrice : Z;
  status : string;
  paymentStatus : string;
  paymentMethod : string;
  paymentProof : option PaymentProof.t;
  cancellationReason : option string;
  cancelledAt : option Date;
  cancelledBy : option ObjectId;
  checkIn : DateField;
  checkOut : DateField
}.

(** The enumerations of the schema. *)
Definition statusEnum : list string :=
  ["pending"; "confirmed"; "cancelled"; "completed"].
Definition paymentStatusEnum : list string :=
  ["pending"; "partial"; "paid"; "refunded"; "failed"].
Definition paymentMethodEnum : list string :=
  ["eft"; "credit_card"; "cash"].

(** Assignments to the paths of a document. *)
Definition setProperty (v : ObjectId) (b : t) : t :=
  {| _id := _id b; property := v; user := user b; startDate := startDate b;
     endDate := endDate b; guests := guests b; totalPrice := totalPrice b;
     status := status b; paymentStatus := paymentStatus b;
     paymentMethod := paymentMethod b; paymentProof := paymentProof b;
     cancellationReason := cancellationReason b;
     cancelledAt := cancelledAt b; cancelledBy := cancelledBy b;
     checkIn := checkIn b; checkOut := checkOut b |}.

Definition setStartDate (v : Date) (b : t) : t :=
  {| _id := _id b; property := property b; user := user b; startDate := v;
     endDate := endDate b; guests := guests b; totalPrice := totalPrice b;
     status := status b; paymentStatus := paymentStatus b;
     paymentMethod := paymentMethod b; paymentProof := paymentProof b;
     cancellationReason := cancellationReason b;
     cancelledAt := cancelledAt b; cancelledBy := cancelledBy b;
     checkIn := checkIn b; checkOut := checkOut b |}.

Definition setEndDate (v : Date) (b : t) : t :=
  {| _id := _id b; property := property b; user := user b;
     startDate := startDate b; endDate := v; guests := guests b;
     totalPrice := totalPrice b; status := status b;
     paymentStatus := paymentStatus b; paymentMethod := paymentMethod b;
     paymentProof := paymentProof b;
     cancellationReason := cancellationReason b;
     cancelledAt := cancelledAt b; cancelledBy := cancelledBy b;
     checkIn := checkIn b; checkOut := checkOut b |}.

Definition setGuests (v : Z) (b : t) : t :=
  {| _id := _id b; property := property b; user := user b;
     startDate := startDate b; endDate := endDate b; guests := v;
     totalPrice := totalPrice b; status := status b;
     paymentStatus := paymentStatus b; paymentMethod := paymentMethod b;
     paymentProof := paymentProof b;
     cancellationReason := cancellationReason b;
     cancelledAt := cancelledAt b; cancelledBy := cancelledBy b;
     checkIn := checkIn b; checkOut := checkOut b |}.

Definition setTotalPrice (v : Z) (b : t) : t :=
  {| _id := _id b; property := property b; user := user b;
     startDate := startDate b; endDate := endDate b; guests := guests b;
     totalPrice := v; status := status b; paymentStatus := paymentStatus b;
     paymentMethod := paymentMethod b; paymentProof := paymentProof b;
     cancellationReason := cancellationReason b;
     cancelledAt := cancelledAt b; cancelledBy := cancelledBy b;
     checkIn := checkIn b; checkOut := checkOut b |}.

Definition setStatus (v : string) (b : t) : t :=
  {| _id := _id b; property := property b; user := user b;
     startDate := startDate b; endDate := endDate b; guests := guests b;
     totalPrice := totalPrice b; status := v;
     paymentStatus := paymentStatus b; paymentMethod := paymentMethod b;
     paymentProof := paymentProof b;
     cancellationReason := cancellationReason b;
     cancelledAt := cancelledAt b; cancelledBy := cancelledBy b;
     checkIn := checkIn b; checkOut := checkOut b |}.

Definition setPaymentStatus (v : string) (b : t) : t :=
  {| _id := _id b; property := property b; user := user b;
     startDate := startDate b; endDate := endDate b; guests := guests b;
     totalPrice := totalPrice b; status := status b; paymentStatus := v;
     paymentMethod := paymentMethod b; paymentProof := paymentProof b;
     cancellationReason := cancellationReason b;
     cancelledAt := cancelledAt b; cancelledBy := cancelledBy b;
     checkIn := checkIn b; checkOut := checkOut b |}.

Definition setPaymentMethod (v : string) (b : t) : t :=
  {| _id := _id b; property := property b; user := user b;
     startDate := startDate b; endDate := endDate b; guests := guests b;
     totalPrice := totalPrice b; status := status b;
     paymentStatus := paymentStatus b; paymentMethod := v;
     paymentProof := paymentProof b;
     cancellationReason := cancellationReason b;
     cancelledAt := cancelledAt b; cancelledBy := cancelledBy b;
     checkIn := checkIn b; checkOut := checkOut b |}.

Definition setPaymentProof (v : option PaymentProof.t) (b : t) : t :=
  {| _id := _id b; property := property b; user := user b;
     startDate := startDate b; endDate := endDate b; guests := guests b;
     totalPrice := totalPrice b; status := status b;
     paymentStatus := paymentStatus b; paymentMethod := paymentMethod b;
     paymentProof := v; cancellationReason := cancellationReason b;
     cancelledAt := cancelledAt b; cancelledBy := cancelledBy b;
     checkIn := checkIn b; checkOut := checkOut b |}.

Definition setCancellationReason (v : option string) (b : t) : t :=
  {| _id := _id b; property := property b; user := user b;
     startDate := startDate b; endDate := endDate b; guests := guests b;
     totalPrice := totalPrice b; status := status b;
     paymentStatus := paymentStatus b; paymentMethod := paymentMethod b;
     paymentProof := paymentProof b; cancellationReason := v;
     cancelledAt := cancelledAt b; cancelledBy := cancelledBy b;
     checkIn := checkIn b; checkOut := checkOut b |}.

Definition setCancelledAt (v : option Date) (b : t) : t :=
  {| _id := _id b; property := property b; user := user b;
     startDate := startDate b; endDate := endDate b; guests := guests b;
     totalPrice := totalPrice b; status := status b;
     paymentStatus := paymentStatus b; paymentMethod := paymentMethod b;
     paymentProof := paymentProof b;
     cancellationReason := cancellationReason b; cancelledAt := v;
     cancelledBy := cancelledBy b; checkIn := checkIn b;
     checkOut := checkOut b |}.

Definition setCancelledBy (v : option ObjectId) (b : t) : t :=
  {| _id := _id b; property := property b; user := user b;
     startDate := startDate b; endDate := endDate b; guests := guests b;
     totalPrice := totalPrice b; status := status b;
     paymentStatus := paymentStatus b; paymentMethod := paymentMethod b;
     paymentProof := paymentProof b;
     cancellationReason := cancellationReason b;
     cancelledAt := cancelledAt b; cancelledBy := v; checkIn := checkIn b;
     checkOut := checkOut b |}.

Definition setCheckIn (v : DateField) (b : t) : t :=
  {| _id := _id b; property := property b; user := user b;
     startDate := startDate b; endDate := endDate b; guests := guests b;
     totalPrice := totalPrice b; status := status b;
     paymentStatus := paymentStatus b; paymentMethod := paymentMethod b;
     paymentProof := paymentProof b;
     cancellationReason := cancellationReason b;
     cancelledAt := cancelledAt b; cancelledBy := cancelledBy b;
     checkIn := v; checkOut := checkOut b |}.

Definition setCheckOut (v : DateField) (b : t) : t :=
  {| _id := _id b; property := property b; user := user b;
     startDate := startDate b; endDate := endDate b; guests := guests b;
     totalPrice := totalPrice b; status := status b;
     paymentStatus := paymentStatus b; paymentMethod := paymentMethod b;
     paymentProof := paymentProof b;
     cancellationReason := cancellationReason b;
     cancelledAt := cancelledAt b; cancelledBy := cancelledBy b;
     checkIn := checkIn b; checkOut := v |}.
End Booking.

#[export] Instance Booking_Document : Document Booking.t := fun b p =>
  if String.eqb p "_id" then VString (Booking._id b)
  else if String.eqb p "property" then VString (Booking.property b)
  else if String.eqb p "user" then VString (Booking.user b)
  else if String.eqb p "startDate" then VDate (Booking.startDate b)
  else if String.eqb p "endDate" then VDate (Booking.endDate b)
  else if String.eqb p "status" then VString (Booking.status b)
  else if String.eqb p "checkIn" then dateFieldValue (Booking.checkIn b)
  else if String.eqb p "checkOut" then dateFieldValue (Booking.checkOut b)
  else VUndefined.

(** ** The Review model *)

Module Review.
Record t := {
  _id : ObjectId;
  property : ObjectId;
  user : ObjectId;
  booking : ObjectId;
  rating : Z;
  comment : string
}.
End Review.

(** ** The store and the request context *)

Record Store := {
  properties : list Property.t;
  bookings : list Booking.t;
  reviews : list Review.t
}.

(** [req.user], as the authentication layer attaches it. *)
Record Actor := {
  id : ObjectId;
  role : string
}.

(** ** Availability *)

(** The query of [Booking.isDateRangeAvailable]. *)
Definition dateRangeQuery (propertyId : ObjectId) (startDate endDate : Date)
    (excludeBookingId : option ObjectId) : Query :=
  let query := objectLiteral
    [ ("property", Cond [op_eq (VString propertyId)]);
      ("status", Cond [op_ne (VString "cancelled")]);
      ("$or", Or
        [ objectLiteral
            [("startDate", [op_lt (VDate endDate); op_gte (VDate startDate)])];
          objectLiteral
            [("endDate", [op_gt (VDate startDate); op_lte (VDate endDate)])];
          objectLiteral
            [("startDate", [op_lte (VDate startDate)]);
             ("endDate", [op_gte (VDate endDate)])] ]) ] in
  match excludeBookingId with
  | Some bid => setProp query "_id" (Cond [op_ne (VString bid)])
  | None => query
  end.

Definition isDateRangeAvailable (st : Store) (propertyId : ObjectId)
    (startDate endDate : Date) (excludeBookingId : option ObjectId) : bool :=
  let count :=
    countDocuments
      (dateRangeQuery propertyId startDate endDate excludeBookingId)
      (bookings st) in
  count =? 0.

(** [Property.prototype.isAvailableForDates] *)
Definition isAvailableForDates (st : Store) (this : Property.t)
    (startDate endDate : Date) : bool :=
  if negb (Property.isAvailable this) then false
  else
    let availableFrom := Property.availableFrom this in
    let availableTo := Property.availableTo this in
    if startDate <? availableFrom then false
    else if match availableTo with
            | Some t => endDate >? t
            | None => false
            end then false
    else
      let conflictingBooking :=
        findOne
          (objectLiteral
            [ ("property", Cond [op_eq (VString (Property._id this))]);
              ("status", Cond [op_ne (VString "cancelled")]);
              ("$or", Or
                [ objectLiteral
                    [("startDate",
                      [op_lt (VDate endDate); op_gte (VDate startDate)])];
                  objectLiteral
                    [("endDate",
                      [op_gt (VDate startDate); op_lte (VDate endDate)])];
                  objectLiteral
                    [("startDate", [op_lte (VDate startDate)]);
                     ("endDate", [op_gte (VDate endDate)])] ]) ])
          (bookings st) in
      match conflictingBooking with
      | Some _ => false
      | None => true
      end.

(** The three disjuncts of the conflict query on a stored range
    [s2, e2) for a candidate [s, e), and the single overlap predicate. *)
Definition threeDisjuncts (s e s2 e2 : Date) : bool :=
  ((s2 <? e) && (s2 >=? s))
  || ((e2 >? s) && (e2 <=? e))
  || ((s2 <=? s) && (e2 >=? e)).

Definition overlaps (s e s2 e2 : Date) : Prop := s < e2 /\ e > s2.

(** No booking of [P] that is not cancelled overlaps [s, e). *)
Definition overlapFree (st : Store) (P : Property.t) (s e : Date) : Prop :=
  forall b, In b (bookings st) ->
    Booking.property b = Property._id P ->
    Booking.status b <> "cancelled" ->
    ~ overlaps s e (Booking.startDate b) (Booking.endDate b).


(** ** Errors and responses *)

(** What reaches the error middleware. *)
Inductive Error :=
| ErrorResponse (message : string) (statusCode : Z)
| ValidationError (path : string) (message : string)
| PlainError (message : string)
| TypeError (message : string)
| ReferenceError (message : string)
| DuplicateKeyError (index : string).

(** A handler either sends a response ([res.status(c).json({ success: true,
    data })]) or hands an error over ([next(err)], or a throw that
    [asyncHandler] forwards). *)
Inductive Outcome (A : Type) :=
| Sent (statusCode : Z) (data : A)
| Next (err : Error).
Arguments Sent {A} statusCode data.
Arguments Next {A} err.

Definition isSuccess {A} (o : Outcome A) : bool :=
  match o with
  | Sent _ _ => true
  | Next _ => false
  end.

(** ** Collections *)

Definition findBookingById (st : Store) (bid : ObjectId) : option Booking.t :=
  find (fun b => String.eqb (Booking._id b) bid) (bookings st).

Definition findPropertyById (st : Store) (pid : ObjectId)
  : option Property.t :=
  find (fun p => String.eqb (Property._id p) pid) (properties st).

Definition findReviewById (st : Store) (rid : ObjectId) : option Review.t :=
  find (fun r => String.eqb (Review._id r) rid) (reviews st).

(** Rewrite the first document that [sameId] selects. *)
Fixpoint replaceFirst {A} (sameId : A -> bool) (doc : A) (coll : list A)
  : list A :=
  match coll with
  | [] => []
  | d :: rest =>
      if sameId d then doc :: rest else d :: replaceFirst sameId doc rest
  end.

Fixpoint removeFirst {A} (sameId : A -> bool) (coll : list A) : list A :=
  match coll with
  | [] => []
  | d :: rest => if sameId d then rest else d :: removeFirst sameId rest
  end.

Definition withBookings (st : Store) (bs : list Booking.t) : Store :=
  {| properties := properties st; bookings := bs; reviews := reviews st |}.

Definition withReviews (st : Store) (rs : list Review.t) : Store :=
  {| properties := properties st; bookings := bookings st; reviews := rs |}.

Definition withProperties (st : Store) (ps : list Property.t) : Store :=
  {| properties := ps; bookings := bookings st; reviews := reviews st |}.

Definition writeBooking (st : Store) (doc : Booking.t) : Store :=
  withBookings st
    (replaceFirst (fun b => String.eqb (Booking._id b) (Booking._id doc))
       doc (bookings st)).

(** ** Validation and the save of a booking *)

Definition inEnum (values : list string) (v : string) : bool :=
  existsb (String.eqb v) values.

Definition enumMessage (v p : string) : string :=
  ("`" ++ v ++ "` is not a valid enum value for path `" ++ p ++ "`.")%string.

(** The validators of the booking schema on the paths the embedding keeps:
    [guests] has [min: 1], the three enumerated paths must hold a member of
    their enumeration, [cancellationReason] has [maxlength: 500]. *)
Definition validateBooking (b : Booking.t) : option Error :=
  if Booking.guests b <? 1 then
    Some (ValidationError "guests" "At least one guest is required")
  else if negb (inEnum Booking.statusEnum (Booking.status b)) then
    Some (ValidationError "status" (enumMessage (Booking.status b) "status"))
  else if negb (inEnum Booking.paymentStatusEnum (Booking.paymentStatus b))
  then
    Some (ValidationError "paymentStatus"
            (enumMessage (Booking.paymentStatus b) "paymentStatus"))
  else if negb (inEnum Booking.paymentMethodEnum (Booking.paymentMethod b))
  then
    Some (ValidationError "paymentMethod"
            (enumMessage (Booking.paymentMethod b) "paymentMethod"))
  else
    match Booking.cancellationReason b with
    | Some r =>
        if (500 <? String.length r)%nat then
          Some (ValidationError "cancellationReason"
                  "Cancellation reason cannot be longer than 500 characters")
        else None
    | None => None
    end.

(** [bookingSchema.pre('save')]: the total price is recomputed unless no
    date was modified and the stored total is truthy (non-zero). *)
Definition preSave (st : Store) (isModified : string -> bool)
    (this : Booking.t) : Error + Booking.t :=
  if negb (isModified "startDate") && negb (isModified "endDate")
     && negb (Booking.totalPrice this =? 0)
  then inr this
  else
    match findPropertyById st (Booking.property this) with
    | None => inl (PlainError "Property not found")
    | Some property =>
        let nights :=
          ceilDiv (Booking.endDate this - Booking.startDate this)
                  (1000 * 60 * 60 * 24) in
        inr (Booking.setTotalPrice (Property.price property * nights) this)
    end.

(** [doc.save()] of a loaded booking: validation, then the hook, then the
    write. *)
Definition save (st : Store) (isModified : string -> bool)
    (doc : Booking.t) : Error + (Booking.t * Store) :=
  match validateBooking doc with
  | Some e => inl e
  | None =>
      match preSave st isModified doc with
      | inl e => inl e
      | inr doc' => inr (doc', writeBooking st doc')
      end
  end.

(** [Booking.create(doc)]: the same, the document being appended. *)
Definition create (st : Store) (doc : Booking.t)
  : Error + (Booking.t * Store) :=
  match validateBooking doc with
  | Some e => inl e
  | None =>
      match preSave st (fun _ => true) doc with
      | inl e => inl e
      | inr doc' => inr (doc', withBookings st (bookings st ++ [doc']))
      end
  end.

Definition modified (paths : list string) : string -> bool :=
  fun p => existsb (String.eqb p) paths.

(** ** Instance methods of the Booking model *)

(** [bookingSchema.methods.cancel] *)
Definition cancel (st : Store) (now : Date) (this : Booking.t)
    (userId : ObjectId) (reason : string) : Error + (Booking.t * Store) :=
  let this := Booking.setStatus "cancelled" this in
  let this := Booking.setCancelledAt (Some now) this in
  let this := Booking.setCancelledBy (Some userId) this in
  let this := Booking.setCancellationReason (Some reason) this in
  save st
    (modified ["status"; "cancelledAt"; "cancelledBy"; "cancellationReason"])
    this.

(** [bookingSchema.methods.addPaymentProof] *)
Definition addPaymentProof (st : Store) (now : Date) (this : Booking.t)
    (url publicId : string) (verifiedBy : option ObjectId)
  : Error + (Booking.t * Store) :=
  let this :=
    Booking.setPaymentProof
      (Some {| PaymentProof.url := url;
               PaymentProof.publicId := publicId;
               PaymentProof.verified :=
                 match verifiedBy with Some _ => true | None => false end;
               PaymentProof.verifiedAt :=
                 match verifiedBy with Some _ => Some now | None => None end;
               PaymentProof.verifiedBy := verifiedBy |}) this in
  let this :=
    match verifiedBy with
    | Some _ => Booking.setPaymentStatus "paid" this
    | None => this
    end in
  save st (modified ["paymentProof"; "paymentStatus"]) this.

(** ** The booking controller *)

Definition BookingResponse := Outcome (option Booking.t).

(** A date of a request body: a non-empty text that spells the date whose
    time value is [t], or the JSON number [t]. *)
Inductive BodyDate :=
| DateText (t : Date)
| DateNumber (t : Date).

(** [new Date(v)], and what the cast of the schema stores. *)
Definition castDate (v : BodyDate) : Date :=
  match v with
  | DateText t => t
  | DateNumber t => t
  end.

(** Whether [req.body.startDate] is truthy: a missing path is not, a
    non-empty text is, a number is unless it is zero. *)
Definition truthy (v : option BodyDate) : bool :=
  match v with
  | None => false
  | Some (DateText _) => true
  | Some (DateNumber t) => negb (t =? 0)
  end.

(** [new Date(req.body.startDate || booking.startDate)] *)
Definition dateOr (v : option BodyDate) (stored : Date) : Date :=
  match v with
  | Some d => if truthy v then castDate d else stored
  | None => stored
  end.

(** The paths of a request body that the embedding keeps. *)
Record BookingBody := {
  body_property : option ObjectId;
  body_startDate : option BodyDate;
  body_endDate : option BodyDate;
  body_guests : option Z;
  body_totalPrice : option Z;
  body_status : option string;
  body_paymentStatus : option string;
  body_paymentMethod : option string
}.

Definition isSome {A} (o : option A) : bool :=
  match o with
  | Some _ => true
  | None => false
  end.

(** [a || b] on a request path with a stored fallback. *)
Definition orElse {A} (o : option A) (d : A) : A :=
  match o with
  | Some a => a
  | None => d
  end.

Definition notFound (bid : ObjectId) : Error :=
  ErrorResponse ("Booking not found with id of " ++ bid)%string 404.

Definition nullProperty : Error :=
  TypeError "Cannot read properties of null".

(** The ownership test shared by update, delete and cancel:
    [[booking.user.toString() !== req.user.id &&
      booking.property.createdBy.toString() !== req.user.id &&
      req.user.role !== 'admin']].
    [booking.property] is the populated property, [null] when the
    reference dangles; the conjunction stops at the first false operand. *)
Definition ownership (populated : option Property.t) (booking : Booking.t)
    (user : Actor) (verb : string) : option Error :=
  if negb (String.eqb (Booking.user booking) (id user)) then
    match populated with
    | None => Some nullProperty
    | Some property =>
        if negb (String.eqb (Property.createdBy property) (id user))
           && negb (String.eqb (role user) "admin")
        then Some (ErrorResponse
                     ("User " ++ id user ++ " is not authorized to "
                      ++ verb ++ " this booking")%string 401)
        else None
    end
  else None.

(** [exports.createBooking]; [newId] is the identifier the driver gives the
    new document.  The two dates of the body are passed on their own, a
    create needing both; the handler overwrites [user], [property] and
    [totalPrice] of the body. *)
Definition createBooking (st : Store) (user : Actor) (propertyId : ObjectId)
    (startDate endDate : Date) (body : BookingBody) (newId : ObjectId)
  : BookingResponse * Store :=
  match findPropertyById st propertyId with
  | None =>
      (Next (ErrorResponse
               ("Property not found with id of " ++ propertyId)%string 404),
       st)
  | Some property =>
      let isAvailable := isAvailableForDates st property startDate endDate in
      if negb isAvailable then
        (Next (ErrorResponse
                 "Property is not available for the selected dates" 400), st)
      else
        let nights := ceilDiv (endDate - startDate) (1000 * 60 * 60 * 24) in
        let totalPrice := Property.price property * nights in
        let doc :=
          {| Booking._id := newId;
             Booking.property := propertyId;
             Booking.user := id user;
             Booking.startDate := startDate;
             Booking.endDate := endDate;
             Booking.guests := orElse (body_guests body) 0;
             Booking.totalPrice := totalPrice;
             Booking.status := orElse (body_status body) "pending";
             Booking.paymentStatus :=
               orElse (body_paymentStatus body) "pending";
             Booking.paymentMethod :=
               orElse (body_paymentMethod body) EmptyString;
             Booking.paymentProof := None;
             Booking.cancellationReason := None;
             Booking.cancelledAt := None;
             Booking.cancelledBy := None;
             Booking.checkIn := Null;
             Booking.checkOut := Null |} in
        match create st doc with
        | inl e => (Next e, st)
        | inr (booking, st') => (Sent 201 (Some booking), st')
        end
  end.

Fixpoint firstError (checks : list (option Error)) : option Error :=
  match checks with
  | [] => None
  | Some e :: _ => Some e
  | None :: rest => firstError rest
  end.

Definition checkEnum (values : list string) (p : string) (v : option string)
  : option Error :=
  match v with
  | Some s =>
      if negb (inEnum values s) then
        Some (ValidationError p (enumMessage s p))
      else None
  | None => None
  end.

(** The update validators ([runValidators: true]) look at the paths of the
    update only. *)
Definition validateUpdate (body : BookingBody) : option Error :=
  firstError
    [ match body_guests body with
      | Some g =>
          if g <? 1 then
            Some (ValidationError "guests" "At least one guest is required")
          else None
      | None => None
      end;
      checkEnum Booking.statusEnum "status" (body_status body);
      checkEnum Booking.paymentStatusEnum "paymentStatus"
        (body_paymentStatus body);
      checkEnum Booking.paymentMethodEnum "paymentMethod"
        (body_paymentMethod body) ].

(** [$set] of the paths the body carries. *)
Definition applyBody (body : BookingBody) (b : Booking.t) : Booking.t :=
  let set {A} (f : A -> Booking.t -> Booking.t) (v : option A) b :=
    match v with
    | Some a => f a b
    | None => b
    end in
  set Booking.setPaymentMethod (body_paymentMethod body)
    (set Booking.setPaymentStatus (body_paymentStatus body)
      (set Booking.setStatus (body_status body)
        (set Booking.setTotalPrice (body_totalPrice body)
          (set Booking.setGuests (body_guests body)
            (set Booking.setEndDate (option_map castDate (body_endDate body))
              (set Booking.setStartDate
                 (option_map castDate (body_startDate body))
                (set Booking.setProperty (body_property body) b))))))).

(** [Booking.findByIdAndUpdate(id, body, { new: true, runValidators: true })]
    no save hook runs. *)
Definition findByIdAndUpdate (st : Store) (bid : ObjectId)
    (body : BookingBody) : Error + (option Booking.t * Store) :=
  match validateUpdate body with
  | Some e => inl e
  | None =>
      match findBookingById st bid with
      | None => inr (None, st)
      | Some b =>
          let b' := applyBody body b in
          inr (Some b', writeBooking st b')
      end
  end.

Definition withTotalPrice (body : BookingBody) (v : Z) : BookingBody :=
  {| body_property := body_property body;
     body_startDate := body_startDate body;
     body_endDate := body_endDate body;
     body_guests := body_guests body;
     body_totalPrice := Some v;
     body_status := body_status body;
     body_paymentStatus := body_paymentStatus body;
     body_paymentMethod := body_paymentMethod body |}.

(** [exports.updateBooking].  The date branch is entered when one of the
    two dates of the body is truthy; whatever the branch, the update
    writes every path the body carries. *)
Definition updateBooking (st : Store) (user : Actor) (bid : ObjectId)
    (body : BookingBody) : BookingResponse * Store :=
  match findBookingById st bid with
  | None => (Next (notFound bid), st)
  | Some booking =>
      let populated := findPropertyById st (Booking.property booking) in
      match ownership populated booking user "update" with
      | Some e => (Next e, st)
      | None =>
          let checked : Error + BookingBody :=
            if truthy (body_startDate body) || truthy (body_endDate body)
            then
              let startDate :=
                dateOr (body_startDate body) (Booking.startDate booking) in
              let endDate :=
                dateOr (body_endDate body) (Booking.endDate booking) in
              match populated with
              | None => inl nullProperty
              | Some property =>
                  let isAvailable :=
                    isDateRangeAvailable st (Property._id property)
                      startDate endDate (Some (Booking._id booking)) in
                  if negb isAvailable then
                    inl (ErrorResponse
                      "Property is not available for the selected dates" 400)
                  else
                    let nights :=
                      ceilDiv (endDate - startDate) (1000 * 60 * 60 * 24) in
                    inr (withTotalPrice body
                           (Property.price property * nights))
              end
            else inr body in
          match checked with
          | inl e => (Next e, st)
          | inr body' =>
              match findByIdAndUpdate st bid body' with
              | inl e => (Next e, st)
              | inr (booking', st') => (Sent 200 booking', st')
              end
          end
      end
  end.

(** [req.files.file] *)
Record UploadedFile := {
  mimetype : string;
  size : Z;
  tempFilePath : string
}.

(** What [cloudinary.uploader.upload] resolves to. *)
Record UploadResult := {
  secure_url : string;
  public_id : string
}.

(** [exports.uploadPaymentProof]; [uploaded] is the answer of the media
    store, [None] when the upload throws.  The save sits in the same [try]
    as the upload, so its failure is reported alike. *)
Definition uploadPaymentProof (st : Store) (now : Date) (user : Actor)
    (bid : ObjectId) (files : option UploadedFile)
    (uploaded : option UploadResult) : BookingResponse * Store :=
  match findBookingById st bid with
  | None => (Next (notFound bid), st)
  | Some booking =>
      if negb (String.eqb (Booking.user booking) (id user))
         && negb (String.eqb (role user) "admin")
      then
        (Next (ErrorResponse
                 ("User " ++ id user
                  ++ " is not authorized to update this booking")%string 401),
         st)
      else
        match files with
        | None => (Next (ErrorResponse "Please upload a file" 400), st)
        | Some file =>
            if negb (String.prefix "image" (mimetype file)) then
              (Next (ErrorResponse "Please upload an image file" 400), st)
            else
              let maxSize := 1000000 in
              if size file >? maxSize then
                (Next (ErrorResponse
                         "Please upload an image less than 1000KB" 400), st)
              else
                let problem :=
                  (Next (ErrorResponse "Problem with file upload" 500), st) in
                match uploaded with
                | None => problem
                | Some result =>
                    let admin := String.eqb (role user) "admin" in
                    let booking :=
                      Booking.setPaymentProof
                        (Some
                           {| PaymentProof.url := secure_url result;
                              PaymentProof.publicId := public_id result;
                              PaymentProof.verified := admin;
                              PaymentProof.verifiedAt :=
                                if admin then Some now else None;
                              PaymentProof.verifiedBy :=
                                if admin then Some (id user) else None |})
                        booking in
                    let booking :=
                      if admin then Booking.setPaymentStatus "paid" booking
                      else Booking.setPaymentStatus "pending" booking in
                    match
                      save st (modified ["paymentProof"; "paymentStatus"])
                        booking
                    with
                    | inl _ => problem
                    | inr (booking, st') => (Sent 200 (Some booking), st')
                    end
                end
        end
  end.

(** What [booking.paymentProof] reads as.  The path is a nested one, so
    the getter answers with an object even when no proof was ever stored:
    [None] reads as the object whose [verified] is its default and whose
    other paths are unset.  An unset text is written as the empty text,
    which is as falsy as [undefined]. *)
Definition nestedProof (booking : Booking.t) : PaymentProof.t :=
  match Booking.paymentProof booking with
  | Some proof => proof
  | None =>
      {| PaymentProof.url := EmptyString;
         PaymentProof.publicId := EmptyString;
         PaymentProof.verified := false;
         PaymentProof.verifiedAt := None;
         PaymentProof.verifiedBy := None |}
  end.

(** [exports.verifyPayment] (the route admits administrators only).  The
    test [!booking.paymentProof] never holds, an object being truthy, so
    the branch that answers 400 is never taken. *)
Definition verifyPayment (st : Store) (now : Date) (user : Actor)
    (bid : ObjectId) : BookingResponse * Store :=
  match findBookingById st bid with
  | None => (Next (notFound bid), st)
  | Some booking =>
      let proof := nestedProof booking in
      let proof :=
        {| PaymentProof.url := PaymentProof.url proof;
           PaymentProof.publicId := PaymentProof.publicId proof;
           PaymentProof.verified := true;
           PaymentProof.verifiedAt := Some now;
           PaymentProof.verifiedBy := Some (id user) |} in
      let booking := Booking.setPaymentProof (Some proof) booking in
      let booking := Booking.setPaymentStatus "paid" booking in
      let booking :=
        if String.eqb (Booking.status booking) "pending"
        then Booking.setStatus "confirmed" booking
        else booking in
      match
        save st (modified ["paymentProof"; "paymentStatus"; "status"])
          booking
      with
      | inl e => (Next e, st)
      | inr (booking, st') => (Sent 200 (Some booking), st')
      end
  end.

(** [req.body.reason || 'Cancelled by user'] *)
Definition reasonOrDefault (reason : option string) : string :=
  match reason with
  | Some (String c r) => String c r
  | _ => "Cancelled by user"
  end.

(** [exports.cancelBooking] *)
Definition cancelBooking (st : Store) (now : Date) (user : Actor)
    (bid : ObjectId) (reason : option string) : BookingResponse * Store :=
  match findBookingById st bid with
  | None => (Next (notFound bid), st)
  | Some booking =>
      let populated := findPropertyById st (Booking.property booking) in
      match ownership populated booking user "cancel" with
      | Some e => (Next e, st)
      | None =>
          let checkInDate := Booking.startDate booking in
          let daysUntilCheckIn :=
            ceilDiv (checkInDate - now) (1000 * 60 * 60 * 24) in
          if (daysUntilCheckIn <? 2)
             && negb (String.eqb (role user) "admin")
          then
            (Next (ErrorResponse
               "Bookings can only be cancelled up to 48 hours before check-in"
               400), st)
          else
            match cancel st now booking (id user) (reasonOrDefault reason)
            with
            | inl e => (Next e, st)
            | inr (_, st') => (Sent 200 None, st')
            end
      end
  end.

(** [exports.checkIn] *)
Definition checkIn (st : Store) (now : Date) (bid : ObjectId)
  : BookingResponse * Store :=
  match findBookingById st bid with
  | None => (Next (notFound bid), st)
  | Some booking =>
      if negb (String.eqb (Booking.status booking) "confirmed") then
        (Next (ErrorResponse
                 ("Cannot check in a booking with status '"
                  ++ Booking.status booking ++ "'")%string 400), st)
      else
        let booking := Booking.setCheckIn (At now) booking in
        let booking := Booking.setStatus "checked_in" booking in
        match save st (modified ["checkIn"; "status"]) booking with
        | inl e => (Next e, st)
        | inr (booking, st') => (Sent 200 (Some booking), st')
        end
  end.

(** [exports.checkOut] *)
Definition checkOut (st : Store) (now : Date) (bid : ObjectId)
  : BookingResponse * Store :=
  match findBookingById st bid with
  | None => (Next (notFound bid), st)
  | Some booking =>
      if negb (String.eqb (Booking.status booking) "checked_in") then
        (Next (ErrorResponse
                 ("Cannot check out a booking with status '"
                  ++ Booking.status booking ++ "'")%string 400), st)
      else
        let booking := Booking.setCheckOut (At now) booking in
        let booking := Booking.setStatus "completed" booking in
        match save st (modified ["checkOut"; "status"]) booking with
        | inl e => (Next e, st)
        | inr (booking, st') => (Sent 200 (Some booking), st')
        end
  end.

(** The operations of the ledger that can write a booking's status. *)
Inductive LedgerOp :=
| Update (user : Actor) (bid : ObjectId) (body : BookingBody)
| Cancel (user : Actor) (bid : ObjectId) (reason : option string)
| CheckIn (bid : ObjectId)
| CheckOut (bid : ObjectId)
| VerifyPayment (user : Actor) (bid : ObjectId).

Definition run (now : Date) (op : LedgerOp) (st : Store)
  : BookingResponse * Store :=
  match op with
  | Update user bid body => updateBooking st user bid body
  | Cancel user bid reason => cancelBooking st now user bid reason
  | CheckIn bid => checkIn st now bid
  | CheckOut bid => checkOut st now bid
  | VerifyPayment user bid => verifyPayment st now user bid
  end.

Definition statusOf (st : Store) (bid : ObjectId) : option string :=
  option_map Booking.status (findBookingById st bid).

(** ** Rating aggregates *)

(** One group of [$group: { _id: '$property', ... }]. *)
Record RatingStats := {
  avgRating : Q;
  nRating : Z
}.

(** [aggregate([{ $match: { property } }, { $group: ... }])]: no group when
    nothing matches, else the one group of the property. *)
Definition aggregate (st : Store) (propertyId : ObjectId)
  : list RatingStats :=
  let matched :=
    filter (fun r => String.eqb (Review.property r) propertyId)
      (reviews st) in
  match matched with
  | [] => []
  | _ :: _ =>
      let n := Z.of_nat (List.length matched) in
      let sum := fold_left Z.add (map Review.rating matched) 0 in
      [ {| avgRating := (inject_Z sum / inject_Z n)%Q; nRating := n |} ]
  end.

(** An update document of the rating recomputations: numbers by path. *)
Definition PropertyUpdate := list (string * Q).

(** What a strict schema lets through: the entries whose path it
    declares. *)
Definition strict (update : PropertyUpdate) : PropertyUpdate :=
  filter (fun kv => inEnum Property.schemaPaths (fst kv)) update.

(** [$set] of one declared path.  Of the declared paths the embedding
    keeps one number, [price], a whole number. *)
Definition setNumber (p : Property.t) (kv : string * Q) : Property.t :=
  if String.eqb (fst kv) "price" then Property.setPrice (Qfloor (snd kv)) p
  else p.

(** [Property.findByIdAndUpdate(propertyId, update)]: nothing happens when
    no property carries the identifier.  (The [updatedAt] stamp that the
    [timestamps] option of the schema adds is not among the paths the
    embedding keeps.) *)
Definition updateProperty (st : Store) (propertyId : ObjectId)
    (update : PropertyUpdate) : Store :=
  match findPropertyById st propertyId with
  | None => st
  | Some p =>
      withProperties st
        (replaceFirst (fun q => String.eqb (Property._id q) propertyId)
           (fold_left setNumber (strict update) p) (properties st))
  end.

(** The update document of [calculateAverageRating]. *)
Definition averageRatingUpdate (stats : list RatingStats)
  : PropertyUpdate :=
  objectLiteral
    [ ("averageRating",
       match stats with
       | s :: _ => (inject_Z (Qceiling (avgRating s * 10)) / 10)%Q
       | [] => 0%Q
       end);
      ("numberOfReviews",
       match stats with
       | s :: _ => inject_Z (nRating s)
       | [] => 0%Q
       end) ].

(** [calculateAverageRating], the helper of the review controller; an
    error of the update would be caught and logged. *)
Definition calculateAverageRating (st : Store) (propertyId : ObjectId)
  : Store :=
  let stats := aggregate st propertyId in
  updateProperty st propertyId (averageRatingUpdate stats).

(** The update document of [calcAverageRatings], one literal for each
    branch of its test [stats.length > 0]. *)
Definition ratingsUpdate (stats : list RatingStats) : PropertyUpdate :=
  match stats with
  | s :: _ =>
      objectLiteral
        [ ("ratingsQuantity", inject_Z (nRating s));
          ("ratingsAverage", avgRating s) ]
  | [] =>
      objectLiteral
        [ ("ratingsQuantity", 0%Q);
          ("ratingsAverage", 4.5%Q) ]
  end.

(** [reviewSchema.statics.calcAverageRatings] *)
Definition calcAverageRatings (st : Store) (propertyId : ObjectId) : Store :=
  let stats := aggregate st propertyId in
  updateProperty st propertyId (ratingsUpdate stats).

(** ** The review controller *)

Definition ReviewResponse := Outcome (option Review.t).

Record ReviewBody := {
  body_booking : option ObjectId;
  body_rating : option Z;
  body_comment : option string
}.

(** [exports.addReview].  The module of the review controller requires
    [Review], [Property], [ErrorResponse] and [asyncHandler]; the name
    [Booking] is bound nowhere in it.  Once the property is found the
    handler evaluates [Booking.findOne(...)], which throws before any
    argument is looked at, and [asyncHandler] forwards the error: the
    tests on the booking and on an existing review, [Review.create] and
    the recomputation that follow are never reached. *)
Definition addReview (st : Store) (user : Actor) (propertyId : ObjectId)
    (body : ReviewBody) : ReviewResponse * Store :=
  match findPropertyById st propertyId with
  | None =>
      (Next (ErrorResponse
               ("No property with the id of " ++ propertyId)%string 404), st)
  | Some property =>
      (Next (ReferenceError "Booking is not defined"), st)
  end.

(** [exports.deleteReview]; [users] holds the identifiers of the User
    collection.  [Review.findById] runs the [pre(/^find/)] hook of the
    model, which populates [user]: [review.user] is the author's document,
    or [null] when the account is gone.  A document does not print as its
    identifier, so [review.user.toString() !== req.user.id] holds of every
    actor, and on [null] the call throws.  The document's own [remove()]
    fires none of the hooks the Review model registers. *)
Definition deleteReview (st : Store) (users : list ObjectId) (user : Actor)
    (rid : ObjectId) : ReviewResponse * Store :=
  match findReviewById st rid with
  | None =>
      (Next (ErrorResponse ("No review with the id of " ++ rid)%string 404),
       st)
  | Some review =>
      match find (String.eqb (Review.user review)) users with
      | None =>
          (Next (TypeError
                   "Cannot read properties of null (reading 'toString')"),
           st)
      | Some author =>
          let printsAsId := false in
          if negb printsAsId && negb (String.eqb (role user) "admin")
          then
            (Next (ErrorResponse "Not authorized to delete review" 401), st)
          else
            let propertyId := Review.property review in
            let st :=
              withReviews st
                (removeFirst (fun r => String.eqb (Review._id r) rid)
                   (reviews st)) in
            (Sent 200 None, calculateAverageRating st propertyId)
      end
  end.

(** [Review.findByIdAndDelete(id)], the removal the test suites use: its
    [post(/^findOneAnd/)] hook runs [calcAverageRatings]. *)
Definition findByIdAndDelete (st : Store) (rid : ObjectId) : Store :=
  match findReviewById st rid with
  | None => st
  | Some doc =>
      let st :=
        withReviews st
          (removeFirst (fun r => String.eqb (Review._id r) rid)
             (reviews st)) in
      calcAverageRatings st (Review.property doc)
  end.

(** ** Statements about the ledger *)

(** No booking of the property that is not cancelled, the excluded one
    apart, meets one of the three disjuncts of the conflict query for the
    candidate [s, e). *)
Definition conflictFree (st : Store) (propertyId : ObjectId)
    (excluded : option ObjectId) (s e : Date) : Prop :=
  forall b, In b (bookings st) ->
    Booking.property b = propertyId ->
    Booking.status b <> "cancelled" ->
    Some (Booking._id b) <> excluded ->
    threeDisjuncts s e (Booking.startDate b) (Booking.endDate b) = false.

(** The body carries no date that is falsy. *)
Definition datesTruthy (body : BookingBody) : Prop :=
  truthy (body_startDate body) = isSome (body_startDate body)
  /\ truthy (body_endDate body) = isSome (body_endDate body).

(** Apart from [b] itself, no booking that the conflict query looks at
    meets the dates [b] holds. *)
Definition otherwiseFree (st : Store) (b : Booking.t) : Prop :=
  forall b2, In b2 (bookings st) ->
    Booking._id b2 <> Booking._id b ->
    Booking.property b2 = Booking.property b ->
    Booking.status b2 <> "cancelled" ->
    threeDisjuncts (Booking.startDate b) (Booking.endDate b)
      (Booking.startDate b2) (Booking.endDate b2) = false.

Definition terminal (s : string) : Prop :=
  s = "cancelled" \/ s = "completed".

(** The operation [op] leaves a terminal status of booking [bid] alone. *)
Definition keepsTerminalStatus (now : Date) (op : LedgerOp) (st : Store)
    (bid : ObjectId) : Prop :=
  forall s, statusOf st bid = Some s -> terminal s ->
    statusOf (snd (run now op st)) bid = Some s.

(** The operations that never write over a terminal status [s] of [bid]:
    an update whose body carries no status, a cancel of a booking that is
    cancelled already, and check-in, check-out and payment verification. *)
Definition sparesTerminal (op : LedgerOp) (bid : ObjectId) (s : string)
  : Prop :=
  match op with
  | Update _ b body => b = bid -> body_status body = None
  | Cancel _ b _ => b = bid -> s = "cancelled"
  | CheckIn _ | CheckOut _ | VerifyPayment _ _ => True
  end.

(** The booking named in a review request is the reviewer's, completed,
    and checked out by [now]. *)
Definition referencedBookingEligible (st : Store) (now : Date)
    (user : Actor) (body : ReviewBody) : Prop :=
  exists b d,
    In b (bookings st)
    /\ body_booking body = Some (Booking._id b)
    /\ Booking.user b = id user
    /\ Booking.status b = "completed"
    /\ Booking.checkOut b = At d
    /\ d <= now.

(** ** Fixtures, after the test suites *)

Definition testAdmin : Actor := {| id := "admin1"; role := "admin" |}.
Definition testUser : Actor := {| id := "user1"; role := "user" |}.

(** Midnight UTC of the days the suites use. *)
Definition jan01 : Date := 1735689600000.
Definition jun01 : Date := 1748736000000.
Definition jun05 : Date := 1749081600000.
Definition jun07 : Date := 1749254400000.
Definition jun10 : Date := 1749513600000.
Definition jul01 : Date := 1751328000000.
Definition jul07 : Date := 1751846400000.
Definition dec31 : Date := 1767139200000.

Definition testProperty : Property.t :=
  {| Property._id := "p1";
     Property.price := 200;
     Property.availableFrom := jan01;
     Property.availableTo := Some dec31;
     Property.isAvailable := true;
     Property.createdBy := "admin1" |}.

Definition testBooking : Booking.t :=
  {| Booking._id := "b1";
     Booking.property := "p1";
     Booking.user := "user1";
     Booking.startDate := jun01;
     Booking.endDate := jun07;
     Booking.guests := 2;
     Booking.totalPrice := 1200;
     Booking.status := "confirmed";
     Booking.paymentStatus := "paid";
     Booking.paymentMethod := "credit_card";
     Booking.paymentProof := None;
     Booking.cancellationReason := None;
     Booking.cancelledAt := None;
     Booking.cancelledBy := None;
     Booking.checkIn := Null;
     Booking.checkOut := Null |}.

Definition storeWith (bs : list Booking.t) (rs : list Review.t) : Store :=
  {| properties := [testProperty]; bookings := bs; reviews := rs |}.

Definition testStore : Store := storeWith [testBooking] [].

Definition newBookingBody : BookingBody :=
  {| body_property := None;
     body_startDate := Some (DateText jul01);
     body_endDate := Some (DateText jul07);
     body_guests := Some 2;
     body_totalPrice := None;
     body_status := None;
     body_paymentStatus := None;
     body_paymentMethod := Some "credit_card" |}.

(** A body that carries the two dates only, as texts. *)
Definition datesBody (startDate endDate : Date) : BookingBody :=
  {| body_property := None;
     body_startDate := Some (DateText startDate);
     body_endDate := Some (DateText endDate);
     body_guests := None;
     body_totalPrice := None;
     body_status := None;
     body_paymentStatus := None;
     body_paymentMethod := None |}.

Definition testReview : Review.t :=
  {| Review._id := "r1";
     Review.property := "p1";
     Review.user := "user1";
     Review.booking := "b1";
     Review.rating := 5;
     Review.comment := "Great property, had a wonderful stay!" |}.

Definition reviewBody (bookingId : ObjectId) : ReviewBody :=
  {| body_booking := Some bookingId;
     body_rating := Some 4;
     body_comment := Some "Great stay, would recommend!" |}.

Definition testFile : UploadedFile :=
  {| mimetype := "image/jpeg"; size := 52000;
     tempFilePath := "/tmp/test-receipt.jpg" |}.

Definition testUpload : UploadResult :=
  {| secure_url := "https://media.example/payment_b1.jpg";
     public_id := "cyc-acres/payments/payment_b1" |}.

(** The June stay, completed, and a second completed stay of the same
    guest at the same property. *)
Definition completedBooking : Booking.t :=
  Booking.setCheckOut (At jun07)
    (Booking.setCheckIn (At jun01)
       (Booking.setStatus "completed" testBooking)).


(** ** Further handlers of the booking and property controllers *)

(** [exports.deleteBooking].  The booking is loaded without [populate], so
    [booking.property] is the stored identifier: it has no [createdBy],
    and the second operand of the ownership test,
    [booking.property.createdBy.toString()], throws as soon as the first
    one lets it be evaluated, that is for every actor but the guest. *)
Definition deleteBooking (st : Store) (user : Actor) (bid : ObjectId)
  : BookingResponse * Store :=
  match findBookingById st bid with
  | None => (Next (notFound bid), st)
  | Some booking =>
      if negb (String.eqb (Booking.user booking) (id user)) then
        (Next (TypeError
                 "Cannot read properties of undefined (reading 'toString')"),
         st)
      else
        (Sent 200 None,
         withBookings st
           (removeFirst (fun b => String.eqb (Booking._id b) bid)
              (bookings st)))
  end.

(** The [data] of [exports.checkAvailability] (the title is not kept). *)
Record Availability := {
  available : bool;
  availability_id : ObjectId;
  availability_price : Z
}.

(** [exports.checkAvailability]; a query parameter is [None] when absent
    or empty. *)
Definition checkAvailability (st : Store) (propertyId : ObjectId)
    (startDate endDate : option Date) : Outcome Availability :=
  match startDate, endDate with
  | Some startDate, Some endDate =>
      match findPropertyById st propertyId with
      | None =>
          Next (ErrorResponse
                  ("Property not found with id of " ++ propertyId)%string 404)
      | Some property =>
          let isAvailable :=
            isAvailableForDates st property startDate endDate in
          Sent 200
            {| available := isAvailable;
               availability_id := Property._id property;
               availability_price := Property.price property |}
      end
  | _, _ =>
      Next (ErrorResponse "Please provide both start and end dates" 400)
  end.

(** The requests that write the booking collection. *)
Inductive Request :=
| CreateBooking (user : Actor) (propertyId : ObjectId)
    (startDate endDate : Date) (body : BookingBody) (newId : ObjectId)
| Ledger (op : LedgerOp)
| DeleteBooking (user : Actor) (bid : ObjectId)
| UploadPaymentProof (user : Actor) (bid : ObjectId)
    (files : option UploadedFile) (uploaded : option UploadResult).

Definition handle (now : Date) (req : Request) (st : Store)
  : BookingResponse * Store :=
  match req with
  | CreateBooking user propertyId startDate endDate body newId =>
      createBooking st user propertyId startDate endDate body newId
  | Ledger op => run now op st
  | DeleteBooking user bid => deleteBooking st user bid
  | UploadPaymentProof user bid files uploaded =>
      uploadPaymentProof st now user bid files uploaded
  end.

(** The store after a sequence of requests, each with its arrival time. *)
Fixpoint handleAll (reqs : list (Date * Request)) (st : Store) : Store :=
  match reqs with
  | [] => st
  | (now, req) :: rest => handleAll rest (snd (handle now req st))
  end.

(** ** Invariants of the booking collection *)

(** Every stored booking passes the validators of the schema. *)
Definition schemaValid (st : Store) : Prop :=
  Forall (fun b => validateBooking b = None) (bookings st).

(** Two bookings do not compete: they are for different properties, or one
    of them is cancelled, or their ranges do not overlap. *)
Definition compatible (b1 b2 : Booking.t) : Prop :=
  Booking.property b1 = Booking.property b2 ->
  Booking.status b1 <> "cancelled" ->
  Booking.status b2 <> "cancelled" ->
  ~ overlaps (Booking.startDate b1) (Booking.endDate b1)
      (Booking.startDate b2) (Booking.endDate b2).

(** The invariant of the ledger: stored ranges are ranges, and no two
    bookings compete. *)
Definition noDoubleBooking (st : Store) : Prop :=
  Forall (fun b => Booking.startDate b < Booking.endDate b) (bookings st)
  /\ ForallOrdPairs compatible (bookings st).

Definition uniqueIds (st : Store) : Prop :=
  NoDup (map Booking._id (bookings st)).

(** The store with the first booking of identifier [bid] taken out. *)
Definition withoutBooking (st : Store) (bid : ObjectId) : Store :=
  withBookings st
    (removeFirst (fun b => String.eqb (Booking._id b) bid) (bookings st)).

(** An actor who is neither the guest of the booking, nor the creator of
    its property, nor an administrator. *)
Definition stranger (st : Store) (user : Actor) (b : Booking.t) : Prop :=
  Booking.user b <> id user
  /\ role user <> "admin"
  /\ exists property,
       findPropertyById st (Booking.property b) = Some property
       /\ Property.createdBy property <> id user.

(** ** The photos of a property *)

Module Image.
Record t := {
  _id : ObjectId;
  url : string;
  publicId : string;
  isFeatured : bool
}.

Definition setIsFeatured (v : bool) (img : t) : t :=
  {| _id := _id img; url := url img; publicId := publicId img;
     isFeatured := v |}.
End Image.

(** A property document together with its [images] array. *)
Record Listing := {
  listing : Property.t;
  images : list Image.t
}.

Definition withImages (l : Listing) (imgs : list Image.t) : Listing :=
  {| listing := listing l; images := imgs |}.

Definition Listings := list Listing.

Definition findListingById (ls : Listings) (pid : ObjectId)
  : option Listing :=
  find (fun l => String.eqb (Property._id (listing l)) pid) ls.

Definition writeListing (ls : Listings) (doc : Listing) : Listings :=
  replaceFirst
    (fun l => String.eqb (Property._id (listing l))
                (Property._id (listing doc)))
    doc ls.

(** The validator of the property schema on the paths the embedding
    keeps: [price] has [min: 0]. *)
Definition validateProperty (p : Property.t) : option Error :=
  if Property.price p <? 0 then
    Some (ValidationError "price" "Price cannot be negative")
  else None.

(** [property.save()] *)
Definition saveListing (ls : Listings) (doc : Listing) : Error + Listings :=
  match validateProperty (listing doc) with
  | Some e => inl e
  | None => inr (writeListing ls doc)
  end.

(** [property.createdBy.toString() !== req.user.id &&
     req.user.role !== 'admin'] *)
Definition notOwner (property : Property.t) (user : Actor) : bool :=
  negb (String.eqb (Property.createdBy property) (id user))
  && negb (String.eqb (role user) "admin").

Definition propertyNotFound (pid : ObjectId) : Error :=
  ErrorResponse ("Property not found with id of " ++ pid)%string 404.

Definition notAuthorized (user : Actor) (verb : string) : Error :=
  ErrorResponse
    ("User " ++ id user ++ " is not authorized to " ++ verb
     ++ " this property")%string 401.

(** An environment variable that is set to a non-empty text, with the
    number the comparison converts it to ([None] for [NaN]). *)
Record EnvValue := {
  text : string;
  number : option Z
}.

(** [exports.propertyPhotoUpload]; [MAX_FILE_UPLOAD] is the environment
    variable, [None] when unset or empty, and [newId] the identifier the
    new array element is given. *)
Definition propertyPhotoUpload (ls : Listings) (user : Actor)
    (pid : ObjectId) (files : option UploadedFile)
    (MAX_FILE_UPLOAD : option EnvValue) (uploaded : option UploadResult)
    (newId : ObjectId) : Outcome (list Image.t) * Listings :=
  match findListingById ls pid with
  | None => (Next (propertyNotFound pid), ls)
  | Some property =>
      if notOwner (listing property) user then
        (Next (notAuthorized user "update"), ls)
      else
        match files with
        | None => (Next (ErrorResponse "Please upload a file" 400), ls)
        | Some file =>
            if negb (String.prefix "image" (mimetype file)) then
              (Next (ErrorResponse "Please upload an image file" 400), ls)
            else
              let tooLarge :=
                match MAX_FILE_UPLOAD with
                | Some v =>
                    match number v with
                    | Some maxSize => size file >? maxSize
                    | None => false
                    end
                | None => size file >? 1000000
                end in
              if tooLarge then
                (Next (ErrorResponse
                         ("Please upload an image less than "
                          ++ match MAX_FILE_UPLOAD with
                             | Some v => text v
                             | None => "undefined"
                             end)%string 400), ls)
              else
                let problem :=
                  (Next (ErrorResponse "Problem with file upload" 500), ls) in
                match uploaded with
                | None => problem
                | Some result =>
                    let image :=
                      {| Image._id := newId;
                         Image.url := secure_url result;
                         Image.publicId := public_id result;
                         Image.isFeatured :=
                           (List.length (images property) =? 0)%nat |} in
                    let property :=
                      withImages property (image :: images property) in
                    match saveListing ls property with
                    | inl _ => problem
                    | inr ls' => (Sent 200 (images property), ls')
                    end
                end
        end
  end.

(** [images.findIndex((img) => img._id.toString() === photoId)] *)
Fixpoint findIndex (photoId : ObjectId) (imgs : list Image.t) : option nat :=
  match imgs with
  | [] => None
  | img :: rest =>
      if String.eqb (Image._id img) photoId then Some O
      else option_map S (findIndex photoId rest)
  end.

(** [images.splice(index, 1)] *)
Fixpoint splice1 (index : nat) (imgs : list Image.t) : list Image.t :=
  match imgs, index with
  | [], _ => []
  | _ :: rest, O => rest
  | img :: rest, S i => img :: splice1 i rest
  end.

(** [images[0].isFeatured = true] on a non-empty array. *)
Definition featureFirst (imgs : list Image.t) : list Image.t :=
  match imgs with
  | [] => []
  | img :: rest => Image.setIsFeatured true img :: rest
  end.

(** [exports.deletePropertyPhoto]; [destroy] is the media store, which
    answers a release with [None] or rejects it with an error.  The
    rejection is caught and logged. *)
Definition deletePropertyPhoto (ls : Listings)
    (destroy : string -> option Error) (user : Actor) (pid : ObjectId)
    (photoId : ObjectId) : Outcome (list Image.t) * Listings :=
  match findListingById ls pid with
  | None => (Next (propertyNotFound pid), ls)
  | Some property =>
      if notOwner (listing property) user then
        (Next (notAuthorized user "update"), ls)
      else
        match findIndex photoId (images property) with
        | None => (Next (ErrorResponse "Photo not found" 404), ls)
        | Some photoIndex =>
            match nth_error (images property) photoIndex with
            | None => (Next (TypeError "Cannot read properties of undefined"),
                       ls)
            | Some photo =>
                let released :=
                  match Image.publicId photo with
                  | EmptyString => None
                  | _ => destroy (Image.publicId photo)
                  end in
                let imgs := splice1 photoIndex (images property) in
                let imgs :=
                  if Image.isFeatured photo
                     && (0 <? List.length imgs)%nat
                  then featureFirst imgs
                  else imgs in
                let property := withImages property imgs in
                match saveListing ls property with
                | inl e => (Next e, ls)
                | inr ls' => (Sent 200 (images property), ls')
                end
            end
        end
  end.

(** The first element with the identifier is featured, every other
    element is not: [forEach] clears the flags and the found element,
    which is an element of the array, is flagged. *)
Fixpoint featureOnly (photoId : ObjectId) (imgs : list Image.t)
  : list Image.t :=
  match imgs with
  | [] => []
  | img :: rest =>
      if String.eqb (Image._id img) photoId then
        Image.setIsFeatured true img :: map (Image.setIsFeatured false) rest
      else Image.setIsFeatured false img :: featureOnly photoId rest
  end.

(** [exports.setFeaturedPhoto] *)
Definition setFeaturedPhoto (ls : Listings) (user : Actor) (pid : ObjectId)
    (photoId : ObjectId) : Outcome (list Image.t) * Listings :=
  match findListingById ls pid with
  | None => (Next (propertyNotFound pid), ls)
  | Some property =>
      if notOwner (listing property) user then
        (Next (notAuthorized user "update"), ls)
      else
        let photoToFeature :=
          find (fun img => String.eqb (Image._id img) photoId)
            (images property) in
        match photoToFeature with
        | None => (Next (ErrorResponse "Photo not found" 404), ls)
        | Some _ =>
            let property :=
              withImages property (featureOnly photoId (images property)) in
            match saveListing ls property with
            | inl e => (Next e, ls)
            | inr ls' => (Sent 200 (images property), ls')
            end
        end
  end.

(** The loop of [exports.deleteProperty] over the images: the first
    release that the media store rejects is thrown. *)
Fixpoint destroyAll (destroy : string -> option Error)
    (imgs : list Image.t) : option Error :=
  match imgs with
  | [] => None
  | image :: rest =>
      match
        match Image.publicId image with
        | EmptyString => None
        | _ => destroy (Image.publicId image)
        end
      with
      | Some e => Some e
      | None => destroyAll destroy rest
      end
  end.

(** [exports.deleteProperty] *)
Definition deleteProperty (ls : Listings)
    (destroy : string -> option Error) (user : Actor) (pid : ObjectId)
  : Outcome unit * Listings :=
  match findListingById ls pid with
  | None => (Next (propertyNotFound pid), ls)
  | Some property =>
      if notOwner (listing property) user then
        (Next (notAuthorized user "delete"), ls)
      else
        match destroyAll destroy (images property) with
        | Some e => (Next e, ls)
        | None =>
            (Sent 200 tt,
             removeFirst
               (fun l => String.eqb (Property._id (listing l)) pid) ls)
        end
  end.

(** The requests that write the photos. *)
Inductive PhotoRequest :=
| Upload (user : Actor) (pid : ObjectId) (files : option UploadedFile)
    (MAX_FILE_UPLOAD : option EnvValue) (uploaded : option UploadResult)
    (newId : ObjectId)
| DeletePhoto (destroy : string -> option Error) (user : Actor)
    (pid photoId : ObjectId)
| SetFeatured (user : Actor) (pid photoId : ObjectId).

Definition servePhoto (req : PhotoRequest) (ls : Listings)
  : Outcome (list Image.t) * Listings :=
  match req with
  | Upload user pid files env uploaded newId =>
      propertyPhotoUpload ls user pid files env uploaded newId
  | DeletePhoto destroy user pid photoId =>
      deletePropertyPhoto ls destroy user pid photoId
  | SetFeatured user pid photoId => setFeaturedPhoto ls user pid photoId
  end.

Fixpoint servePhotos (reqs : list PhotoRequest) (ls : Listings) : Listings :=
  match reqs with
  | [] => ls
  | req :: rest => servePhotos rest (snd (servePhoto req ls))
  end.

Definition featuredCount (imgs : list Image.t) : nat :=
  List.length (filter Image.isFeatured imgs).

(** A gallery is empty or has exactly one featured image. *)
Definition oneFeatured (imgs : list Image.t) : Prop :=
  imgs = [] \/ featuredCount imgs = 1%nat.

Definition galleriesOneFeatured (ls : Listings) : Prop :=
  Forall (fun l => oneFeatured (images l)) ls.

Definition testListing : Listing :=
  {| listing := testProperty; images := [] |}.

Definition photoUpload (n : ObjectId) : UploadResult :=
  {| secure_url := ("https://media.example/" ++ n)%string;
     public_id := ("cyc-acres/properties/" ++ n)%string |}.

(** ** Statements about the reviews *)

(** The reviews of a property, in stored order. *)
Definition reviewsOf (st : Store) (propertyId : ObjectId) : list Review.t :=
  filter (fun r => String.eqb (Review.property r) propertyId) (reviews st).

(** The arithmetic mean of the ratings of a property. *)
Definition meanRating (st : Store) (propertyId : ObjectId) : Q :=
  let sum :=
    fold_left Z.add (map Review.rating (reviewsOf st propertyId)) 0 in
  let n := Z.of_nat (List.length (reviewsOf st propertyId)) in
  (inject_Z sum / inject_Z n)%Q.

Definition reviewStore (ps : list Property.t) (rs : list Review.t) : Store :=
  {| properties := ps; bookings := [completedBooking]; reviews := rs |}.

(** ** The token middleware *)

(** [s.split(sep)] for a non-empty separator: [current] is the piece
    being read and [skip] the number of characters of a separator just
    found that are still to be passed over. *)
Fixpoint splitFrom (sep : string) (s : string) (skip : nat)
    (current : string) : list string :=
  match s with
  | EmptyString => [current]
  | String ch rest =>
      match skip with
      | S k => splitFrom sep rest k current
      | O =>
          if String.prefix sep s then
            current :: splitFrom sep rest (String.length sep - 1) EmptyString
          else splitFrom sep rest O (current ++ String ch EmptyString)%string
      end
  end.

Definition split (s sep : string) : list string :=
  splitFrom sep s O EmptyString.

(** Whether [sep] occurs somewhere in [s]. *)
Fixpoint includes (s sep : string) : bool :=
  String.prefix sep s
  || match s with
     | EmptyString => false
     | String _ rest => includes rest sep
     end.

(** What [auth.verifyIdToken] resolves to. *)
Record DecodedToken := {
  token_uid : string;
  token_email : string;
  token_role : option string
}.

(** [req.user] as [firebaseAuth] sets it. *)
Record FirebaseUser := {
  uid : string;
  email : string;
  user_role : string
}.

(** A middleware answers itself or calls [next()]. *)
Inductive Middleware (A : Type) :=
| Answered (statusCode : Z) (error : string)
| Continued (req : A).
Arguments Answered {A} statusCode error.
Arguments Continued {A} req.

(** [firebaseAuth]; [verifyIdToken] is the identity service, [None] when
    it rejects the token, and [authorization] the header, [None] when the
    request has none. *)
Definition firebaseAuth (verifyIdToken : option string -> option DecodedToken)
    (authorization : option string) : Middleware FirebaseUser :=
  let noToken := Answered 401 "Unauthorized: No token provided" in
  match authorization with
  | None | Some EmptyString => noToken
  | Some authHeader =>
      if negb (String.prefix "Bearer " authHeader) then noToken
      else
        let idToken := nth_error (split authHeader "Bearer ") 1 in
        match verifyIdToken idToken with
        | None => Answered 401 "Unauthorized: Invalid or expired token"
        | Some decodedToken =>
            Continued
              {| uid := token_uid decodedToken;
                 email := token_email decodedToken;
                 user_role :=
                   match token_role decodedToken with
                   | None | Some EmptyString => "user"
                   | Some r => r
                   end |}
        end
  end.

(** [isAdmin], after a middleware that may have set [req.user]. *)
Definition isAdmin (user : option FirebaseUser) : Middleware FirebaseUser :=
  match user with
  | Some u =>
      if String.eqb (user_role u) "admin" then Continued u
      else Answered 403 "Forbidden: Admin access required"
  | None => Answered 403 "Forbidden: Admin access required"
  end.

(** * Properties *)

(** ** Helper lemmas on collections *)

Lemma find_none_iff {A} (f : A -> bool) (l : list A) :
  find f l = None <-> forall x, In x l -> f x = false.
Proof.
  split.
  - intros Hnone x Hin. exact (find_none f l Hnone x Hin).
  - induction l as [|a l IH]; intros Hall; [reflexivity|].
    cbn. rewrite (Hall a (or_introl eq_refl)).
    apply IH. intros x Hin. apply Hall. right. exact Hin.
Qed.

Lemma filter_nil_iff {A} (f : A -> bool) (l : list A) :
  filter f l = [] <-> forall x, In x l -> f x = false.
Proof.
  induction l as [|a l IH]; cbn.
  - split; [intros _ x []|reflexivity].
  - destruct (f a) eqn:Fa.
    + split; [discriminate|].
      intros Hall. rewrite (Hall a (or_introl eq_refl)) in Fa. discriminate.
    + rewrite IH. split.
      * intros Hall x [<-|Hin]; [exact Fa|exact (Hall x Hin)].
      * intros Hall x Hin. apply Hall. right. exact Hin.
Qed.

Lemma countDocuments_zero {A} `{Document A} (q : Query) (coll : list A) :
  (countDocuments q coll =? 0) = true
  <-> forall doc, In doc coll -> matches q doc = false.
Proof.
  unfold countDocuments. rewrite Z.eqb_eq, <- filter_nil_iff.
  destruct (filter (matches q) coll); cbn; split;
    try reflexivity; try discriminate; lia.
Qed.

(** ** Availability: the query is the three disjuncts *)

Lemma conflict_query_matches (pid : ObjectId) (s e : Date) (b : Booking.t) :
  matches (dateRangeQuery pid s e None) b
  = String.eqb (Booking.property b) pid
    && negb (String.eqb (Booking.status b) "cancelled")
    && threeDisjuncts s e (Booking.startDate b) (Booking.endDate b).
Proof.
  unfold threeDisjuncts. cbn.
  destruct (String.eqb (Booking.property b) pid); cbn; [|reflexivity].
  destruct (String.eqb (Booking.status b) "cancelled"); cbn; [reflexivity|].
  rewrite !andb_true_r, !orb_false_r, orb_assoc. reflexivity.
Qed.

(** With an excluded identifier the query asks, in addition, for another
    [_id]. *)
Lemma conflict_query_excluding (pid bid : ObjectId) (s e : Date)
    (b : Booking.t) :
  matches (dateRangeQuery pid s e (Some bid)) b
  = matches (dateRangeQuery pid s e None) b
    && negb (String.eqb (Booking._id b) bid).
Proof.
  cbn.
  destruct (String.eqb (Booking.property b) pid); cbn; [|reflexivity].
  destruct (String.eqb (Booking.status b) "cancelled"); cbn; [reflexivity|].
  rewrite !andb_true_r. reflexivity.
Qed.

Lemma threeDisjuncts_overlaps (s e s2 e2 : Date) :
  s < e -> s2 < e2 ->
  (threeDisjuncts s e s2 e2 = true <-> overlaps s e s2 e2).
Proof.
  intros Hse Hs2e2. unfold threeDisjuncts, overlaps.
  rewrite !Z.gtb_ltb, !Z.geb_leb.
  rewrite !orb_true_iff, !andb_true_iff, !Z.ltb_lt, !Z.leb_le.
  lia.
Qed.

(** A stored range that is not a range ([e2 <= s2]) separates the query
    from the overlap predicate: the first disjunct holds of a booking that
    starts inside the candidate and ends before it. *)
Lemma threeDisjuncts_degenerate :
  threeDisjuncts 3 7 5 1 = true /\ ~ overlaps 3 7 5 1.
Proof.
  split; [reflexivity|]. unfold overlaps. lia.
Qed.

Lemma conflicting_iff (P : Property.t) (s e : Date) (b : Booking.t) :
  s < e -> Booking.startDate b < Booking.endDate b ->
  (matches (dateRangeQuery (Property._id P) s e None) b = true
   <-> Booking.property b = Property._id P
       /\ Booking.status b <> "cancelled"
       /\ overlaps s e (Booking.startDate b) (Booking.endDate b)).
Proof.
  intros Hse Hb. rewrite conflict_query_matches.
  rewrite !andb_true_iff, negb_true_iff, String.eqb_eq, String.eqb_neq.
  rewrite (threeDisjuncts_overlaps _ _ _ _ Hse Hb). tauto.
Qed.

Section Availability.
Variable st : Store.
Variable P : Property.t.
Variables s e : Date.
Hypothesis candidate_range : s < e.
Hypothesis stored_ranges :
  forall b, In b (bookings st) ->
    Booking.property b = Property._id P ->
    Booking.status b <> "cancelled" ->
    Booking.startDate b < Booking.endDate b.

Lemma no_match_iff_overlapFree :
  (forall b, In b (bookings st) ->
     matches (dateRangeQuery (Property._id P) s e None) b = false)
  <-> overlapFree st P s e.
Proof.
  unfold overlapFree. split.
  - intros Hnone b Hin Hp Hs Hov.
    assert (Hm : matches (dateRangeQuery (Property._id P) s e None) b = true).
    { apply conflicting_iff; auto. }
    rewrite (Hnone b Hin) in Hm. discriminate.
  - intros Hfree b Hin.
    destruct (matches (dateRangeQuery (Property._id P) s e None) b) eqn:Hm;
      [|reflexivity].
    rewrite conflict_query_matches in Hm.
    rewrite !andb_true_iff, negb_true_iff, String.eqb_eq, String.eqb_neq in Hm.
    destruct Hm as [[Hp Hs] Hd].
    exfalso. apply (Hfree b Hin Hp Hs).
    apply threeDisjuncts_overlaps; auto.
Qed.

End Availability.

(** ** Availability: the checks are the conflict query *)

Lemma no_match_iff_conflictFree (st : Store) (propertyId : ObjectId)
    (excluded : option ObjectId) (s e : Date) :
  (forall b, In b (bookings st) ->
     matches (dateRangeQuery propertyId s e excluded) b = false)
  <-> conflictFree st propertyId excluded s e.
Proof.
  unfold conflictFree. split.
  - intros Hnone b Hin Hp Hs Hex. specialize (Hnone b Hin).
    apply String.eqb_eq in Hp. apply String.eqb_neq in Hs.
    destruct excluded as [bid|].
    + rewrite conflict_query_excluding, conflict_query_matches in Hnone.
      assert (Hid : String.eqb (Booking._id b) bid = false).
      { apply String.eqb_neq. intros Heq. apply Hex. rewrite Heq.
        reflexivity. }
      rewrite Hp, Hs, Hid in Hnone. cbn [negb andb] in Hnone.
      rewrite andb_true_r in Hnone. exact Hnone.
    + rewrite conflict_query_matches, Hp, Hs in Hnone. exact Hnone.
  - intros Hfree b Hin.
    assert (Hm : matches (dateRangeQuery propertyId s e None) b = true ->
                 Booking.property b = propertyId
                 /\ Booking.status b <> "cancelled"
                 /\ threeDisjuncts s e (Booking.startDate b)
                      (Booking.endDate b) = true).
    { rewrite conflict_query_matches.
      rewrite !andb_true_iff, negb_true_iff, String.eqb_eq, String.eqb_neq.
      tauto. }
    destruct excluded as [bid|].
    + rewrite conflict_query_excluding.
      destruct (matches (dateRangeQuery propertyId s e None) b) eqn:Hq;
        [|reflexivity].
      destruct (String.eqb (Booking._id b) bid) eqn:Hid; [reflexivity|].
      destruct (Hm eq_refl) as (Hp & Hs & Hd).
      apply String.eqb_neq in Hid.
      rewrite (Hfree b Hin Hp Hs) in Hd; [discriminate|].
      intros [= Heq]. contradiction.
    + destruct (matches (dateRangeQuery propertyId s e None) b) eqn:Hq;
        [|reflexivity].
      destruct (Hm eq_refl) as (Hp & Hs & Hd).
      rewrite (Hfree b Hin Hp Hs) in Hd; [discriminate|discriminate].
Qed.

Lemma isDateRangeAvailable_conflictFree (st : Store) (propertyId : ObjectId)
    (excluded : option ObjectId) (s e : Date) :
  isDateRangeAvailable st propertyId s e excluded = true
  <-> conflictFree st propertyId excluded s e.
Proof.
  unfold isDateRangeAvailable. rewrite countDocuments_zero.
  apply no_match_iff_conflictFree.
Qed.

Lemma isAvailableForDates_conflictFree (st : Store) (P : Property.t)
    (s e : Date) :
  isAvailableForDates st P s e = true
  <-> Property.isAvailable P = true
      /\ Property.availableFrom P <= s
      /\ (forall t, Property.availableTo P = Some t -> e <= t)
      /\ conflictFree st (Property._id P) None s e.
Proof.
  rewrite <- no_match_iff_conflictFree, <- find_none_iff.
  unfold isAvailableForDates.
  change (findOne ?q (bookings st))
    with (find (matches (dateRangeQuery (Property._id P) s e None))
            (bookings st)).
  destruct (Property.isAvailable P); cbn [negb];
    [|split; [discriminate|intros [Hf _]; discriminate]].
  destruct (Z.ltb_spec s (Property.availableFrom P)) as [Hlt|Hge];
    [split; [discriminate|intros (_ & Hfrom & _); lia]|].
  destruct (Property.availableTo P) as [t|].
  - rewrite Z.gtb_ltb. destruct (Z.ltb_spec t e) as [Hgt|Hle].
    + split; [discriminate|].
      intros (_ & _ & Hto & _). specialize (Hto t eq_refl). lia.
    + destruct (find _ (bookings st)).
      * split; [discriminate|]. intros (_ & _ & _ & Hnone). discriminate.
      * split; [|reflexivity]. intros _.
        split; [reflexivity|]. split; [exact Hge|].
        split; [|reflexivity]. intros t' [= <-]. exact Hle.
  - destruct (find _ (bookings st)).
    + split; [discriminate|]. intros (_ & _ & _ & Hnone). discriminate.
    + split; [|reflexivity]. intros _.
      split; [reflexivity|]. split; [exact Hge|].
      split; [discriminate|reflexivity].
Qed.

(** C1, as the code has it.  [isAvailableForDates] answers true exactly
    when the property is flagged available, [s] is not before
    [availableFrom], [availableTo] is absent or not exceeded by [e], and
    no booking of the property that is not cancelled meets the conflict
    query.  [isDateRangeAvailable] looks at neither the flag nor the
    window: it answers true exactly when no booking of the property that
    is not cancelled, the excluded one apart, meets the conflict query.
    The conflict query is its three disjuncts; on [s < e] and a stored
    range [s2 < e2] these are the overlap [s < e2 /\ e > s2], so that on a
    collection whose stored ranges are ranges, meeting the query is
    overlapping [s, e). *)
Theorem availability_iff_no_conflict (st : Store) (P : Property.t)
    (s e : Date) :
  (isAvailableForDates st P s e = true
   <-> Property.isAvailable P = true
       /\ Property.availableFrom P <= s
       /\ (forall t, Property.availableTo P = Some t -> e <= t)
       /\ conflictFree st (Property._id P) None s e)
  /\ (forall propertyId excluded,
        isDateRangeAvailable st propertyId s e excluded = true
        <-> conflictFree st propertyId excluded s e)
  /\ (forall b,
        matches (dateRangeQuery (Property._id P) s e None) b
        = String.eqb (Booking.property b) (Property._id P)
          && negb (String.eqb (Booking.status b) "cancelled")
          && threeDisjuncts s e (Booking.startDate b) (Booking.endDate b))
  /\ (s < e ->
      (forall b, In b (bookings st) ->
         Booking.property b = Property._id P ->
         Booking.status b <> "cancelled" ->
         Booking.startDate b < Booking.endDate b) ->
      (conflictFree st (Property._id P) None s e <-> overlapFree st P s e))
  /\ (forall s2 e2, s < e -> s2 < e2 ->
        (threeDisjuncts s e s2 e2 = true <-> overlaps s e s2 e2)).
Proof.
  split; [|split; [|split; [|split]]].
  - apply isAvailableForDates_conflictFree.
  - intros propertyId excluded. apply isDateRangeAvailable_conflictFree.
  - intros b. apply conflict_query_matches.
  - intros Hse Hstored.
    rewrite <- no_match_iff_conflictFree.
    exact (no_match_iff_overlapFree st P s e Hse Hstored).
  - intros s2 e2 Hse Hs2e2. exact (threeDisjuncts_overlaps s e s2 e2 Hse Hs2e2).
Qed.

(** The July stay of the booking suite is available next to the June
    booking, which it does not overlap. *)
Lemma availability_iff_no_conflict_witness :
  isAvailableForDates testStore testProperty jul01 jul07 = true
  /\ overlapFree testStore testProperty jul01 jul07.
Proof.
  assert (Hse : jul01 < jul07) by (unfold jul01, jul07; lia).
  assert (Hstored : forall b, In b (bookings testStore) ->
            Booking.property b = Property._id testProperty ->
            Booking.status b <> "cancelled" ->
            Booking.startDate b < Booking.endDate b).
  { intros b [<-|[]] _ _. vm_compute. reflexivity. }
  destruct (availability_iff_no_conflict testStore testProperty jul01 jul07)
    as (Hcheck & _ & _ & Hranges & _).
  split; [vm_compute; reflexivity|].
  apply (proj1 (Hranges Hse Hstored)).
  apply (proj1 Hcheck). vm_compute. reflexivity.
Defined.

(** Two inputs at which the availability check is not the four conditions
    of the claim.  For a property that is flagged unavailable,
    [isDateRangeAvailable] answers true.  And [createBooking] accepts a
    stay that ends before it starts; next to the range it stores,
    [isAvailableForDates] refuses a day that the property is open for and
    that no booking overlaps. *)
Lemma availability_counterexample :
  let closed :=
    {| Property._id := "p1"; Property.price := 200;
       Property.availableFrom := jan01; Property.availableTo := Some dec31;
       Property.isAvailable := false; Property.createdBy := "admin1" |} in
  let st := {| properties := [closed]; bookings := []; reviews := [] |} in
  let st' :=
    snd (createBooking testStore testUser "p1" jul07 jul01 newBookingBody
           "b2") in
  (jul01 < jul07
   /\ isDateRangeAvailable st (Property._id closed) jul01 jul07 None = true
   /\ Property.isAvailable closed = false)
  /\ (isSuccess
        (fst (createBooking testStore testUser "p1" jul07 jul01
                newBookingBody "b2")) = true
      /\ jul07 < jul07 + msPerDay
      /\ isAvailableForDates st' testProperty jul07 (jul07 + msPerDay) = false
      /\ Property.isAvailable testProperty = true
      /\ Property.availableFrom testProperty <= jul07
      /\ (forall t, Property.availableTo testProperty = Some t ->
            jul07 + msPerDay <= t)
      /\ overlapFree st' testProperty jul07 (jul07 + msPerDay)).
Proof.
  cbv zeta. split; [repeat split; vm_compute; reflexivity|].
  split; [vm_compute; reflexivity|]. split; [vm_compute; reflexivity|].
  split; [vm_compute; reflexivity|]. split; [reflexivity|].
  split; [vm_compute; discriminate|].
  split; [intros t [= <-]; vm_compute; discriminate|].
  intros b Hin _ _ [H1 H2]. vm_compute in Hin.
  destruct Hin as [<-|[<-|[]]]; vm_compute in H1, H2; discriminate.
Qed.

(** ** Writes to the booking collection *)

Lemma findBookingById_spec (st : Store) (bid : ObjectId) (b : Booking.t) :
  findBookingById st bid = Some b ->
  Booking._id b = bid /\ In b (bookings st).
Proof.
  unfold findBookingById. intros Hfind.
  apply find_some in Hfind. destruct Hfind as [Hin Hid].
  apply String.eqb_eq in Hid. auto.
Qed.

Lemma findPropertyById_spec (st : Store) (pid : ObjectId) (p : Property.t) :
  findPropertyById st pid = Some p ->
  Property._id p = pid /\ In p (properties st).
Proof.
  unfold findPropertyById. intros Hfind.
  apply find_some in Hfind. destruct Hfind as [Hin Hid].
  apply String.eqb_eq in Hid. auto.
Qed.

Lemma findBookingById_write (st : Store) (doc : Booking.t) (bid : ObjectId) :
  findBookingById (writeBooking st doc) bid
  = if String.eqb (Booking._id doc) bid
    then option_map (fun _ => doc) (findBookingById st bid)
    else findBookingById st bid.
Proof.
  unfold findBookingById, writeBooking. cbn [bookings withBookings].
  induction (bookings st) as [|d rest IH]; cbn.
  - destruct (String.eqb (Booking._id doc) bid); reflexivity.
  - destruct (String.eqb (Booking._id d) (Booking._id doc)) eqn:Hd; cbn.
    + apply String.eqb_eq in Hd. rewrite Hd.
      destruct (String.eqb (Booking._id doc) bid); reflexivity.
    + destruct (String.eqb (Booking._id d) bid) eqn:Hb.
      * apply String.eqb_eq in Hb. subst bid.
        rewrite String.eqb_sym, Hd. reflexivity.
      * exact IH.
Qed.

Lemma statusOf_write (st : Store) (doc : Booking.t) (bid : ObjectId) :
  statusOf (writeBooking st doc) bid
  = if String.eqb (Booking._id doc) bid
    then option_map (fun _ => Booking.status doc) (statusOf st bid)
    else statusOf st bid.
Proof.
  unfold statusOf. rewrite findBookingById_write.
  destruct (String.eqb (Booking._id doc) bid); [|reflexivity].
  destruct (findBookingById st bid); reflexivity.
Qed.

(** The save hook touches the total price only. *)
Lemma preSave_inr (st : Store) (m : string -> bool) (doc doc' : Booking.t) :
  preSave st m doc = inr doc' ->
  exists total, doc' = Booking.setTotalPrice total doc.
Proof.
  unfold preSave.
  destruct (negb (m "startDate") && negb (m "endDate")
            && negb (Booking.totalPrice doc =? 0)).
  - intros [= <-]. exists (Booking.totalPrice doc). destruct doc; reflexivity.
  - destruct (findPropertyById st (Booking.property doc)); [|discriminate].
    intros [= <-]. eexists. reflexivity.
Qed.

Lemma save_inr (st st' : Store) (m : string -> bool)
    (doc doc' : Booking.t) :
  save st m doc = inr (doc', st') ->
  validateBooking doc = None
  /\ st' = writeBooking st doc'
  /\ exists total, doc' = Booking.setTotalPrice total doc.
Proof.
  unfold save. destruct (validateBooking doc); [discriminate|].
  destruct (preSave st m doc) as [err|d] eqn:Hpre; [discriminate|].
  intros [= <- <-]. split; [reflexivity|]. split; [reflexivity|].
  exact (preSave_inr _ _ _ _ Hpre).
Qed.

(** ** Check-in and check-out *)

Lemma checked_in_not_valid (b : Booking.t) :
  Booking.status b = "checked_in" -> validateBooking b <> None.
Proof.
  intros Hs. unfold validateBooking. rewrite Hs.
  destruct (Booking.guests b <? 1); cbn; discriminate.
Qed.

Lemma checkIn_never_sends (st : Store) (now : Date) (bid : ObjectId) :
  isSuccess (fst (checkIn st now bid)) = false
  /\ snd (checkIn st now bid) = st.
Proof.
  unfold checkIn. destruct (findBookingById st bid) as [b|]; [|auto].
  destruct (String.eqb (Booking.status b) "confirmed"); cbn [negb]; [|auto].
  destruct (save st _ _) as [err|[doc st']] eqn:Hsave; [auto|].
  apply save_inr in Hsave. destruct Hsave as [Hvalid _].
  exfalso. revert Hvalid. apply checked_in_not_valid. reflexivity.
Qed.

(** C2.  Check-in of a pending booking is refused with the state-conflict
    error that names the status.  Check-in of a confirmed booking is
    refused as well: the handler assigns the status [checked_in], which
    the enumeration of the schema does not list, so the save fails its
    validation and nothing is stored.  No check-in ever sends a success
    response, for any store. *)
Theorem checkIn_confirmed_fails_validation :
  checkIn (storeWith [Booking.setStatus "pending" testBooking] []) jun01 "b1"
  = (Next (ErrorResponse
             "Cannot check in a booking with status 'pending'" 400),
     storeWith [Booking.setStatus "pending" testBooking] [])
  /\ statusOf testStore "b1" = Some "confirmed"
  /\ checkIn testStore jun01 "b1"
     = (Next (ValidationError "status"
                "`checked_in` is not a valid enum value for path `status`."),
        testStore)
  /\ (forall st now bid,
        isSuccess (fst (checkIn st now bid)) = false
        /\ snd (checkIn st now bid) = st).
Proof.
  split; [vm_compute; reflexivity|].
  split; [vm_compute; reflexivity|].
  split; [vm_compute; reflexivity|].
  exact checkIn_never_sends.
Qed.

(** Check-out itself completes a booking that is stored as [checked_in]
    (the booking suite writes that status without validators). *)
Lemma checkOut_completes (st : Store) (now : Date) (bid : ObjectId)
    (b : Booking.t) :
  findBookingById st bid = Some b ->
  Booking.status b = "checked_in" ->
  validateBooking (Booking.setStatus "completed" b) = None ->
  Booking.totalPrice b <> 0 ->
  exists b' st',
    checkOut st now bid = (Sent 200 (Some b'), st')
    /\ Booking.status b' = "completed"
    /\ Booking.checkOut b' = At now
    /\ findBookingById st' bid = Some b'.
Proof.
  intros Hfind Hs Hvalid Hprice. unfold checkOut. rewrite Hfind, Hs. cbn [negb String.eqb Ascii.eqb Bool.eqb].
  unfold save.
  replace (validateBooking _) with (@None Error)
    by (symmetry; exact Hvalid).
  unfold preSave. cbn [modified existsb String.eqb Ascii.eqb Bool.eqb orb negb andb Booking.totalPrice Booking.setStatus Booking.setCheckOut].
  apply Z.eqb_neq in Hprice. rewrite Hprice. cbn [negb].
  eexists. eexists. split; [reflexivity|].
  split; [reflexivity|]. split; [reflexivity|].
  rewrite findBookingById_write. cbn [Booking._id Booking.setStatus Booking.setCheckOut].
  destruct (findBookingById_spec _ _ _ Hfind) as [Hid _].
  rewrite Hid, String.eqb_refl, Hfind. reflexivity.
Qed.

(** ** Terminal statuses *)

(** What a successful save leaves in the store for any identifier. *)
Lemma statusOf_save (st st' : Store) (m : string -> bool)
    (doc doc' : Booking.t) (bid : ObjectId) :
  save st m doc = inr (doc', st') ->
  statusOf st' bid
  = if String.eqb (Booking._id doc) bid
    then option_map (fun _ => Booking.status doc) (statusOf st bid)
    else statusOf st bid.
Proof.
  intros Hsave. apply save_inr in Hsave.
  destruct Hsave as (_ & -> & total & ->).
  rewrite statusOf_write. reflexivity.
Qed.

Lemma applyBody_id (body : BookingBody) (b : Booking.t) :
  Booking._id (applyBody body b) = Booking._id b.
Proof.
  unfold applyBody.
  destruct (body_paymentMethod body), (body_paymentStatus body),
    (body_status body), (body_totalPrice body), (body_guests body),
    (body_endDate body), (body_startDate body), (body_property body);
    reflexivity.
Qed.

Lemma applyBody_status (body : BookingBody) (b : Booking.t) :
  Booking.status (applyBody body b)
  = orElse (body_status body) (Booking.status b).
Proof.
  unfold applyBody.
  destruct (body_paymentMethod body), (body_paymentStatus body),
    (body_status body), (body_totalPrice body), (body_guests body),
    (body_endDate body), (body_startDate body), (body_property body);
    reflexivity.
Qed.

Lemma terminal_not (s : string) :
  terminal s ->
  String.eqb s "pending" = false
  /\ String.eqb s "confirmed" = false
  /\ String.eqb s "checked_in" = false.
Proof.
  intros [->| ->]; repeat split; reflexivity.
Qed.

Lemma statusOf_found (st : Store) (bid : ObjectId) (b : Booking.t) :
  findBookingById st bid = Some b -> statusOf st bid = Some (Booking.status b).
Proof.
  unfold statusOf. intros ->. reflexivity.
Qed.

(** A store that is written at [b]'s identifier with [b]'s status, or at
    another identifier, shows the status it showed. *)
Lemma statusOf_kept (st : Store) (bid bid' : ObjectId) (b : Booking.t)
    (written : string) (s : string) :
  findBookingById st bid' = Some b ->
  statusOf st bid = Some s ->
  (bid' = bid -> written = s) ->
  (if String.eqb (Booking._id b) bid
   then option_map (fun _ => written) (statusOf st bid)
   else statusOf st bid) = Some s.
Proof.
  intros Hfind Hs Hsame.
  destruct (findBookingById_spec _ _ _ Hfind) as [Hid _]. rewrite Hid.
  destruct (String.eqb bid' bid) eqn:Heq; [|exact Hs].
  apply String.eqb_eq in Heq. rewrite Hs, (Hsame Heq). reflexivity.
Qed.

Lemma update_keeps_terminal (st : Store) (user : Actor) (b bid : ObjectId)
    (body : BookingBody) (s : string) :
  statusOf st bid = Some s ->
  (b = bid -> body_status body = None) ->
  statusOf (snd (updateBooking st user b body)) bid = Some s.
Proof.
  intros Hs Hbody. unfold updateBooking.
  destruct (findBookingById st b) as [booking|] eqn:Hfind; [|exact Hs].
  destruct (ownership _ booking user "update"); [exact Hs|].
  match goal with
  | |- context [match ?c with inl _ => _ | inr _ => _ end] =>
      assert (Hc : forall body', c = inr body' ->
                     body_status body' = body_status body);
      [|destruct c as [err|body'] eqn:Hchecked; [exact Hs|]]
  end.
  { intros body'.
    destruct (truthy (body_startDate body) || truthy (body_endDate body));
      [|intros [= <-]; reflexivity].
    destruct (findPropertyById st (Booking.property booking));
      [|discriminate].
    destruct (negb _); [discriminate|]. intros [= <-]. reflexivity. }
  specialize (Hc body' eq_refl).
  unfold findByIdAndUpdate. destruct (validateUpdate body'); [exact Hs|].
  rewrite Hfind. cbn [snd]. rewrite statusOf_write, applyBody_id.
  apply (statusOf_kept st bid b booking _ s Hfind Hs).
  intros Hsame. rewrite applyBody_status, Hc, (Hbody Hsame). cbn.
  subst b. rewrite (statusOf_found _ _ _ Hfind) in Hs. congruence.
Qed.

Lemma cancel_keeps_cancelled (st : Store) (now : Date) (user : Actor)
    (b bid : ObjectId) (reason : option string) (s : string) :
  statusOf st bid = Some s ->
  (b = bid -> s = "cancelled") ->
  statusOf (snd (cancelBooking st now user b reason)) bid = Some s.
Proof.
  intros Hs Hsame. unfold cancelBooking.
  destruct (findBookingById st b) as [booking|] eqn:Hfind; [|exact Hs].
  destruct (ownership _ booking user "cancel"); [exact Hs|].
  destruct (_ && _); [exact Hs|].
  unfold cancel.
  destruct (save st _ _) as [err|[doc st']] eqn:Hsave; [exact Hs|].
  cbn [snd]. rewrite (statusOf_save _ _ _ _ _ bid Hsave).
  apply (statusOf_kept st bid b booking _ s Hfind Hs).
  intros Heq. rewrite (Hsame Heq). reflexivity.
Qed.

Lemma checkOut_keeps_terminal (st : Store) (now : Date) (b bid : ObjectId)
    (s : string) :
  statusOf st bid = Some s -> terminal s ->
  statusOf (snd (checkOut st now b)) bid = Some s.
Proof.
  intros Hs Hterminal. unfold checkOut.
  destruct (findBookingById st b) as [booking|] eqn:Hfind; [|exact Hs].
  destruct (String.eqb (Booking.status booking) "checked_in") eqn:Hst;
    cbn [negb]; [|exact Hs].
  destruct (save st _ _) as [err|[doc st']] eqn:Hsave; [exact Hs|].
  cbn [snd]. rewrite (statusOf_save _ _ _ _ _ bid Hsave).
  apply (statusOf_kept st bid b booking _ s Hfind Hs).
  intros Heq. subst b. rewrite (statusOf_found _ _ _ Hfind) in Hs.
  injection Hs as <-.
  destruct (terminal_not _ Hterminal) as (_ & _ & Hno). congruence.
Qed.

Lemma verifyPayment_keeps_terminal (st : Store) (now : Date) (user : Actor)
    (b bid : ObjectId) (s : string) :
  statusOf st bid = Some s -> terminal s ->
  statusOf (snd (verifyPayment st now user b)) bid = Some s.
Proof.
  intros Hs Hterminal. unfold verifyPayment.
  destruct (findBookingById st b) as [booking|] eqn:Hfind; [|exact Hs].
  cbv zeta.
  destruct (save st _ _) as [err|[doc st']] eqn:Hsave; [exact Hs|].
  cbn [snd]. rewrite (statusOf_save _ _ _ _ _ bid Hsave).
  cbn [Booking.status Booking.setPaymentStatus Booking.setPaymentProof].
  match goal with
  | |- context [String.eqb (Booking._id ?d) bid] =>
      replace (Booking._id d) with (Booking._id booking)
        by (destruct (String.eqb (Booking.status booking) "pending");
            reflexivity)
  end.
  apply (statusOf_kept st bid b booking _ s Hfind Hs).
  intros Heq. subst b. rewrite (statusOf_found _ _ _ Hfind) in Hs.
  injection Hs as <-.
  destruct (terminal_not _ Hterminal) as (Hno & _ & _).
  rewrite Hno. reflexivity.
Qed.

(** C3, as the code has it.  A booking whose status is [cancelled] or
    [completed] keeps that status through check-in, check-out and payment
    verification, through an update whose body carries no status, and
    through the cancellation of a booking that is cancelled already. *)
Theorem terminal_status_kept (now : Date) (op : LedgerOp) (st : Store)
    (bid : ObjectId) (s : string) :
  statusOf st bid = Some s ->
  terminal s ->
  sparesTerminal op bid s ->
  statusOf (snd (run now op st)) bid = Some s.
Proof.
  intros Hs Hterminal Hop. destruct op as [user b body|user b reason|b|b|user b];
    cbn [run sparesTerminal] in *.
  - apply update_keeps_terminal; assumption.
  - apply cancel_keeps_cancelled; assumption.
  - rewrite (proj2 (checkIn_never_sends st now b)). exact Hs.
  - apply checkOut_keeps_terminal; assumption.
  - apply verifyPayment_keeps_terminal; assumption.
Qed.

Lemma terminal_status_kept_witness :
  statusOf
    (snd (run jun10 (VerifyPayment testAdmin "b1")
            (storeWith [Booking.setStatus "completed" testBooking] [])))
    "b1"
  = Some "completed".
Proof.
  apply terminal_status_kept.
  - vm_compute. reflexivity.
  - right. reflexivity.
  - exact I.
Defined.

(** The cancellation handler has no status guard: an administrator cancels
    a completed booking, whose status becomes [cancelled].  An update
    stores the status its body carries: the guest of a cancelled booking
    sets it back to [confirmed]. *)
Lemma cancel_completed_counterexample :
  ~ keepsTerminalStatus jun10 (Cancel testAdmin "b1" None)
      (storeWith [Booking.setStatus "completed" testBooking] []) "b1"
  /\ ~ keepsTerminalStatus jun10
        (Update testUser "b1"
           {| body_property := None;
              body_startDate := None;
              body_endDate := None;
              body_guests := None;
              body_totalPrice := None;
              body_status := Some "confirmed";
              body_paymentStatus := None;
              body_paymentMethod := None |})
        (storeWith [Booking.setStatus "cancelled" testBooking] []) "b1".
Proof.
  split; intros Hkept.
  - specialize (Hkept "completed" eq_refl (or_intror eq_refl)).
    vm_compute in Hkept. discriminate.
  - specialize (Hkept "cancelled" eq_refl (or_introl eq_refl)).
    vm_compute in Hkept. discriminate.
Qed.

(** ** The total price *)

Lemma dateOr_written (v : option BodyDate) (stored : Date) :
  truthy v = isSome v ->
  orElse (option_map castDate v) stored = dateOr v stored.
Proof.
  destruct v as [[t|t]|]; cbn; try reflexivity.
  intros ->. reflexivity.
Qed.

Lemma applyBody_withTotalPrice (body : BookingBody) (v : Z)
    (b : Booking.t) :
  let b' := applyBody (withTotalPrice body v) b in
  Booking.totalPrice b' = v
  /\ Booking.startDate b'
     = orElse (option_map castDate (body_startDate body)) (Booking.startDate b)
  /\ Booking.endDate b'
     = orElse (option_map castDate (body_endDate body)) (Booking.endDate b)
  /\ Booking.property b' = orElse (body_property body) (Booking.property b).
Proof.
  unfold applyBody, withTotalPrice. cbn.
  destruct (body_paymentMethod body), (body_paymentStatus body),
    (body_status body), (body_guests body),
    (body_endDate body), (body_startDate body), (body_property body);
    repeat split; reflexivity.
Qed.

Lemma createBooking_sent (st st' : Store) (user : Actor) (pid : ObjectId)
    (s e : Date) (body : BookingBody) (newId : ObjectId) (c : Z)
    (data : option Booking.t) :
  createBooking st user pid s e body newId = (Sent c data, st') ->
  exists property booking,
    data = Some booking
    /\ findPropertyById st pid = Some property
    /\ Booking.totalPrice booking = nights s e * Property.price property
    /\ Booking.startDate booking = s
    /\ Booking.endDate booking = e
    /\ Booking.property booking = pid
    /\ st' = withBookings st (bookings st ++ [booking]).
Proof.
  unfold createBooking.
  destruct (findPropertyById st pid) as [property|] eqn:Hp; [|discriminate].
  destruct (negb _); [discriminate|].
  unfold create. destruct (validateBooking _); [discriminate|].
  unfold preSave. cbn [negb andb Booking.property].
  rewrite Hp. intros [= <- <- <-].
  eexists. eexists. split; [reflexivity|]. split; [reflexivity|].
  cbn. repeat split; try reflexivity.
  unfold nights, msPerDay. apply Z.mul_comm.
Qed.

(** A create goes through when the property exists and is available for
    the dates, and the body passes the validators. *)
Lemma createBooking_succeeds (st : Store) (user : Actor) (pid : ObjectId)
    (s e : Date) (body : BookingBody) (newId : ObjectId)
    (property : Property.t) :
  findPropertyById st pid = Some property ->
  isAvailableForDates st property s e = true ->
  1 <= orElse (body_guests body) 0 ->
  inEnum Booking.statusEnum (orElse (body_status body) "pending") = true ->
  inEnum Booking.paymentStatusEnum
    (orElse (body_paymentStatus body) "pending") = true ->
  inEnum Booking.paymentMethodEnum
    (orElse (body_paymentMethod body) EmptyString) = true ->
  exists booking,
    createBooking st user pid s e body newId
    = (Sent 201 (Some booking), withBookings st (bookings st ++ [booking]))
    /\ Booking._id booking = newId
    /\ Booking.user booking = id user
    /\ Booking.property booking = pid
    /\ Booking.startDate booking = s
    /\ Booking.endDate booking = e
    /\ Booking.totalPrice booking = nights s e * Property.price property.
Proof.
  intros Hp Hav Hguests Hstatus Hpayment Hmethod.
  unfold createBooking. rewrite Hp, Hav. cbn [negb]. cbv zeta.
  unfold create, validateBooking.
  cbn [Booking.guests Booking.status Booking.paymentStatus
       Booking.paymentMethod Booking.cancellationReason].
  destruct (Z.ltb_spec (orElse (body_guests body) 0) 1) as [Hlt|_]; [lia|].
  rewrite Hstatus, Hpayment, Hmethod. cbn [negb].
  unfold preSave. cbn [negb andb Booking.property]. rewrite Hp.
  eexists. split; [reflexivity|]. cbn.
  repeat split. unfold nights, msPerDay. apply Z.mul_comm.
Qed.

Lemma validateUpdate_withTotalPrice (body : BookingBody) (v : Z) :
  validateUpdate (withTotalPrice body v) = validateUpdate body.
Proof. reflexivity. Qed.

Lemma updateBooking_dates_sent (st st' : Store) (user : Actor)
    (bid : ObjectId) (body : BookingBody) (old : Booking.t) (c : Z)
    (data : option Booking.t) :
  findBookingById st bid = Some old ->
  datesTruthy body ->
  isSome (body_startDate body) || isSome (body_endDate body) = true ->
  updateBooking st user bid body = (Sent c data, st') ->
  exists property booking,
    data = Some booking
    /\ findPropertyById st (Booking.property old) = Some property
    /\ Booking.totalPrice booking
       = nights (Booking.startDate booking) (Booking.endDate booking)
         * Property.price property
    /\ Booking.startDate booking
       = dateOr (body_startDate body) (Booking.startDate old)
    /\ Booking.endDate booking
       = dateOr (body_endDate body) (Booking.endDate old)
    /\ Booking.property booking
       = orElse (body_property body) (Booking.property old)
    /\ findBookingById st' bid = Some booking.
Proof.
  intros Hfind [Hts Hte] Hdates. unfold updateBooking.
  rewrite Hfind, Hts, Hte, Hdates. cbv zeta.
  destruct (ownership _ old user "update"); [discriminate|].
  destruct (findPropertyById st (Booking.property old)) as [property|];
    [|discriminate].
  destruct (negb _); [discriminate|].
  unfold findByIdAndUpdate. destruct (validateUpdate _); [discriminate|].
  rewrite Hfind. intros [= <- <- <-].
  match goal with
  | |- context [applyBody (withTotalPrice body ?v) old] =>
      destruct (applyBody_withTotalPrice body v old)
        as (Htotal & Hstart & Hend & Hprop)
  end.
  rewrite (dateOr_written _ _ Hts) in Hstart.
  rewrite (dateOr_written _ _ Hte) in Hend.
  eexists. eexists. split; [reflexivity|]. split; [reflexivity|].
  split; [|split; [exact Hstart|split; [exact Hend|split; [exact Hprop|]]]].
  - rewrite Htotal, Hstart, Hend. unfold nights, msPerDay. apply Z.mul_comm.
  - rewrite findBookingById_write, applyBody_id.
    destruct (findBookingById_spec _ _ _ Hfind) as [Hid _].
    rewrite Hid, String.eqb_refl, Hfind. reflexivity.
Qed.

(** A date update goes through when the actor passes the ownership test,
    the dates are free of the other bookings and the body passes the
    update validators. *)
Lemma updateBooking_succeeds (st : Store) (user : Actor) (bid : ObjectId)
    (body : BookingBody) (old : Booking.t) (property : Property.t) :
  findBookingById st bid = Some old ->
  findPropertyById st (Booking.property old) = Some property ->
  ownership (Some property) old user "update" = None ->
  truthy (body_startDate body) || truthy (body_endDate body) = true ->
  isDateRangeAvailable st (Booking.property old)
    (dateOr (body_startDate body) (Booking.startDate old))
    (dateOr (body_endDate body) (Booking.endDate old)) (Some bid) = true ->
  validateUpdate body = None ->
  exists booking st',
    updateBooking st user bid body = (Sent 200 (Some booking), st').
Proof.
  intros Hfind Hp Hown Hdates Hav Hvalid.
  destruct (findBookingById_spec _ _ _ Hfind) as [Hid _].
  destruct (findPropertyById_spec _ _ _ Hp) as [Hpid _].
  unfold updateBooking. rewrite Hfind, Hp, Hown, Hdates. cbv zeta.
  rewrite Hpid, Hid, Hav. cbn [negb].
  unfold findByIdAndUpdate.
  rewrite validateUpdate_withTotalPrice, Hvalid, Hfind.
  eexists. eexists. reflexivity.
Qed.

(** C4, as the code has it.  A booking that [createBooking] stores carries
    [totalPrice = nights * price] on the dates and the property of the
    request, and so does a booking whose dates [updateBooking] rewrites
    from a body that names no property and carries no falsy date, on the
    dates it then holds and the property it references;
    [nights = ceil((endDate - startDate) / 86400000)].  Both handlers do
    store such a booking when the request passes their tests.  At 200 a
    night, 2025-06-01 to 2025-06-07 is 6 nights and 1200. *)
Theorem totalPrice_is_nights_times_price :
  (forall st st' user pid s e body newId c data,
     createBooking st user pid s e body newId = (Sent c data, st') ->
     exists property booking,
       data = Some booking
       /\ findPropertyById st pid = Some property
       /\ Booking.property booking = pid
       /\ st' = withBookings st (bookings st ++ [booking])
       /\ Booking.totalPrice booking
          = nights (Booking.startDate booking) (Booking.endDate booking)
            * Property.price property)
  /\ (forall st user pid s e body newId property,
        findPropertyById st pid = Some property ->
        isAvailableForDates st property s e = true ->
        1 <= orElse (body_guests body) 0 ->
        inEnum Booking.statusEnum (orElse (body_status body) "pending")
        = true ->
        inEnum Booking.paymentStatusEnum
          (orElse (body_paymentStatus body) "pending") = true ->
        inEnum Booking.paymentMethodEnum
          (orElse (body_paymentMethod body) EmptyString) = true ->
        exists booking,
          createBooking st user pid s e body newId
          = (Sent 201 (Some booking),
             withBookings st (bookings st ++ [booking]))
          /\ Booking._id booking = newId
          /\ Booking.property booking = pid
          /\ Booking.startDate booking = s
          /\ Booking.endDate booking = e
          /\ Booking.totalPrice booking
             = nights s e * Property.price property)
  /\ (forall st st' user bid body old c data,
        findBookingById st bid = Some old ->
        body_property body = None ->
        datesTruthy body ->
        isSome (body_startDate body) || isSome (body_endDate body) = true ->
        updateBooking st user bid body = (Sent c data, st') ->
        exists property booking,
          data = Some booking
          /\ findBookingById st' bid = Some booking
          /\ Booking.property booking = Booking.property old
          /\ findPropertyById st (Booking.property booking) = Some property
          /\ Booking.startDate booking
             = dateOr (body_startDate body) (Booking.startDate old)
          /\ Booking.endDate booking
             = dateOr (body_endDate body) (Booking.endDate old)
          /\ Booking.totalPrice booking
             = nights (Booking.startDate booking) (Booking.endDate booking)
               * Property.price property)
  /\ (forall st user bid body old property,
        findBookingById st bid = Some old ->
        findPropertyById st (Booking.property old) = Some property ->
        ownership (Some property) old user "update" = None ->
        truthy (body_startDate body) || truthy (body_endDate body) = true ->
        isDateRangeAvailable st (Booking.property old)
          (dateOr (body_startDate body) (Booking.startDate old))
          (dateOr (body_endDate body) (Booking.endDate old)) (Some bid)
        = true ->
        validateUpdate body = None ->
        exists booking st',
          updateBooking st user bid body = (Sent 200 (Some booking), st'))
  /\ nights jun01 jun07 = 6
  /\ nights jun01 jun07 * 200 = 1200.
Proof.
  split; [|split; [|split; [|split; [|split; vm_compute; reflexivity]]]].
  - intros st st' user pid s e body newId c data Hsent.
    destruct (createBooking_sent _ _ _ _ _ _ _ _ _ _ Hsent)
      as (property & booking & Hd & Hp & Ht & Hs & He & Hpid & Hst).
    exists property, booking. rewrite Hs, He. auto.
  - intros st user pid s e body newId property Hp Hav Hg Hs Hps Hm.
    destruct (createBooking_succeeds st user pid s e body newId property
                Hp Hav Hg Hs Hps Hm)
      as (booking & Hsent & Hid & _ & Hpid & Hstart & Hend & Htotal).
    exists booking. auto 10.
  - intros st st' user bid body old c data Hfind Hnone Htruthy Hdates Hsent.
    destruct (updateBooking_dates_sent _ _ _ _ _ _ _ _ Hfind Htruthy Hdates
                Hsent)
      as (property & booking & Hd & Hp & Ht & Hs & He & Hprop & Hfound).
    rewrite Hnone in Hprop. cbn [orElse] in Hprop.
    exists property, booking. rewrite Hprop. auto 10.
  - intros st user bid body old property.
    apply updateBooking_succeeds.
Qed.

(** The July booking of the suite: 200 a night, six nights. *)
Lemma totalPrice_is_nights_times_price_witness :
  exists booking,
    createBooking testStore testUser "p1" jul01 jul07 newBookingBody "b2"
    = (Sent 201 (Some booking),
       withBookings testStore (bookings testStore ++ [booking]))
    /\ Booking._id booking = "b2"
    /\ Booking.totalPrice booking = 1200.
Proof.
  destruct (proj1 (proj2 totalPrice_is_nights_times_price)
              testStore testUser "p1" jul01 jul07 newBookingBody "b2"
              testProperty eq_refl
              ltac:(vm_compute; reflexivity)
              ltac:(vm_compute; discriminate)
              eq_refl eq_refl eq_refl)
    as (booking & Hsent & Hid & _ & _ & _ & Htotal).
  exists booking. split; [exact Hsent|]. split; [exact Hid|].
  rewrite Htotal. vm_compute. reflexivity.
Defined.

(** Two date updates after which the total is not the nights of the
    stored dates at the price of the booking's property.  A body that
    names another property moves the booking there at the rate of the
    property it leaves.  A body whose start date is the number 0 is
    written as it is, while the test on the dates, being one of truth,
    skips the conflict query and the recomputation. *)
Lemma totalPrice_counterexample :
  let villa :=
    {| Property._id := "p2"; Property.price := 500;
       Property.availableFrom := jan01; Property.availableTo := None;
       Property.isAvailable := true; Property.createdBy := "admin1" |} in
  let st :=
    {| properties := [testProperty; villa]; bookings := [testBooking];
       reviews := [] |} in
  let moved :=
    {| body_property := Some "p2";
       body_startDate := Some (DateText jul01);
       body_endDate := Some (DateText jul07);
       body_guests := None; body_totalPrice := None; body_status := None;
       body_paymentStatus := None; body_paymentMethod := None |} in
  let epoch :=
    {| body_property := None;
       body_startDate := Some (DateNumber 0);
       body_endDate := None;
       body_guests := None; body_totalPrice := None; body_status := None;
       body_paymentStatus := None; body_paymentMethod := None |} in
  (exists booking st',
     updateBooking st testUser "b1" moved = (Sent 200 (Some booking), st')
     /\ findBookingById st' "b1" = Some booking
     /\ findPropertyById st' (Booking.property booking) = Some villa
     /\ Booking.totalPrice booking = 1200
     /\ nights (Booking.startDate booking) (Booking.endDate booking)
        * Property.price villa = 3000)
  /\ (exists booking st',
        updateBooking testStore testUser "b1" epoch
        = (Sent 200 (Some booking), st')
        /\ findBookingById st' "b1" = Some booking
        /\ findPropertyById st' (Booking.property booking)
           = Some testProperty
        /\ Booking.startDate booking = 0
        /\ Booking.totalPrice booking = 1200
        /\ nights (Booking.startDate booking) (Booking.endDate booking)
           * Property.price testProperty = 4049200).
Proof.
  cbv zeta. split.
  - eexists. eexists. split; [vm_compute; reflexivity|].
    repeat split; vm_compute; reflexivity.
  - eexists. eexists. split; [vm_compute; reflexivity|].
    repeat split; vm_compute; reflexivity.
Qed.

(** ** Self-exclusion *)

Lemma own_booking_excluded (pid : ObjectId) (s e : Date) (b : Booking.t) :
  matches (dateRangeQuery pid s e (Some (Booking._id b))) b = false.
Proof.
  rewrite conflict_query_excluding, String.eqb_refl.
  apply andb_false_r.
Qed.

Lemma otherwiseFree_available (st : Store) (b : Booking.t) :
  otherwiseFree st b ->
  isDateRangeAvailable st (Booking.property b)
    (Booking.startDate b) (Booking.endDate b) (Some (Booking._id b)) = true.
Proof.
  intros Hfree. unfold isDateRangeAvailable.
  apply countDocuments_zero. intros b2 Hin.
  rewrite conflict_query_excluding, conflict_query_matches.
  destruct (String.eqb (Booking._id b2) (Booking._id b)) eqn:Hid;
    [apply andb_false_r|].
  destruct (String.eqb (Booking.property b2) (Booking.property b)) eqn:Hp;
    [|reflexivity].
  destruct (String.eqb (Booking.status b2) "cancelled") eqn:Hs;
    [reflexivity|].
  apply String.eqb_neq in Hid, Hs. apply String.eqb_eq in Hp.
  rewrite (Hfree b2 Hin Hid Hp Hs). reflexivity.
Qed.

(** C5, as the code has it.  The conflict query of a date update carries
    the booking's own identifier in [_id: { $ne: ... }], so the booking
    itself never matches it.  Updating a booking to the dates it already
    holds therefore succeeds, and is answered with the booking, dates
    unchanged, whenever its property exists, the actor passes the
    ownership test, and no other booking of the property that is not
    cancelled meets the conflict query for these dates. *)
Theorem update_to_own_dates_succeeds (st : Store) (user : Actor)
    (bid : ObjectId) (b : Booking.t) (property : Property.t) :
  findBookingById st bid = Some b ->
  findPropertyById st (Booking.property b) = Some property ->
  ownership (Some property) b user "update" = None ->
  otherwiseFree st b ->
  matches
    (dateRangeQuery (Booking.property b) (Booking.startDate b)
       (Booking.endDate b) (Some (Booking._id b))) b = false
  /\ exists booking st',
       updateBooking st user bid
         (datesBody (Booking.startDate b) (Booking.endDate b))
       = (Sent 200 (Some booking), st')
       /\ Booking.startDate booking = Booking.startDate b
       /\ Booking.endDate booking = Booking.endDate b
       /\ Booking.status booking = Booking.status b
       /\ findBookingById st' bid = Some booking.
Proof.
  intros Hfind Hprop Hown Hfree. split; [apply own_booking_excluded|].
  unfold updateBooking. rewrite Hfind, Hprop, Hown.
  cbn [datesBody body_startDate body_endDate truthy orb dateOr castDate].
  destruct (findPropertyById_spec _ _ _ Hprop) as [-> _].
  rewrite (otherwiseFree_available st b Hfree). cbn [negb].
  unfold findByIdAndUpdate. cbn [validateUpdate withTotalPrice firstError
    body_guests body_status body_paymentStatus body_paymentMethod checkEnum].
  rewrite Hfind.
  eexists. eexists. split; [reflexivity|].
  repeat split.
  rewrite findBookingById_write, applyBody_id.
  destruct (findBookingById_spec _ _ _ Hfind) as [Hid _].
  rewrite Hid, String.eqb_refl, Hfind. reflexivity.
Qed.

(** The June booking of the suite, updated by its guest to June 1-7. *)
Lemma update_to_own_dates_succeeds_witness :
  exists booking st',
    updateBooking testStore testUser "b1" (datesBody jun01 jun07)
    = (Sent 200 (Some booking), st')
    /\ Booking.startDate booking = jun01
    /\ Booking.endDate booking = jun07.
Proof.
  destruct (update_to_own_dates_succeeds testStore testUser "b1"
              testBooking testProperty)
    as (_ & booking & st' & Hsent & Hs & He & _).
  - reflexivity.
  - reflexivity.
  - reflexivity.
  - intros b2 [<-|[]] Hid. exfalso. apply Hid. reflexivity.
  - exists booking, st'. auto.
Defined.

(** A cancelled booking whose dates another guest has taken since: the
    booking is in the store and holds June 1-7, and its guest's update to
    these very dates is refused, the other booking conflicting. *)
Lemma update_to_own_dates_counterexample :
  let taken :=
    storeWith
      [ Booking.setStatus "cancelled" testBooking;
        {| Booking._id := "b2";
           Booking.property := "p1";
           Booking.user := "user2";
           Booking.startDate := jun01;
           Booking.endDate := jun07;
           Booking.guests := 2;
           Booking.totalPrice := 1200;
           Booking.status := "confirmed";
           Booking.paymentStatus := "paid";
           Booking.paymentMethod := "eft";
           Booking.paymentProof := None;
           Booking.cancellationReason := None;
           Booking.cancelledAt := None;
           Booking.cancelledBy := None;
           Booking.checkIn := Null;
           Booking.checkOut := Null |} ] [] in
  option_map (fun b => (Booking.startDate b, Booking.endDate b))
    (findBookingById taken "b1") = Some (jun01, jun07)
  /\ updateBooking taken testUser "b1" (datesBody jun01 jun07)
     = (Next (ErrorResponse
                "Property is not available for the selected dates" 400),
        taken).
Proof. cbv zeta. split; vm_compute; reflexivity. Qed.

(** ** The rating aggregate after a delete *)

Lemma replaceFirst_found {A} (f : A -> bool) (l : list A) (x : A) :
  find f l = Some x -> replaceFirst f x l = l.
Proof.
  induction l as [|a l IH]; cbn; [discriminate|].
  destruct (f a); [intros [= ->]; reflexivity|].
  intros Hfind. rewrite (IH Hfind). reflexivity.
Qed.

(** The schema declares no path of either recomputation. *)
Lemma strict_rating_updates (stats : list RatingStats) :
  strict (averageRatingUpdate stats) = []
  /\ strict (ratingsUpdate stats) = [].
Proof. destruct stats; split; reflexivity. Qed.

Lemma updateProperty_undeclared (st : Store) (pid : ObjectId)
    (update : PropertyUpdate) :
  strict update = [] -> updateProperty st pid update = st.
Proof.
  intros Hstrict. unfold updateProperty. rewrite Hstrict.
  destruct (findPropertyById st pid) as [p|] eqn:Hfind; [|reflexivity].
  cbn [fold_left]. unfold findPropertyById in Hfind.
  rewrite (replaceFirst_found _ _ _ Hfind). destruct st; reflexivity.
Qed.

Lemma calculateAverageRating_stores_nothing (st : Store) (pid : ObjectId) :
  calculateAverageRating st pid = st.
Proof.
  unfold calculateAverageRating. apply updateProperty_undeclared.
  apply strict_rating_updates.
Qed.

Lemma calcAverageRatings_stores_nothing (st : Store) (pid : ObjectId) :
  calcAverageRatings st pid = st.
Proof.
  unfold calcAverageRatings. apply updateProperty_undeclared.
  apply strict_rating_updates.
Qed.

(** C6, evaluated.  The property [p1] has one review, whose author has an
    account; an administrator deletes it through [deleteReview].  The
    recomputation that runs is the controller's [calculateAverageRating]:
    with no review left its update carries the average 0 and the count 0,
    not the baseline 4.5, which only the update of the model's
    [calcAverageRatings] carries.  The property schema declares none of
    the four rating paths, so neither update writes anything: the property
    is stored as it was, after [deleteReview] and after
    [findByIdAndDelete] alike. *)
Theorem deleteReview_recomputes_zero_and_stores_nothing :
  let st := storeWith [] [testReview] in
  let st' := snd (deleteReview st ["user1"] testAdmin "r1") in
  fst (deleteReview st ["user1"] testAdmin "r1") = Sent 200 None
  /\ reviews st' = []
  /\ averageRatingUpdate (aggregate st' "p1")
     = [("averageRating", 0%Q); ("numberOfReviews", 0%Q)]
  /\ ratingsUpdate (aggregate st' "p1")
     = [("ratingsQuantity", 0%Q); ("ratingsAverage", 4.5%Q)]
  /\ strict (averageRatingUpdate (aggregate st' "p1")) = []
  /\ strict (ratingsUpdate (aggregate st' "p1")) = []
  /\ properties st' = [testProperty]
  /\ properties (findByIdAndDelete st "r1") = [testProperty].
Proof.
  cbv zeta. repeat split; vm_compute; reflexivity.
Qed.

(** ** The late-cancellation guard *)

Lemma ceilDiv_lt_2 (a : Z) :
  (ceilDiv a (1000 * 60 * 60 * 24) <? 2) = true <-> a <= msPerDay.
Proof.
  unfold ceilDiv, msPerDay. rewrite Z.ltb_lt.
  change (1000 * 60 * 60 * 24) with 86400000.
  pose proof (Z.div_mod (- a) 86400000 ltac:(lia)) as Hdm.
  pose proof (Z.mod_pos_bound (- a) 86400000 ltac:(lia)) as Hb.
  split; intros H; nia.
Qed.

(** The errors of the cancellation's save are validation errors and the
    hook's own error, never an [ErrorResponse]. *)
Lemma cancel_error_is_not_response (st : Store) (now : Date)
    (b : Booking.t) (userId : ObjectId) (reason : string) (r : Error)
    (message : string) (code : Z) :
  cancel st now b userId reason = inl r -> r <> ErrorResponse message code.
Proof.
  unfold cancel, save.
  destruct (validateBooking _) as [v|] eqn:Hv.
  - intros [= <-]. unfold validateBooking in Hv.
    cbn [Booking.status Booking.setStatus Booking.setCancelledAt
         Booking.setCancelledBy Booking.setCancellationReason
         Booking.guests Booking.paymentStatus Booking.paymentMethod
         Booking.cancellationReason] in Hv.
    destruct (Booking.guests b <? 1); [injection Hv as <-; discriminate|].
    cbn [inEnum existsb Booking.statusEnum String.eqb Ascii.eqb Bool.eqb
         orb negb] in Hv.
    destruct (negb (inEnum _ (Booking.paymentStatus b)));
      [injection Hv as <-; discriminate|].
    destruct (negb (inEnum _ (Booking.paymentMethod b)));
      [injection Hv as <-; discriminate|].
    destruct (_ <? _)%nat; [injection Hv as <-; discriminate|discriminate].
  - destruct (preSave _ _ _) as [e'|d] eqn:Hpre; [|discriminate].
    intros [= <-]. unfold preSave in Hpre.
    destruct (_ && _); [discriminate|].
    destruct (findPropertyById _ _); [discriminate|].
    injection Hpre as <-. discriminate.
Qed.

(** For an actor who passes the ownership test and is no administrator,
    the guard rejects exactly when at most one day remains. *)
Lemma cancel_guard_is_one_day (st : Store) (now : Date) (user : Actor)
    (bid : ObjectId) (reason : option string) (b : Booking.t) :
  findBookingById st bid = Some b ->
  ownership (findPropertyById st (Booking.property b)) b user "cancel"
  = None ->
  role user <> "admin" ->
  (cancelBooking st now user bid reason
   = (Next (ErrorResponse
        "Bookings can only be cancelled up to 48 hours before check-in" 400),
      st)
   <-> Booking.startDate b - now <= msPerDay).
Proof.
  intros Hfind Hown Hrole. unfold cancelBooking. rewrite Hfind, Hown.
  apply String.eqb_neq in Hrole. rewrite Hrole. cbn [negb].
  rewrite andb_true_r, <- ceilDiv_lt_2.
  destruct (ceilDiv _ _ <? 2); [tauto|].
  split; [|discriminate].
  destruct (cancel _ _ _ _ _) as [e|[d st']] eqn:Hc; [|discriminate].
  intros [= He]. exfalso.
  exact (cancel_error_is_not_response _ _ _ _ _ _ _ _ Hc He).
Qed.

(** An administrator is never answered with the late-cancellation error. *)
Lemma cancel_guard_spares_admin (st st' : Store) (now : Date) (user : Actor)
    (bid : ObjectId) (reason : option string) (e : Error) :
  role user = "admin" ->
  cancelBooking st now user bid reason = (Next e, st') ->
  e <> ErrorResponse
         "Bookings can only be cancelled up to 48 hours before check-in" 400.
Proof.
  intros Hrole. unfold cancelBooking, notFound. cbv zeta.
  destruct (findBookingById st bid) as [b|]; [|intros [= <- _]; discriminate].
  unfold ownership, nullProperty. rewrite Hrole.
  cbn [String.eqb Ascii.eqb Bool.eqb negb andb].
  rewrite !andb_false_r.
  destruct (negb (String.eqb (Booking.user b) (id user))).
  - destruct (findPropertyById st (Booking.property b)) as [p|].
    + rewrite andb_false_r.
      destruct (cancel _ _ _ _ _) as [r|[d st2]] eqn:Hc; [|discriminate].
      intros [= <- _].
      exact (cancel_error_is_not_response _ _ _ _ _ _ _ _ Hc).
    + intros [= <- _]. discriminate.
  - destruct (cancel _ _ _ _ _) as [r|[d st2]] eqn:Hc; [|discriminate].
    intros [= <- _]. exact (cancel_error_is_not_response _ _ _ _ _ _ _ _ Hc).
Qed.

(** C7, evaluated.  Thirty-six hours before the start of the June booking
    fewer than two days remain, and its guest, who is no administrator,
    cancels it: the guard computes [ceil(1.5) = 2], which is not below 2.
    The guard first rejects at twenty-four hours. *)
Theorem cancel_allowed_36_hours_before :
  let now := jun01 - 36 * 60 * 60 * 1000 in
  jun01 - now < 2 * msPerDay
  /\ role testUser <> "admin"
  /\ fst (cancelBooking testStore now testUser "b1" (Some "Change of plans"))
     = Sent 200 None
  /\ statusOf
       (snd (cancelBooking testStore now testUser "b1"
               (Some "Change of plans"))) "b1"
     = Some "cancelled"
  /\ fst (cancelBooking testStore (jun01 - msPerDay) testUser "b1"
            (Some "Change of plans"))
     = Next (ErrorResponse
         "Bookings can only be cancelled up to 48 hours before check-in" 400).
Proof.
  cbv zeta. split; [vm_compute; reflexivity|].
  split; [discriminate|].
  repeat split; vm_compute; reflexivity.
Qed.

(** ** Payment proofs *)

(** C8.  Whenever [uploadPaymentProof] answers with success, the booking
    it stored carries a proof whose [verified] flag is true together with
    the payment status [paid] exactly when the uploading actor's role is
    [admin]; for every other actor the proof is stored unverified and the
    payment status is [pending]. *)
Theorem upload_verified_iff_admin (st st' : Store) (now : Date)
    (user : Actor) (bid : ObjectId) (files : option UploadedFile)
    (uploaded : option UploadResult) (c : Z) (data : option Booking.t) :
  uploadPaymentProof st now user bid files uploaded = (Sent c data, st') ->
  exists booking proof,
    data = Some booking
    /\ findBookingById st' bid = Some booking
    /\ Booking.paymentProof booking = Some proof
    /\ ((PaymentProof.verified proof = true
         /\ Booking.paymentStatus booking = "paid")
        <-> role user = "admin")
    /\ (role user <> "admin" ->
        PaymentProof.verified proof = false
        /\ Booking.paymentStatus booking = "pending").
Proof.
  unfold uploadPaymentProof.
  destruct (findBookingById st bid) as [b|] eqn:Hfind; [|discriminate].
  destruct (findBookingById_spec _ _ _ Hfind) as [Hid _].
  destruct (String.eqb (role user) "admin") eqn:Hrole;
    (destruct (negb (String.eqb (Booking.user b) (id user)));
       cbn [negb andb]; try discriminate);
    (destruct files as [file|]; [|discriminate]);
    (destruct (negb (String.prefix _ _)); [discriminate|]);
    cbv zeta; (destruct (size file >? 1000000); [discriminate|]);
    (destruct uploaded as [result|]; [|discriminate]);
    (destruct (save st _ _) as [err|[doc st2]] eqn:Hsave; [discriminate|]);
    intros [= <- <- <-];
    apply save_inr in Hsave; destruct Hsave as (_ & -> & total & ->);
    (eexists; eexists; split; [reflexivity|]; split;
     [rewrite findBookingById_write;
      cbn [Booking._id Booking.setTotalPrice Booking.setPaymentStatus
           Booking.setPaymentProof];
      rewrite Hid, String.eqb_refl, Hfind; reflexivity|]);
    (split; [reflexivity|]).
  - apply String.eqb_eq in Hrole. split; [tauto|]. intros Hno. contradiction.
  - apply String.eqb_eq in Hrole. split; [tauto|]. intros Hno. contradiction.
  - apply String.eqb_neq in Hrole. split; [|auto].
    split; [intros [Hv _]; discriminate|contradiction].
Qed.

(** The guest of the suite uploads a receipt: stored unverified, payment
    pending. *)
Lemma upload_verified_iff_admin_witness :
  exists booking proof,
    findBookingById
      (snd (uploadPaymentProof testStore jun01 testUser "b1"
              (Some testFile) (Some testUpload))) "b1" = Some booking
    /\ Booking.paymentProof booking = Some proof
    /\ PaymentProof.verified proof = false
    /\ Booking.paymentStatus booking = "pending".
Proof.
  destruct (upload_verified_iff_admin testStore
              (snd (uploadPaymentProof testStore jun01 testUser "b1"
                      (Some testFile) (Some testUpload)))
              jun01 testUser "b1" (Some testFile) (Some testUpload) 200
              (findBookingById
                 (snd (uploadPaymentProof testStore jun01 testUser "b1"
                         (Some testFile) (Some testUpload))) "b1")
              ltac:(vm_compute; reflexivity))
    as (booking & proof & _ & Hfound & Hproof & _ & Hother).
  exists booking, proof.
  split; [exact Hfound|]. split; [exact Hproof|].
  apply Hother. discriminate.
Defined.

(** The model's own [addPaymentProof] marks the proof verified, and the
    payment paid, exactly when a verifier is passed; without one it leaves
    the payment status as it was. *)
Lemma addPaymentProof_verified (st st' : Store) (now : Date)
    (this booking : Booking.t) (url publicId : string)
    (verifiedBy : option ObjectId) :
  addPaymentProof st now this url publicId verifiedBy = inr (booking, st') ->
  exists proof,
    Booking.paymentProof booking = Some proof
    /\ PaymentProof.verified proof = isSome verifiedBy
    /\ Booking.paymentStatus booking
       = if isSome verifiedBy then "paid" else Booking.paymentStatus this.
Proof.
  unfold addPaymentProof. intros Hsave.
  apply save_inr in Hsave. destruct Hsave as (_ & _ & total & ->).
  destruct verifiedBy; eexists; repeat split; reflexivity.
Qed.

(** ** Reviews *)


Lemma addReview_rejects (st : Store) (user : Actor) (pid : ObjectId)
    (body : ReviewBody) :
  exists e, addReview st user pid body = (Next e, st).
Proof.
  unfold addReview. destruct (findPropertyById st pid); eexists; reflexivity.
Qed.

(** C9.  A request to add a review whose referenced booking is not the
    reviewer's, completed and checked out by the time of the call is
    rejected with an error, and the store stays as it was.  A review is
    persisted only on that precondition for want of any request that is
    answered with success: once the property is found the handler stops
    at the unbound name [Booking], so no request persists a review. *)
Theorem addReview_requires_completed_booking (st : Store) (now : Date)
    (user : Actor) (pid : ObjectId) (body : ReviewBody) :
  (~ referencedBookingEligible st now user body ->
   exists e, addReview st user pid body = (Next e, st))
  /\ (forall c data st',
        addReview st user pid body = (Sent c data, st') ->
        referencedBookingEligible st now user body)
  /\ isSuccess (fst (addReview st user pid body)) = false
  /\ reviews (snd (addReview st user pid body)) = reviews st.
Proof.
  destruct (addReview_rejects st user pid body) as [e He].
  split; [intros _; exists e; exact He|].
  split; [intros c data st' Hsent; rewrite He in Hsent; discriminate|].
  rewrite He. split; reflexivity.
Qed.

(** The guest of the suite names a booking that is not in the store. *)
Lemma addReview_requires_completed_booking_witness :
  exists e,
    addReview (storeWith [] []) testUser "p1" (reviewBody "b1")
    = (Next e, storeWith [] []).
Proof.
  apply (proj1 (addReview_requires_completed_booking
                  (storeWith [] []) jun10 testUser "p1" (reviewBody "b1"))).
  intros (b & d & [] & _).
Defined.



(** * Further properties of the ledger *)

(** ** Lists rewritten in place *)

Lemma find_replaceFirst_false {A} (f g : A -> bool) (d : A) (l : list A) :
  f d = false ->
  find f (replaceFirst g d l) = find f (removeFirst g l).
Proof.
  intros Hd. induction l as [|a l IH]; cbn; [reflexivity|].
  destruct (g a); cbn.
  - rewrite Hd. reflexivity.
  - rewrite IH. reflexivity.
Qed.

Lemma filter_replaceFirst_false {A} (f g : A -> bool) (d : A) (l : list A) :
  f d = false ->
  filter f (replaceFirst g d l) = filter f (removeFirst g l).
Proof.
  intros Hd. induction l as [|a l IH]; cbn; [reflexivity|].
  destruct (g a); cbn.
  - rewrite Hd. reflexivity.
  - rewrite IH. reflexivity.
Qed.

Lemma Forall_replaceFirst {A} (P : A -> Prop) (g : A -> bool) (d : A)
    (l : list A) :
  P d -> Forall P l -> Forall P (replaceFirst g d l).
Proof.
  intros Hd Hl. induction Hl as [|a l Ha Hl IH]; cbn; [constructor|].
  destruct (g a); constructor; assumption.
Qed.

Lemma Forall_removeFirst {A} (P : A -> Prop) (g : A -> bool) (l : list A) :
  Forall P l -> Forall P (removeFirst g l).
Proof.
  intros Hl. induction Hl as [|a l Ha Hl IH]; cbn; [constructor|].
  destruct (g a); [assumption|constructor; assumption].
Qed.


(** ** What a successful create stores *)

Lemma createBooking_stores (st st' : Store) (user : Actor) (pid : ObjectId)
    (s e : Date) (body : BookingBody) (newId : ObjectId) (c : Z)
    (data : option Booking.t) :
  createBooking st user pid s e body newId = (Sent c data, st') ->
  exists property booking,
    data = Some booking
    /\ c = 201
    /\ st' = withBookings st (bookings st ++ [booking])
    /\ findPropertyById st pid = Some property
    /\ isAvailableForDates st property s e = true
    /\ validateBooking booking = None
    /\ Booking._id booking = newId
    /\ Booking.property booking = pid
    /\ Booking.user booking = id user
    /\ Booking.startDate booking = s
    /\ Booking.endDate booking = e
    /\ Booking.status booking = orElse (body_status body) "pending"
    /\ Booking.totalPrice booking = Property.price property * nights s e.
Proof.
  unfold createBooking.
  destruct (findPropertyById st pid) as [property|] eqn:Hp; [|discriminate].
  destruct (isAvailableForDates st property s e) eqn:Hav;
    cbn [negb]; [|discriminate].
  unfold create. cbv zeta.
  destruct (validateBooking _) eqn:Hvalid; [discriminate|].
  unfold preSave. cbn [negb andb Booking.property].
  rewrite Hp. intros [= <- <- <-].
  eexists. eexists. split; [reflexivity|]. split; [reflexivity|].
  split; [reflexivity|]. split; [reflexivity|]. split; [exact Hav|].
  split; [exact Hvalid|]. cbn. repeat split; reflexivity.
Qed.

(** ** Bookings and availability *)

Lemma isAvailableForDates_conflict (st : Store) (P : Property.t)
    (s e : Date) (b : Booking.t) :
  In b (bookings st) ->
  matches (dateRangeQuery (Property._id P) s e None) b = true ->
  isAvailableForDates st P s e = false.
Proof.
  intros Hin Hm. unfold isAvailableForDates.
  destruct (negb (Property.isAvailable P)); [reflexivity|].
  destruct (s <? Property.availableFrom P); [reflexivity|].
  destruct (match Property.availableTo P with
            | Some t => e >? t
            | None => false
            end); [reflexivity|].
  change (findOne ?q (bookings st))
    with (find (matches (dateRangeQuery (Property._id P) s e None))
            (bookings st)).
  destruct (find _ (bookings st)) eqn:Hfind; [reflexivity|].
  rewrite (find_none _ _ Hfind b Hin) in Hm. discriminate.
Qed.

Lemma threeDisjuncts_same_range (s e : Date) : threeDisjuncts s e s e = true.
Proof.
  unfold threeDisjuncts. rewrite !Z.geb_leb, !Z.leb_refl.
  cbn [andb]. apply orb_true_r.
Qed.

(** X1.  Once [createBooking] has stored a booking that is not created
    cancelled, the property is no longer available for the same dates,
    nor for any range that overlaps them. *)
Theorem created_booking_blocks_dates (st st' : Store) (user : Actor)
    (pid : ObjectId) (s e : Date) (body : BookingBody) (newId : ObjectId)
    (c : Z) (data : option Booking.t) (P : Property.t) :
  createBooking st user pid s e body newId = (Sent c data, st') ->
  body_status body <> Some "cancelled" ->
  Property._id P = pid ->
  isAvailableForDates st' P s e = false
  /\ (forall s' e', s < e -> s' < e' -> overlaps s' e' s e ->
        isAvailableForDates st' P s' e' = false).
Proof.
  intros Hsent Hstatus HP.
  destruct (createBooking_stores _ _ _ _ _ _ _ _ _ _ Hsent)
    as (property & booking & _ & _ & -> & _ & _ & _ & _ & Hpid & _ & Hs & He
        & Hst & _).
  assert (Hin : In booking (bookings (withBookings st (bookings st ++ [booking])))).
  { cbn. apply in_or_app. right. left. reflexivity. }
  assert (Hlive : String.eqb (Booking.status booking) "cancelled" = false).
  { apply String.eqb_neq. rewrite Hst. intros Hc.
    destruct (body_status body) as [x|]; cbn in Hc;
      [apply Hstatus; congruence|discriminate]. }
  assert (Hblock : forall s' e', threeDisjuncts s' e' s e = true ->
            isAvailableForDates (withBookings st (bookings st ++ [booking]))
              P s' e' = false).
  { intros s' e' Hd. apply (isAvailableForDates_conflict _ _ _ _ booking Hin).
    rewrite conflict_query_matches, Hpid, HP, String.eqb_refl, Hlive, Hs, He, Hd.
    reflexivity. }
  split.
  - apply Hblock, threeDisjuncts_same_range.
  - intros s' e' Hse Hse' Hov. apply Hblock.
    apply threeDisjuncts_overlaps; assumption.
Qed.

(** The July booking of the suite blocks July 5-10. *)
Lemma created_booking_blocks_dates_witness :
  isAvailableForDates
    (snd (createBooking testStore testUser "p1" jul01 jul07
            newBookingBody "b2"))
    testProperty (jul01 + 4 * msPerDay) (jul01 + 9 * msPerDay) = false.
Proof.
  apply (proj2 (created_booking_blocks_dates testStore _ testUser "p1"
                  jul01 jul07 newBookingBody "b2" 201
                  (match fst (createBooking testStore testUser "p1" jul01
                                jul07 newBookingBody "b2") with
                   | Sent _ d => d
                   | Next _ => None
                   end)
                  testProperty
                  ltac:(vm_compute; reflexivity)
                  ltac:(discriminate)
                  ltac:(reflexivity))).
  - vm_compute. reflexivity.
  - vm_compute. reflexivity.
  - split; vm_compute; reflexivity.
Defined.

(** ** What a successful cancellation stores *)

Lemma cancelBooking_stores (st st' : Store) (now : Date) (user : Actor)
    (bid : ObjectId) (reason : option string) (c : Z)
    (data : option Booking.t) :
  cancelBooking st now user bid reason = (Sent c data, st') ->
  exists b doc,
    findBookingById st bid = Some b
    /\ st' = writeBooking st doc
    /\ validateBooking doc = None
    /\ Booking._id doc = bid
    /\ Booking.status doc = "cancelled"
    /\ Booking.cancelledAt doc = Some now
    /\ Booking.cancelledBy doc = Some (id user)
    /\ Booking.cancellationReason doc = Some (reasonOrDefault reason)
    /\ Booking.property doc = Booking.property b
    /\ Booking.user doc = Booking.user b
    /\ Booking.startDate doc = Booking.startDate b
    /\ Booking.endDate doc = Booking.endDate b
    /\ (role user <> "admin" -> msPerDay < Booking.startDate b - now).
Proof.
  unfold cancelBooking.
  destruct (findBookingById st bid) as [b|] eqn:Hfind; [|discriminate].
  destruct (ownership _ b user "cancel"); [discriminate|].
  cbv zeta.
  destruct (ceilDiv (Booking.startDate b - now) (1000 * 60 * 60 * 24) <? 2)
    eqn:Hdays;
    destruct (negb (String.eqb (role user) "admin")) eqn:Hrole;
    cbn [andb]; try discriminate;
    (destruct (cancel _ _ _ _ _) as [err|[doc st2]] eqn:Hc; [discriminate|]);
    intros [= _ _ <-];
    unfold cancel in Hc; apply save_inr in Hc;
    destruct Hc as (Hvalid & -> & total & ->);
    destruct (findBookingById_spec _ _ _ Hfind) as [Hid _];
    exists b; eexists; (split; [reflexivity|]); (split; [reflexivity|]);
    (split; [exact Hvalid|]); (split; [exact Hid|]);
    repeat (split; [reflexivity|]).
  - intros Hno. apply String.eqb_neq in Hno. rewrite Hno in Hrole.
    discriminate.
  - intros _.
    destruct (Z.le_gt_cases (Booking.startDate b - now) msPerDay) as [Hle|Hgt];
      [|lia].
    apply ceilDiv_lt_2 in Hle. congruence.
  - intros Hno. apply String.eqb_neq in Hno. rewrite Hno in Hrole.
    discriminate.
Qed.

Lemma cancelled_never_matches (pid : ObjectId) (s e : Date)
    (ex : option ObjectId) (b : Booking.t) :
  Booking.status b = "cancelled" ->
  matches (dateRangeQuery pid s e ex) b = false.
Proof.
  intros Hc.
  assert (Hnone : matches (dateRangeQuery pid s e None) b = false).
  { rewrite conflict_query_matches, Hc. cbn [String.eqb Ascii.eqb Bool.eqb negb].
    rewrite andb_false_r. reflexivity. }
  destruct ex as [bid|]; [|exact Hnone].
  rewrite conflict_query_excluding, Hnone. reflexivity.
Qed.

(** X2.  A cancellation that is answered with success leaves the booking
    stored as [cancelled], and from then on both availability checks
    answer as if the booking were not in the collection at all. *)
Theorem cancelled_booking_frees_dates (st st' : Store) (now : Date)
    (user : Actor) (bid : ObjectId) (reason : option string) (c : Z)
    (data : option Booking.t) :
  cancelBooking st now user bid reason = (Sent c data, st') ->
  statusOf st' bid = Some "cancelled"
  /\ (forall P s e,
        isAvailableForDates st' P s e
        = isAvailableForDates (withoutBooking st bid) P s e)
  /\ (forall pid s e ex,
        isDateRangeAvailable st' pid s e ex
        = isDateRangeAvailable (withoutBooking st bid) pid s e ex).
Proof.
  intros Hsent.
  destruct (cancelBooking_stores _ _ _ _ _ _ _ _ Hsent)
    as (b & doc & Hfind & -> & _ & Hid & Hst & _).
  split; [|split].
  - rewrite statusOf_write, Hid, String.eqb_refl, Hst.
    rewrite (statusOf_found _ _ _ Hfind). reflexivity.
  - intros P s e. unfold isAvailableForDates, findOne, withoutBooking,
      writeBooking. cbn [bookings withBookings]. rewrite Hid.
    rewrite find_replaceFirst_false; [reflexivity|].
    exact (cancelled_never_matches (Property._id P) s e None doc Hst).
  - intros pid s e ex. unfold isDateRangeAvailable, countDocuments,
      withoutBooking, writeBooking. cbn [bookings withBookings]. rewrite Hid.
    rewrite filter_replaceFirst_false; [reflexivity|].
    exact (cancelled_never_matches pid s e ex doc Hst).
Qed.

(** The guest cancels the June booking three days ahead: June 1-7 is free
    again. *)
Lemma cancelled_booking_frees_dates_witness :
  isAvailableForDates
    (snd (cancelBooking testStore (jun01 - 3 * msPerDay) testUser "b1" None))
    testProperty jun01 jun07
  = isAvailableForDates (withoutBooking testStore "b1") testProperty
      jun01 jun07.
Proof.
  apply (proj1 (proj2 (cancelled_booking_frees_dates testStore _
                         (jun01 - 3 * msPerDay) testUser "b1" None 200 None
                         ltac:(vm_compute; reflexivity)))).
Defined.

(** X3.  What a successful cancellation records: the status [cancelled],
    the time of the call, the actor, and the reason of the request or,
    when the request carries none or an empty one, the text
    [Cancelled by user]; the recorded reason has at most 500 characters,
    the dates and the references of the booking stay as they were, and the
    response carries no booking. *)
Theorem cancellation_record (st st' : Store) (now : Date) (user : Actor)
    (bid : ObjectId) (reason : option string) (c : Z)
    (data : option Booking.t) :
  cancelBooking st now user bid reason = (Sent c data, st') ->
  c = 200 /\ data = None
  /\ exists b doc,
       findBookingById st bid = Some b
       /\ findBookingById st' bid = Some doc
       /\ Booking.status doc = "cancelled"
       /\ Booking.cancelledAt doc = Some now
       /\ Booking.cancelledBy doc = Some (id user)
       /\ (exists text,
             Booking.cancellationReason doc = Some text
             /\ (String.length text <= 500)%nat
             /\ (forall r, reason = Some r -> r <> EmptyString -> text = r)
             /\ (reason = None \/ reason = Some EmptyString ->
                 text = "Cancelled by user"))
       /\ Booking.property doc = Booking.property b
       /\ Booking.user doc = Booking.user b
       /\ Booking.startDate doc = Booking.startDate b
       /\ Booking.endDate doc = Booking.endDate b.
Proof.
  intros Hsent.
  assert (Hresp : c = 200 /\ data = None).
  { revert Hsent. unfold cancelBooking.
    destruct (findBookingById st bid); [|discriminate].
    destruct (ownership _ _ _ _); [discriminate|]. cbv zeta.
    destruct (_ && _); [discriminate|].
    destruct (cancel _ _ _ _ _) as [err|[d st2]]; [discriminate|].
    intros [= <- <- _]. auto. }
  destruct Hresp as [Hc Hd]. split; [exact Hc|]. split; [exact Hd|].
  destruct (cancelBooking_stores _ _ _ _ _ _ _ _ Hsent)
    as (b & doc & Hfind & -> & Hvalid & Hid & Hst & Hat & Hby & Hreason
        & Hp & Hu & Hs & He & _).
  exists b, doc. split; [exact Hfind|]. split.
  { rewrite findBookingById_write, Hid, String.eqb_refl, Hfind. reflexivity. }
  split; [exact Hst|]. split; [exact Hat|]. split; [exact Hby|].
  split; [|auto].
  exists (reasonOrDefault reason). split; [exact Hreason|]. split; [|split].
  - unfold validateBooking in Hvalid. rewrite Hreason in Hvalid.
    destruct (Booking.guests doc <? 1); [discriminate|].
    destruct (negb (inEnum _ (Booking.status doc))); [discriminate|].
    destruct (negb (inEnum _ (Booking.paymentStatus doc))); [discriminate|].
    destruct (negb (inEnum _ (Booking.paymentMethod doc))); [discriminate|].
    destruct (Nat.ltb_spec 500 (String.length (reasonOrDefault reason)));
      [discriminate|assumption].
  - intros r -> Hr. destruct r; [contradiction|reflexivity].
  - intros [->| ->]; reflexivity.
Qed.

Lemma cancellation_record_witness :
  exists doc,
    findBookingById
      (snd (cancelBooking testStore (jun01 - 3 * msPerDay) testUser "b1"
              (Some EmptyString))) "b1" = Some doc
    /\ Booking.cancellationReason doc = Some "Cancelled by user".
Proof.
  destruct (cancellation_record testStore _ (jun01 - 3 * msPerDay) testUser
              "b1" (Some EmptyString) 200 None
              ltac:(vm_compute; reflexivity))
    as (_ & _ & b & doc & _ & Hfound & _ & _ & _
        & (text & Htext & _ & _ & Hdefault) & _).
  exists doc. split; [exact Hfound|].
  rewrite Htext, Hdefault; [reflexivity|]. right. reflexivity.
Defined.

(** ** The no-double-booking invariant *)







(** ** What a successful update stores *)

Lemma applyBody_paths (body : BookingBody) (b : Booking.t) :
  let b' := applyBody body b in
  Booking._id b' = Booking._id b
  /\ Booking.user b' = Booking.user b
  /\ Booking.property b' = orElse (body_property body) (Booking.property b)
  /\ Booking.startDate b'
     = orElse (option_map castDate (body_startDate body)) (Booking.startDate b)
  /\ Booking.endDate b'
     = orElse (option_map castDate (body_endDate body)) (Booking.endDate b)
  /\ Booking.guests b' = orElse (body_guests body) (Booking.guests b)
  /\ Booking.totalPrice b'
     = orElse (body_totalPrice body) (Booking.totalPrice b)
  /\ Booking.status b' = orElse (body_status body) (Booking.status b)
  /\ Booking.paymentStatus b'
     = orElse (body_paymentStatus body) (Booking.paymentStatus b)
  /\ Booking.paymentMethod b'
     = orElse (body_paymentMethod body) (Booking.paymentMethod b)
  /\ Booking.cancellationReason b' = Booking.cancellationReason b
  /\ Booking.paymentProof b' = Booking.paymentProof b.
Proof.
  unfold applyBody.
  destruct (body_paymentMethod body), (body_paymentStatus body),
    (body_status body), (body_totalPrice body), (body_guests body),
    (body_endDate body), (body_startDate body), (body_property body);
    cbn; repeat split; reflexivity.
Qed.

(** The update that the handler hands to [findByIdAndUpdate]: the body, or
    the body with the recomputed total when it carries a date. *)
Lemma updateBooking_stores (st st' : Store) (user : Actor) (bid : ObjectId)
    (body : BookingBody) (c : Z) (data : option Booking.t) :
  updateBooking st user bid body = (Sent c data, st') ->
  exists b body',
    findBookingById st bid = Some b
    /\ c = 200
    /\ data = Some (applyBody body' b)
    /\ st' = writeBooking st (applyBody body' b)
    /\ validateUpdate body' = None
    /\ ownership (findPropertyById st (Booking.property b)) b user "update"
       = None
    /\ ((truthy (body_startDate body) || truthy (body_endDate body) = false
         /\ body' = body)
        \/ (truthy (body_startDate body) || truthy (body_endDate body) = true
            /\ exists property,
                 findPropertyById st (Booking.property b) = Some property
                 /\ isDateRangeAvailable st (Booking.property b)
                      (dateOr (body_startDate body) (Booking.startDate b))
                      (dateOr (body_endDate body) (Booking.endDate b))
                      (Some (Booking._id b)) = true
                 /\ body'
                    = withTotalPrice body
                        (Property.price property
                         * nights
                             (dateOr (body_startDate body)
                                (Booking.startDate b))
                             (dateOr (body_endDate body)
                                (Booking.endDate b))))).
Proof.
  unfold updateBooking.
  destruct (findBookingById st bid) as [b|] eqn:Hfind; [|discriminate].
  destruct (ownership _ b user "update") eqn:Hown; [discriminate|].
  cbv zeta.
  destruct (truthy (body_startDate body) || truthy (body_endDate body))
    eqn:Hdates.
  - destruct (findPropertyById st (Booking.property b)) as [property|] eqn:Hp;
      [|discriminate].
    destruct (findPropertyById_spec _ _ _ Hp) as [Hid _].
    destruct (isDateRangeAvailable st (Property._id property) _ _ _) eqn:Hav;
      cbn [negb]; [|discriminate].
    unfold findByIdAndUpdate.
    destruct (validateUpdate _) eqn:Hvalid; [discriminate|].
    rewrite Hfind. intros [= <- <- <-].
    exists b. eexists. split; [reflexivity|]. split; [reflexivity|].
    split; [reflexivity|]. split; [reflexivity|]. split; [exact Hvalid|].
    split; [rewrite Hp; exact Hown|]. right. split; [reflexivity|].
    exists property. split; [exact Hp|]. rewrite <- Hid.
    split; [exact Hav|reflexivity].
  - unfold findByIdAndUpdate.
    destruct (validateUpdate body) eqn:Hvalid; [discriminate|].
    rewrite Hfind. intros [= <- <- <-].
    exists b, body. repeat split; auto.
Qed.




(** Without the proviso on the dates the invariant is lost: a start date
    that is the number 0 is written without the conflict query being
    asked, here onto the dates of another guest's booking. *)
Lemma zero_date_skips_conflict_query :
  let other :=
    {| Booking._id := "b0";
       Booking.property := "p1";
       Booking.user := "user2";
       Booking.startDate := jan01;
       Booking.endDate := jun01;
       Booking.guests := 2;
       Booking.totalPrice := 30200;
       Booking.status := "confirmed";
       Booking.paymentStatus := "paid";
       Booking.paymentMethod := "eft";
       Booking.paymentProof := None;
       Booking.cancellationReason := None;
       Booking.cancelledAt := None;
       Booking.cancelledBy := None;
       Booking.checkIn := Null;
       Booking.checkOut := Null |} in
  let st := storeWith [other; testBooking] [] in
  let body :=
    {| body_property := None;
       body_startDate := Some (DateNumber 0);
       body_endDate := None;
       body_guests := None; body_totalPrice := None; body_status := None;
       body_paymentStatus := None; body_paymentMethod := None |} in
  noDoubleBooking st
  /\ isSuccess (fst (updateBooking st testUser "b1" body)) = true
  /\ ~ noDoubleBooking (snd (updateBooking st testUser "b1" body)).
Proof.
  cbv zeta. split; [|split].
  - split.
    + repeat constructor.
    + constructor; [|constructor; constructor].
      constructor; [|constructor].
      intros _ _ _ [H1 H2]. vm_compute in H1. discriminate.
  - vm_compute. reflexivity.
  - match goal with
    | |- ~ noDoubleBooking (snd (updateBooking (storeWith [?o; _] []) _ _ _))
      =>
        assert (Hst : snd (updateBooking (storeWith [o; testBooking] [])
                             testUser "b1"
                             {| body_property := None;
                                body_startDate := Some (DateNumber 0);
                                body_endDate := None;
                                body_guests := None;
                                body_totalPrice := None;
                                body_status := None;
                                body_paymentStatus := None;
                                body_paymentMethod := None |})
                      = storeWith [o; Booking.setStartDate 0 testBooking] [])
          by (vm_compute; reflexivity)
    end.
    rewrite Hst. intros [_ Hpairs]. cbn [bookings storeWith] in Hpairs.
    inversion Hpairs as [|a l Ha _]. subst.
    inversion Ha as [|x l' Hc _]. subst.
    apply Hc; try reflexivity; try discriminate.
    split; vm_compute; reflexivity.
Qed.

(** ** Schema validity of the collection *)

Lemma validateBooking_setTotalPrice (total : Z) (b : Booking.t) :
  validateBooking (Booking.setTotalPrice total b) = validateBooking b.
Proof. reflexivity. Qed.

Lemma schemaValid_write (st : Store) (doc : Booking.t) :
  schemaValid st -> validateBooking doc = None ->
  schemaValid (writeBooking st doc).
Proof.
  intros Hst Hdoc. unfold schemaValid, writeBooking.
  cbn [bookings withBookings]. apply Forall_replaceFirst; assumption.
Qed.

Lemma schemaValid_save (st st' : Store) (m : string -> bool)
    (doc doc' : Booking.t) :
  schemaValid st -> save st m doc = inr (doc', st') -> schemaValid st'.
Proof.
  intros Hst Hsave. apply save_inr in Hsave.
  destruct Hsave as (Hvalid & -> & total & ->).
  apply schemaValid_write; [exact Hst|].
  rewrite validateBooking_setTotalPrice. exact Hvalid.
Qed.

Lemma checkEnum_none (values : list string) (p : string)
    (v : option string) (stored : string) :
  checkEnum values p v = None ->
  inEnum values stored = true ->
  inEnum values (orElse v stored) = true.
Proof.
  unfold checkEnum. destruct v as [s|]; cbn [orElse]; [|auto].
  destruct (inEnum values s); [reflexivity|discriminate].
Qed.

Lemma validateBooking_none (b : Booking.t) :
  validateBooking b = None
  <-> (Booking.guests b <? 1) = false
      /\ inEnum Booking.statusEnum (Booking.status b) = true
      /\ inEnum Booking.paymentStatusEnum (Booking.paymentStatus b) = true
      /\ inEnum Booking.paymentMethodEnum (Booking.paymentMethod b) = true
      /\ (forall r, Booking.cancellationReason b = Some r ->
            (500 <? String.length r)%nat = false).
Proof.
  unfold validateBooking.
  destruct (Booking.guests b <? 1);
    [split; [discriminate|intros (H & _); discriminate]|].
  destruct (inEnum Booking.statusEnum (Booking.status b)); cbn [negb];
    [|split; [discriminate|intros (_ & H & _); discriminate]].
  destruct (inEnum Booking.paymentStatusEnum (Booking.paymentStatus b));
    cbn [negb];
    [|split; [discriminate|intros (_ & _ & H & _); discriminate]].
  destruct (inEnum Booking.paymentMethodEnum (Booking.paymentMethod b));
    cbn [negb];
    [|split; [discriminate|intros (_ & _ & _ & H & _); discriminate]].
  destruct (Booking.cancellationReason b) as [r|].
  - destruct (500 <? String.length r)%nat eqn:Hlen.
    + split; [discriminate|].
      intros (_ & _ & _ & _ & H). specialize (H r eq_refl). congruence.
    + split; [|reflexivity]. intros _. repeat split; auto.
      intros r' [= <-]. exact Hlen.
  - split; [|reflexivity]. intros _. repeat split; auto. discriminate.
Qed.

(** The update validators admit only bodies that keep a valid booking
    valid. *)
Lemma validateBooking_applyBody (body : BookingBody) (b : Booking.t) :
  validateBooking b = None ->
  validateUpdate body = None ->
  validateBooking (applyBody body b) = None.
Proof.
  intros Hb Hbody. apply validateBooking_none in Hb.
  destruct Hb as (Hg & Hs & Hps & Hpm & Hr).
  apply validateBooking_none.
  destruct (applyBody_paths body b)
    as (_ & _ & _ & _ & _ & -> & _ & -> & -> & -> & -> & _).
  unfold validateUpdate in Hbody. cbn [firstError] in Hbody.
  destruct (body_guests body) as [g|] eqn:Hbg.
  - destruct (g <? 1) eqn:Hg1; [discriminate|].
    destruct (checkEnum Booking.statusEnum "status" (body_status body))
      eqn:H1; [discriminate|].
    destruct (checkEnum Booking.paymentStatusEnum "paymentStatus"
                (body_paymentStatus body)) eqn:H2; [discriminate|].
    destruct (checkEnum Booking.paymentMethodEnum "paymentMethod"
                (body_paymentMethod body)) eqn:H3; [discriminate|].
    cbn [orElse]. repeat split; eauto using checkEnum_none.
  - destruct (checkEnum Booking.statusEnum "status" (body_status body))
      eqn:H1; [discriminate|].
    destruct (checkEnum Booking.paymentStatusEnum "paymentStatus"
                (body_paymentStatus body)) eqn:H2; [discriminate|].
    destruct (checkEnum Booking.paymentMethodEnum "paymentMethod"
                (body_paymentMethod body)) eqn:H3; [discriminate|].
    cbn [orElse]. repeat split; eauto using checkEnum_none.
Qed.

Lemma schemaValid_run (now : Date) (op : LedgerOp) (st : Store) :
  schemaValid st -> schemaValid (snd (run now op st)).
Proof.
  intros Hst.
  destruct op as [user bid body|user bid reason|bid|bid|user bid]; cbn [run].
  - destruct (updateBooking st user bid body) as [[c data|err] st'] eqn:Hu.
    + destruct (updateBooking_stores _ _ _ _ _ _ _ Hu)
        as (b & body' & Hfind & _ & _ & -> & Hvalid & _).
      cbn [snd]. apply schemaValid_write; [exact Hst|].
      apply validateBooking_applyBody; [|exact Hvalid].
      destruct (findBookingById_spec _ _ _ Hfind) as [_ Hin].
      exact (proj1 (Forall_forall _ _) Hst b Hin).
    + replace st' with st; [exact Hst|].
      revert Hu. unfold updateBooking.
      destruct (findBookingById st bid); [|intros [= _ <-]; reflexivity].
      destruct (ownership _ _ _ _); [intros [= _ <-]; reflexivity|].
      cbv zeta.
      match goal with
      | |- context [match ?x with inl _ => _ | inr _ => _ end] =>
          destruct x as [e|body']
      end; [intros [= _ <-]; reflexivity|].
      destruct (findByIdAndUpdate _ _ _) as [e|[d s2]];
        [intros [= _ <-]; reflexivity|discriminate].
  - unfold cancelBooking.
    destruct (findBookingById st bid); [|exact Hst].
    destruct (ownership _ _ _ _); [exact Hst|]. cbv zeta.
    destruct (_ && _); [exact Hst|]. unfold cancel.
    destruct (save st _ _) as [e|[d s2]] eqn:Hsave; [exact Hst|].
    exact (schemaValid_save _ _ _ _ _ Hst Hsave).
  - rewrite (proj2 (checkIn_never_sends st now bid)). exact Hst.
  - unfold checkOut.
    destruct (findBookingById st bid); [|exact Hst].
    destruct (negb _); [exact Hst|]. cbv zeta.
    destruct (save st _ _) as [e|[d s2]] eqn:Hsave; [exact Hst|].
    exact (schemaValid_save _ _ _ _ _ Hst Hsave).
  - unfold verifyPayment.
    destruct (findBookingById st bid); [|exact Hst]. cbv zeta.
    destruct (save st _ _) as [e|[d s2]] eqn:Hsave; [exact Hst|].
    exact (schemaValid_save _ _ _ _ _ Hst Hsave).
Qed.

Lemma schemaValid_handle (now : Date) (req : Request) (st : Store) :
  schemaValid st -> schemaValid (snd (handle now req st)).
Proof.
  intros Hst.
  destruct req as [user pid s e body newId|op|user bid|user bid files up];
    cbn [handle].
  - destruct (createBooking st user pid s e body newId)
      as [[c data|err] st'] eqn:Hc.
    + destruct (createBooking_stores _ _ _ _ _ _ _ _ _ _ Hc)
        as (property & booking & _ & _ & -> & _ & _ & Hvalid & _).
      cbn [snd]. unfold schemaValid. cbn [bookings withBookings].
      apply Forall_app. split; [exact Hst|].
      constructor; [exact Hvalid|constructor].
    + replace st' with st; [exact Hst|].
      revert Hc. unfold createBooking.
      destruct (findPropertyById st pid); [|intros [= _ <-]; reflexivity].
      destruct (negb _); [intros [= _ <-]; reflexivity|]. cbv zeta.
      destruct (create _ _) as [e'|[d s2]];
        [intros [= _ <-]; reflexivity|discriminate].
  - apply schemaValid_run. exact Hst.
  - unfold deleteBooking.
    destruct (findBookingById st bid); [|exact Hst].
    destruct (negb _); [exact Hst|].
    cbn [snd]. unfold schemaValid. cbn [bookings withBookings].
    apply Forall_removeFirst. exact Hst.
  - unfold uploadPaymentProof.
    destruct (findBookingById st bid); [|exact Hst].
    destruct (_ && _); [exact Hst|].
    destruct files as [file|]; [|exact Hst].
    destruct (negb (String.prefix _ _)); [exact Hst|]. cbv zeta.
    destruct (size file >? 1000000); [exact Hst|].
    destruct up as [result|]; [|exact Hst].
    destruct (save st _ _) as [e|[d s2]] eqn:Hsave; [exact Hst|].
    exact (schemaValid_save _ _ _ _ _ Hst Hsave).
Qed.

(** X6.  Whatever sequence of requests the booking handlers serve (create,
    update, cancel, check-in, check-out, payment verification, delete,
    proof upload), every booking they leave in the collection passes the
    validators of the schema, provided the collection did so before. *)
Theorem handlers_keep_schema_valid (reqs : list (Date * Request))
    (st : Store) :
  schemaValid st -> schemaValid (handleAll reqs st).
Proof.
  revert st. induction reqs as [|[now req] rest IH]; intros st Hst; cbn.
  - exact Hst.
  - apply IH, schemaValid_handle. exact Hst.
Qed.

(** X7.  In a collection that the handlers have written, no check-out is
    ever answered with success: the handler asks for the status
    [checked_in], which the schema does not admit, so no stored booking
    carries it.  The store is left as it was. *)
Theorem checkOut_never_succeeds (reqs : list (Date * Request)) (st : Store)
    (now : Date) (bid : ObjectId) :
  schemaValid st ->
  isSuccess (fst (checkOut (handleAll reqs st) now bid)) = false
  /\ snd (checkOut (handleAll reqs st) now bid) = handleAll reqs st
  /\ statusOf (handleAll reqs st) bid <> Some "checked_in".
Proof.
  intros Hst. pose proof (handlers_keep_schema_valid reqs st Hst) as Hvalid.
  set (st' := handleAll reqs st) in *.
  assert (Hno : forall b, findBookingById st' bid = Some b ->
            String.eqb (Booking.status b) "checked_in" = false).
  { intros b Hfind. destruct (findBookingById_spec _ _ _ Hfind) as [_ Hin].
    pose proof (proj1 (Forall_forall _ _) Hvalid b Hin) as Hb.
    apply validateBooking_none in Hb. destruct Hb as (_ & Hs & _).
    destruct (String.eqb (Booking.status b) "checked_in") eqn:Heq;
      [|reflexivity].
    apply String.eqb_eq in Heq. rewrite Heq in Hs. discriminate. }
  unfold checkOut, statusOf.
  destruct (findBookingById st' bid) as [b|] eqn:Hfind.
  - rewrite (Hno b eq_refl). cbn. repeat split.
    intros [= Hs]. specialize (Hno b eq_refl). rewrite Hs in Hno.
    discriminate.
  - cbn. repeat split. discriminate.
Qed.

(** The suite's store stays valid through a create, a check-in attempt and
    a cancellation, and refuses the check-out that follows. *)
Lemma handlers_keep_schema_valid_witness :
  schemaValid
    (handleAll
       [ (jan01, CreateBooking testUser "p1" jul01 jul07 newBookingBody "b2");
         (jun01, Ledger (CheckIn "b1"));
         (jun01, Ledger (Cancel testAdmin "b1" None)) ]
       testStore).
Proof.
  apply handlers_keep_schema_valid.
  constructor; [vm_compute; reflexivity|constructor].
Defined.

Lemma checkOut_never_succeeds_witness :
  isSuccess
    (fst (checkOut
            (handleAll
               [ (jan01,
                  CreateBooking testUser "p1" jul01 jul07 newBookingBody "b2");
                 (jun01, Ledger (CheckIn "b1")) ]
               testStore)
            jun07 "b1")) = false.
Proof.
  apply checkOut_never_succeeds.
  constructor; [vm_compute; reflexivity|constructor].
Defined.

(** ** Actors without a title to a booking *)

(** X8.  An actor who is neither the guest of a booking, nor the creator
    of its property, nor an administrator changes nothing: update,
    cancellation and proof upload answer 401 and delete answers with an
    error, the store staying as it was. *)
Theorem stranger_changes_nothing (st : Store) (now : Date) (user : Actor)
    (bid : ObjectId) (b : Booking.t) (body : BookingBody)
    (reason : option string) (files : option UploadedFile)
    (uploaded : option UploadResult) :
  findBookingById st bid = Some b ->
  stranger st user b ->
  (exists message,
     updateBooking st user bid body = (Next (ErrorResponse message 401), st))
  /\ (exists message,
        cancelBooking st now user bid reason
        = (Next (ErrorResponse message 401), st))
  /\ (exists message,
        uploadPaymentProof st now user bid files uploaded
        = (Next (ErrorResponse message 401), st))
  /\ (exists e, deleteBooking st user bid = (Next e, st)).
Proof.
  intros Hfind (Hguest & Hrole & property & Hp & Hcreator).
  apply String.eqb_neq in Hguest, Hrole, Hcreator.
  unfold updateBooking, cancelBooking, uploadPaymentProof, deleteBooking,
    ownership.
  rewrite Hfind, Hp, Hguest, Hrole, Hcreator. cbn [negb andb].
  repeat split; eexists; reflexivity.
Qed.

Lemma stranger_changes_nothing_witness :
  exists message,
    cancelBooking testStore jan01 {| id := "user2"; role := "user" |} "b1"
      None
    = (Next (ErrorResponse message 401), testStore).
Proof.
  apply (stranger_changes_nothing testStore jan01
           {| id := "user2"; role := "user" |} "b1" testBooking
           newBookingBody None None None).
  - reflexivity.
  - split; [discriminate|]. split; [discriminate|].
    exists testProperty. split; [reflexivity|discriminate].
Defined.

(** ** Deleting a booking *)

Lemma find_removeFirst_same {A} (key : A -> string) (k : string)
    (l : list A) :
  NoDup (map key l) ->
  find (fun a => String.eqb (key a) k)
    (removeFirst (fun a => String.eqb (key a) k) l) = None.
Proof.
  intros Hnodup. induction l as [|a l IH]; cbn; [reflexivity|].
  inversion Hnodup as [|? ? Hnotin Hnodup']; subst.
  destruct (String.eqb (key a) k) eqn:Hk.
  - apply String.eqb_eq in Hk. apply find_none_iff. intros x Hx.
    apply String.eqb_neq. intros Hkx. apply Hnotin.
    rewrite Hk, <- Hkx. apply in_map. exact Hx.
  - cbn. rewrite Hk. apply IH. exact Hnodup'.
Qed.

Lemma find_removeFirst_other {A} (key : A -> string) (k k' : string)
    (l : list A) :
  k' <> k ->
  find (fun a => String.eqb (key a) k')
    (removeFirst (fun a => String.eqb (key a) k) l)
  = find (fun a => String.eqb (key a) k') l.
Proof.
  intros Hk. induction l as [|a l IH]; cbn; [reflexivity|].
  destruct (String.eqb (key a) k) eqn:Hak.
  - apply String.eqb_eq in Hak.
    destruct (String.eqb (key a) k') eqn:Hak'; [|reflexivity].
    apply String.eqb_eq in Hak'. congruence.
  - cbn. rewrite IH. reflexivity.
Qed.

(** X9.  [deleteBooking] serves the guest of the booking only.  For the
    guest the booking is removed: with unique identifiers it is no longer
    found, and every other booking is found as before.  For any other
    actor, the creator of the property and administrators included, the
    request ends in an error and nothing is removed. *)
Theorem deleteBooking_serves_guest_only (st : Store) (user : Actor)
    (bid : ObjectId) (b : Booking.t) :
  findBookingById st bid = Some b ->
  uniqueIds st ->
  (Booking.user b = id user ->
   deleteBooking st user bid = (Sent 200 None, withoutBooking st bid)
   /\ findBookingById (withoutBooking st bid) bid = None
   /\ (forall other, other <> bid ->
         findBookingById (withoutBooking st bid) other
         = findBookingById st other))
  /\ (Booking.user b <> id user ->
      exists e, deleteBooking st user bid = (Next e, st)).
Proof.
  intros Hfind Hunique. unfold deleteBooking. rewrite Hfind. split.
  - intros Hguest. apply String.eqb_eq in Hguest. rewrite Hguest.
    cbn [negb]. split; [reflexivity|]. split.
    + apply (find_removeFirst_same Booking._id bid). exact Hunique.
    + intros other Hother.
      apply (find_removeFirst_other Booking._id bid other). exact Hother.
  - intros Hguest. apply String.eqb_neq in Hguest. rewrite Hguest.
    cbn [negb]. eexists. reflexivity.
Qed.

(** An administrator cannot delete the guest's June booking. *)
Lemma deleteBooking_serves_guest_only_witness :
  exists e, deleteBooking testStore testAdmin "b1" = (Next e, testStore).
Proof.
  apply (proj2 (deleteBooking_serves_guest_only testStore testAdmin "b1"
                  testBooking eq_refl
                  ltac:(constructor; [intros []|constructor]))).
  discriminate.
Defined.

(** ** Upload, then verification *)

Lemma preSave_passes (st : Store) (m : string -> bool)
    (doc doc' : Booking.t) :
  preSave st m doc = inr doc' ->
  Booking.totalPrice doc' <> 0
  \/ findPropertyById st (Booking.property doc') <> None.
Proof.
  unfold preSave.
  destruct (negb (m "startDate") && negb (m "endDate")
            && negb (Booking.totalPrice doc =? 0)) eqn:Hskip.
  - intros [= <-]. left.
    apply andb_true_iff in Hskip. destruct Hskip as [_ Hnz].
    apply negb_true_iff, Z.eqb_neq in Hnz. exact Hnz.
  - destruct (findPropertyById st (Booking.property doc)) eqn:Hp;
      [|discriminate].
    intros [= <-]. right. cbn. rewrite Hp. discriminate.
Qed.

(** Verification of a valid booking that carries a proof. *)
Lemma verifyPayment_succeeds (st : Store) (now : Date) (user : Actor)
    (bid : ObjectId) (d : Booking.t) (proof : PaymentProof.t) :
  findBookingById st bid = Some d ->
  validateBooking d = None ->
  Booking.paymentProof d = Some proof ->
  Booking.totalPrice d <> 0
  \/ findPropertyById st (Booking.property d) <> None ->
  exists booking st2 proof',
    verifyPayment st now user bid = (Sent 200 (Some booking), st2)
    /\ findBookingById st2 bid = Some booking
    /\ Booking.paymentStatus booking = "paid"
    /\ Booking.paymentProof booking = Some proof'
    /\ PaymentProof.verified proof' = true
    /\ PaymentProof.verifiedBy proof' = Some (id user)
    /\ PaymentProof.verifiedAt proof' = Some now
    /\ PaymentProof.url proof' = PaymentProof.url proof
    /\ PaymentProof.publicId proof' = PaymentProof.publicId proof
    /\ Booking.status booking
       = (if String.eqb (Booking.status d) "pending" then "confirmed"
          else Booking.status d).
Proof.
  intros Hfind Hvalid Hproof Hhook.
  destruct (findBookingById_spec _ _ _ Hfind) as [Hid _].
  apply validateBooking_none in Hvalid.
  destruct Hvalid as (Hg & Hs & Hps & Hpm & Hr).
  unfold verifyPayment, nestedProof. rewrite Hfind, Hproof. cbv zeta.
  cbn [Booking.status Booking.setPaymentStatus Booking.setPaymentProof].
  unfold save.
  destruct (String.eqb (Booking.status d) "pending") eqn:Hpend.
  - match goal with
    | |- context [validateBooking ?x] =>
        replace (validateBooking x) with (@None Error)
    end.
    2:{ symmetry. apply validateBooking_none. cbn. repeat split; auto. }
    unfold preSave.
    cbn [modified existsb String.eqb Ascii.eqb Bool.eqb orb negb andb
         Booking.totalPrice Booking.property Booking.setStatus
         Booking.setPaymentStatus Booking.setPaymentProof].
    destruct (Booking.totalPrice d =? 0) eqn:Hzero; cbn [negb].
    + destruct (findPropertyById st (Booking.property d)) as [p|] eqn:Hp.
      * eexists. eexists. eexists. split; [reflexivity|]. split.
        { rewrite findBookingById_write. cbn [Booking._id
            Booking.setTotalPrice Booking.setStatus Booking.setPaymentStatus
            Booking.setPaymentProof].
          rewrite Hid, String.eqb_refl, Hfind. reflexivity. }
        cbn. repeat split; reflexivity.
      * exfalso. apply Z.eqb_eq in Hzero. destruct Hhook; congruence.
    + eexists. eexists. eexists. split; [reflexivity|]. split.
      { rewrite findBookingById_write. cbn [Booking._id
          Booking.setTotalPrice Booking.setStatus Booking.setPaymentStatus
          Booking.setPaymentProof].
        rewrite Hid, String.eqb_refl, Hfind. reflexivity. }
      cbn. repeat split; reflexivity.
  - match goal with
    | |- context [validateBooking ?x] =>
        replace (validateBooking x) with (@None Error)
    end.
    2:{ symmetry. apply validateBooking_none. cbn. repeat split; auto. }
    unfold preSave.
    cbn [modified existsb String.eqb Ascii.eqb Bool.eqb orb negb andb
         Booking.totalPrice Booking.property Booking.setStatus
         Booking.setPaymentStatus Booking.setPaymentProof].
    destruct (Booking.totalPrice d =? 0) eqn:Hzero; cbn [negb].
    + destruct (findPropertyById st (Booking.property d)) as [p|] eqn:Hp.
      * eexists. eexists. eexists. split; [reflexivity|]. split.
        { rewrite findBookingById_write. cbn [Booking._id
            Booking.setTotalPrice Booking.setStatus Booking.setPaymentStatus
            Booking.setPaymentProof].
          rewrite Hid, String.eqb_refl, Hfind. reflexivity. }
        cbn. repeat split; reflexivity.
      * exfalso. apply Z.eqb_eq in Hzero. destruct Hhook; congruence.
    + eexists. eexists. eexists. split; [reflexivity|]. split.
      { rewrite findBookingById_write. cbn [Booking._id
          Booking.setTotalPrice Booking.setStatus Booking.setPaymentStatus
          Booking.setPaymentProof].
        rewrite Hid, String.eqb_refl, Hfind. reflexivity. }
      cbn. repeat split; reflexivity.
Qed.

(** What a successful upload stores. *)
Lemma uploadPaymentProof_stores (st st1 : Store) (now : Date) (user : Actor)
    (bid : ObjectId) (files : option UploadedFile)
    (uploaded : option UploadResult) (c : Z) (data : option Booking.t) :
  uploadPaymentProof st now user bid files uploaded = (Sent c data, st1) ->
  exists b doc result proof,
    findBookingById st bid = Some b
    /\ uploaded = Some result
    /\ data = Some doc
    /\ findBookingById st1 bid = Some doc
    /\ properties st1 = properties st
    /\ validateBooking doc = None
    /\ Booking.status doc = Booking.status b
    /\ Booking.paymentProof doc = Some proof
    /\ PaymentProof.url proof = secure_url result
    /\ PaymentProof.publicId proof = public_id result
    /\ (Booking.totalPrice doc <> 0
        \/ findPropertyById st (Booking.property doc) <> None).
Proof.
  unfold uploadPaymentProof.
  destruct (findBookingById st bid) as [b|] eqn:Hfind; [|discriminate].
  destruct (findBookingById_spec _ _ _ Hfind) as [Hid _].
  destruct (_ && _); [discriminate|].
  destruct files as [file|]; [|discriminate].
  destruct (negb (String.prefix _ _)); [discriminate|]. cbv zeta.
  destruct (size file >? 1000000); [discriminate|].
  destruct uploaded as [result|]; [|discriminate].
  destruct (save st _ _) as [err|[doc st']] eqn:Hsave; [discriminate|].
  intros [= _ <- <-].
  unfold save in Hsave.
  destruct (validateBooking _) eqn:Hvalid; [discriminate|].
  destruct (preSave st _ _) as [err|doc'] eqn:Hpre; [discriminate|].
  injection Hsave as <- <-.
  pose proof (preSave_passes _ _ _ _ Hpre) as Hhook.
  destruct (preSave_inr _ _ _ _ Hpre) as (total & Hdoc).
  exists b, doc', result.
  destruct (String.eqb (role user) "admin"); eexists;
    (split; [reflexivity|]); (split; [reflexivity|]);
    (split; [reflexivity|]);
    (split;
     [rewrite findBookingById_write, Hdoc;
      cbn [Booking._id Booking.setTotalPrice Booking.setPaymentStatus
           Booking.setPaymentProof];
      rewrite Hid, String.eqb_refl, Hfind; reflexivity|]);
    (split; [reflexivity|]);
    (split; [rewrite Hdoc, validateBooking_setTotalPrice; exact Hvalid|]);
    (split; [rewrite Hdoc; reflexivity|]);
    (split; [rewrite Hdoc; reflexivity|]);
    (split; [reflexivity|]); (split; [reflexivity|]); exact Hhook.
Qed.

(** X10.  A payment proof that was uploaded with success can be verified:
    the verification that follows is answered with the booking, its
    payment status [paid], its proof verified by the verifying actor at
    the time of the verification, the uploaded file still attached, and
    its status [confirmed] if it was [pending] and unchanged otherwise. *)
Theorem upload_then_verify (st st1 : Store) (t1 t2 : Date)
    (uploader verifier : Actor) (bid : ObjectId)
    (files : option UploadedFile) (uploaded : option UploadResult) (c : Z)
    (data : option Booking.t) :
  uploadPaymentProof st t1 uploader bid files uploaded = (Sent c data, st1) ->
  exists b result booking st2 proof,
    findBookingById st bid = Some b
    /\ uploaded = Some result
    /\ verifyPayment st1 t2 verifier bid = (Sent 200 (Some booking), st2)
    /\ findBookingById st2 bid = Some booking
    /\ Booking.paymentStatus booking = "paid"
    /\ Booking.paymentProof booking = Some proof
    /\ PaymentProof.verified proof = true
    /\ PaymentProof.verifiedBy proof = Some (id verifier)
    /\ PaymentProof.verifiedAt proof = Some t2
    /\ PaymentProof.url proof = secure_url result
    /\ PaymentProof.publicId proof = public_id result
    /\ Booking.status booking
       = (if String.eqb (Booking.status b) "pending" then "confirmed"
          else Booking.status b).
Proof.
  intros Hup.
  destruct (uploadPaymentProof_stores _ _ _ _ _ _ _ _ _ Hup)
    as (b & doc & result & proof & Hb & Hres & _ & Hfound & Hprops & Hvalid
        & Hst & Hproof & Hurl & Hpid & Hhook).
  assert (Hhook' : Booking.totalPrice doc <> 0
                   \/ findPropertyById st1 (Booking.property doc) <> None).
  { unfold findPropertyById in *. rewrite Hprops. exact Hhook. }
  destruct (verifyPayment_succeeds st1 t2 verifier bid doc proof Hfound
              Hvalid Hproof Hhook')
    as (booking & st2 & proof' & Hv & Hf2 & Hpaid & Hp' & Hver & Hby & Hat
        & Hurl' & Hpid' & Hstatus).
  exists b, result, booking, st2, proof'.
  rewrite Hst in Hstatus. rewrite Hurl in Hurl'. rewrite Hpid in Hpid'.
  repeat split; assumption.
Qed.

(** The guest uploads a receipt for a pending booking, the administrator
    verifies it: the booking is confirmed. *)
Lemma upload_then_verify_witness :
  exists booking st2,
    verifyPayment
      (snd (uploadPaymentProof
              (storeWith [Booking.setStatus "pending" testBooking] [])
              jan01 testUser "b1" (Some testFile) (Some testUpload)))
      jun01 testAdmin "b1"
    = (Sent 200 (Some booking), st2)
    /\ Booking.status booking = "confirmed"
    /\ Booking.paymentStatus booking = "paid".
Proof.
  destruct (upload_then_verify
              (storeWith [Booking.setStatus "pending" testBooking] []) _
              jan01 jun01 testUser testAdmin "b1" (Some testFile)
              (Some testUpload) 200
              (match fst (uploadPaymentProof
                            (storeWith
                               [Booking.setStatus "pending" testBooking] [])
                            jan01 testUser "b1" (Some testFile)
                            (Some testUpload)) with
               | Sent _ d => d
               | Next _ => None
               end)
              ltac:(vm_compute; reflexivity))
    as (b & result & booking & st2 & proof & Hb & _ & Hverify & _ & Hpaid
        & _ & _ & _ & _ & _ & _ & Hstatus).
  exists booking, st2. split; [exact Hverify|]. split; [|exact Hpaid].
  vm_compute in Hb. injection Hb as <-. exact Hstatus.
Defined.

(** ** Nights and totals *)

Lemma ceilDiv_spec (a d : Z) :
  0 < d -> (ceilDiv a d - 1) * d < a <= ceilDiv a d * d.
Proof.
  intros Hd. unfold ceilDiv.
  pose proof (Z.div_mod (- a) d ltac:(lia)) as Hdm.
  pose proof (Z.mod_pos_bound (- a) d Hd) as Hb.
  nia.
Qed.

(** X11.  The total that [createBooking] stores charges the nightly price
    for the least whole number of days that covers the stay.  A stay with
    [s < e] is charged at least one night; the handler does not refuse a
    range whose end is not after its start, and charges it no night or a
    negative number of nights. *)
Theorem created_total_covers_stay (st st' : Store) (user : Actor)
    (pid : ObjectId) (s e : Date) (body : BookingBody) (newId : ObjectId)
    (c : Z) (data : option Booking.t) :
  createBooking st user pid s e body newId = (Sent c data, st') ->
  exists property booking n,
    data = Some booking
    /\ findPropertyById st pid = Some property
    /\ Booking.totalPrice booking = Property.price property * n
    /\ (n - 1) * msPerDay < e - s <= n * msPerDay
    /\ (s < e -> 1 <= n)
    /\ (e <= s -> n <= 0).
Proof.
  intros Hsent.
  destruct (createBooking_stores _ _ _ _ _ _ _ _ _ _ Hsent)
    as (property & booking & Hd & _ & _ & Hp & _ & _ & _ & _ & _ & _ & _ & _
        & Ht).
  exists property, booking, (nights s e).
  split; [exact Hd|]. split; [exact Hp|]. split; [exact Ht|].
  pose proof (ceilDiv_spec (e - s) msPerDay ltac:(reflexivity)) as Hn.
  fold (nights s e) in Hn. unfold msPerDay in *.
  split; [exact Hn|]. split; intros H; nia.
Qed.

(** A request for July 7 back to July 1 is accepted and stored with a
    total of minus six nights. *)
Lemma created_total_covers_stay_witness :
  exists booking,
    fst (createBooking testStore testUser "p1" jul07 jul01
           newBookingBody "b2") = Sent 201 (Some booking)
    /\ Booking.totalPrice booking = - 1200.
Proof.
  destruct (created_total_covers_stay testStore _ testUser "p1" jul07 jul01
              newBookingBody "b2" 201
              (match fst (createBooking testStore testUser "p1" jul07 jul01
                            newBookingBody "b2") with
               | Sent _ d => d
               | Next _ => None
               end)
              ltac:(vm_compute; reflexivity))
    as (property & booking & n & Hd & _).
  exists booking. vm_compute in Hd. injection Hd as <-.
  split; vm_compute; reflexivity.
Defined.

(** ** The availability endpoint *)

(** X12.  [checkAvailability] and [createBooking] agree: a create is
    answered with success only for dates the endpoint reports available,
    and for dates it reports unavailable the create is refused with 400
    and stores nothing.  Without both dates the endpoint answers 400
    before it looks the property up. *)
Theorem create_agrees_with_checkAvailability (st : Store) (user : Actor)
    (pid : ObjectId) (s e : Date) (body : BookingBody) (newId : ObjectId) :
  (forall c data st',
     createBooking st user pid s e body newId = (Sent c data, st') ->
     exists a,
       checkAvailability st pid (Some s) (Some e) = Sent 200 a
       /\ available a = true)
  /\ (forall a,
        checkAvailability st pid (Some s) (Some e) = Sent 200 a ->
        available a = false ->
        createBooking st user pid s e body newId
        = (Next (ErrorResponse
                   "Property is not available for the selected dates" 400),
           st))
  /\ (forall d,
        checkAvailability st pid None d
        = Next (ErrorResponse "Please provide both start and end dates" 400)
        /\ checkAvailability st pid d None
           = Next (ErrorResponse "Please provide both start and end dates"
                     400)).
Proof.
  split; [|split].
  - intros c data st' Hsent.
    destruct (createBooking_stores _ _ _ _ _ _ _ _ _ _ Hsent)
      as (property & booking & _ & _ & _ & Hp & Hav & _).
    unfold checkAvailability. rewrite Hp, Hav. eexists. split; reflexivity.
  - unfold checkAvailability, createBooking.
    destruct (findPropertyById st pid) as [property|]; [|discriminate].
    intros a [= <-]. cbn [available]. intros ->. reflexivity.
  - intros d. split; [reflexivity|]. destruct d; reflexivity.
Qed.

Lemma create_agrees_with_checkAvailability_witness :
  createBooking testStore testUser "p1" jun05 jun10 newBookingBody "b2"
  = (Next (ErrorResponse
             "Property is not available for the selected dates" 400),
     testStore).
Proof.
  apply (proj1 (proj2 (create_agrees_with_checkAvailability testStore
                         testUser "p1" jun05 jun10 newBookingBody "b2"))
           {| available := false; availability_id := "p1";
              availability_price := 200 |}).
  - vm_compute. reflexivity.
  - reflexivity.
Defined.

(** * Properties of the photo handlers *)

Lemma findListingById_spec (ls : Listings) (pid : ObjectId) (l : Listing) :
  findListingById ls pid = Some l ->
  Property._id (listing l) = pid /\ In l ls.
Proof.
  unfold findListingById. intros Hfind. apply find_some in Hfind.
  destruct Hfind as [Hin Hid]. apply String.eqb_eq in Hid. auto.
Qed.

Lemma featuredCount_cons (img : Image.t) (imgs : list Image.t) :
  featuredCount (img :: imgs)
  = ((if Image.isFeatured img then 1 else 0) + featuredCount imgs)%nat.
Proof.
  unfold featuredCount. cbn. destruct (Image.isFeatured img); reflexivity.
Qed.

Lemma featuredCount_cleared (imgs : list Image.t) :
  featuredCount (map (Image.setIsFeatured false) imgs) = 0%nat.
Proof.
  induction imgs as [|img imgs IH]; [reflexivity|].
  cbn [map]. rewrite featuredCount_cons, IH. reflexivity.
Qed.

Lemma featureOnly_count (photoId : ObjectId) (imgs : list Image.t) :
  find (fun img => String.eqb (Image._id img) photoId) imgs <> None ->
  featuredCount (featureOnly photoId imgs) = 1%nat.
Proof.
  induction imgs as [|img imgs IH]; cbn [find featureOnly]; [congruence|].
  destruct (String.eqb (Image._id img) photoId); intros Hfound.
  - rewrite featuredCount_cons, featuredCount_cleared. reflexivity.
  - rewrite featuredCount_cons. cbn [Image.isFeatured Image.setIsFeatured].
    apply IH. exact Hfound.
Qed.

Lemma featureOnly_flags_only (photoId : ObjectId) (imgs : list Image.t) :
  map (Image.setIsFeatured false) (featureOnly photoId imgs)
  = map (Image.setIsFeatured false) imgs.
Proof.
  induction imgs as [|img imgs IH]; cbn; [reflexivity|].
  destruct (String.eqb (Image._id img) photoId); cbn.
  - f_equal. rewrite map_map. apply map_ext. intros a. reflexivity.
  - f_equal. exact IH.
Qed.

Lemma featureOnly_featured (photoId : ObjectId) (imgs : list Image.t)
    (img : Image.t) :
  In img (featureOnly photoId imgs) ->
  Image.isFeatured img = true ->
  Image._id img = photoId.
Proof.
  induction imgs as [|a imgs IH]; cbn; [intros []|].
  destruct (String.eqb (Image._id a) photoId) eqn:Ha.
  - intros [<-|Hin] Hf.
    + apply String.eqb_eq in Ha. exact Ha.
    + apply in_map_iff in Hin. destruct Hin as (x & <- & _). discriminate.
  - intros [<-|Hin] Hf; [discriminate|]. exact (IH Hin Hf).
Qed.

Lemma splice1_count (i : nat) (imgs : list Image.t) (photo : Image.t) :
  nth_error imgs i = Some photo ->
  featuredCount imgs
  = ((if Image.isFeatured photo then 1 else 0)
     + featuredCount (splice1 i imgs))%nat.
Proof.
  revert i. induction imgs as [|img imgs IH]; intros [|i];
    cbn [nth_error splice1]; try discriminate.
  - intros [= ->]. apply featuredCount_cons.
  - intros Hnth. rewrite !featuredCount_cons, (IH i Hnth). lia.
Qed.

Lemma featureFirst_count (imgs : list Image.t) :
  imgs <> [] -> featuredCount imgs = 0%nat ->
  featuredCount (featureFirst imgs) = 1%nat.
Proof.
  destruct imgs as [|img imgs]; [congruence|]. intros _.
  cbn [featureFirst]. rewrite !featuredCount_cons.
  cbn [Image.isFeatured Image.setIsFeatured].
  destruct (Image.isFeatured img); lia.
Qed.

Lemma oneFeatured_upload (imgs : list Image.t) (newId : ObjectId)
    (result : UploadResult) :
  oneFeatured imgs ->
  oneFeatured
    ({| Image._id := newId; Image.url := secure_url result;
        Image.publicId := public_id result;
        Image.isFeatured := (List.length imgs =? 0)%nat |} :: imgs).
Proof.
  intros [->|Hone]; right.
  - reflexivity.
  - rewrite featuredCount_cons. cbn [Image.isFeatured].
    destruct imgs as [|img imgs]; [discriminate|].
    cbn [List.length Nat.eqb]. exact Hone.
Qed.

Lemma oneFeatured_delete (imgs : list Image.t) (i : nat) (photo : Image.t) :
  oneFeatured imgs ->
  nth_error imgs i = Some photo ->
  oneFeatured
    (if Image.isFeatured photo && (0 <? List.length (splice1 i imgs))%nat
     then featureFirst (splice1 i imgs)
     else splice1 i imgs).
Proof.
  intros [->|Hone] Hnth; [destruct i; discriminate|].
  pose proof (splice1_count i imgs photo Hnth) as Hcount.
  rewrite Hone in Hcount.
  destruct (Image.isFeatured photo).
  - destruct (splice1 i imgs) as [|img rest] eqn:Hrest.
    + left. reflexivity.
    + right. cbn [andb Nat.ltb Nat.leb List.length].
      apply featureFirst_count; [discriminate|lia].
  - right. cbn [andb]. lia.
Qed.

Lemma galleries_write (ls : Listings) (doc : Listing) :
  galleriesOneFeatured ls -> oneFeatured (images doc) ->
  galleriesOneFeatured (writeListing ls doc).
Proof.
  intros Hls Hdoc. apply Forall_replaceFirst; assumption.
Qed.

Lemma galleries_found (ls : Listings) (pid : ObjectId) (l : Listing) :
  galleriesOneFeatured ls -> findListingById ls pid = Some l ->
  oneFeatured (images l).
Proof.
  intros Hls Hfind. destruct (findListingById_spec _ _ _ Hfind) as [_ Hin].
  exact (proj1 (Forall_forall _ _) Hls l Hin).
Qed.

Lemma galleries_servePhoto (req : PhotoRequest) (ls : Listings) :
  galleriesOneFeatured ls -> galleriesOneFeatured (snd (servePhoto req ls)).
Proof.
  intros Hls.
  destruct req as [user pid files env uploaded newId
                  |destroy user pid photoId|user pid photoId];
    cbn [servePhoto].
  - unfold propertyPhotoUpload.
    destruct (findListingById ls pid) as [l|] eqn:Hfind; [|exact Hls].
    destruct (notOwner _ _); [exact Hls|].
    destruct files as [file|]; [|exact Hls].
    destruct (negb (String.prefix _ _)); [exact Hls|]. cbv zeta.
    match goal with |- context [if ?c then _ else _] => destruct c end;
      [exact Hls|].
    destruct uploaded as [result|]; [|exact Hls].
    unfold saveListing. destruct (validateProperty _); [exact Hls|].
    cbn [snd]. apply galleries_write; [exact Hls|]. cbn [images withImages].
    apply oneFeatured_upload. exact (galleries_found _ _ _ Hls Hfind).
  - unfold deletePropertyPhoto.
    destruct (findListingById ls pid) as [l|] eqn:Hfind; [|exact Hls].
    destruct (notOwner _ _); [exact Hls|].
    destruct (findIndex photoId (images l)) as [i|]; [|exact Hls].
    destruct (nth_error (images l) i) as [photo|] eqn:Hnth; [|exact Hls].
    cbv zeta. unfold saveListing.
    destruct (validateProperty _); [exact Hls|].
    cbn [snd]. apply galleries_write; [exact Hls|]. cbn [images withImages].
    apply oneFeatured_delete; [|exact Hnth].
    exact (galleries_found _ _ _ Hls Hfind).
  - unfold setFeaturedPhoto.
    destruct (findListingById ls pid) as [l|] eqn:Hfind; [|exact Hls].
    destruct (notOwner _ _); [exact Hls|]. cbv zeta.
    destruct (find _ (images l)) eqn:Hphoto; [|exact Hls].
    unfold saveListing. destruct (validateProperty _); [exact Hls|].
    cbn [snd]. apply galleries_write; [exact Hls|]. cbn [images withImages].
    right. apply featureOnly_count. rewrite Hphoto. discriminate.
Qed.

(** X13.  The photo handlers keep every gallery empty or with exactly one
    featured image: an upload features the new image only in an empty
    gallery, a delete of the featured image features the first of those
    that remain, and setting a featured image clears every other flag.
    This holds through any sequence of uploads, deletes and settings. *)
Theorem photo_handlers_keep_one_featured (reqs : list PhotoRequest)
    (ls : Listings) :
  galleriesOneFeatured ls -> galleriesOneFeatured (servePhotos reqs ls).
Proof.
  revert ls. induction reqs as [|req rest IH]; intros ls Hls; cbn.
  - exact Hls.
  - apply IH, galleries_servePhoto. exact Hls.
Qed.

(** Two uploads, then the featured (first uploaded) photo is deleted. *)
Lemma photo_handlers_keep_one_featured_witness :
  galleriesOneFeatured
    (servePhotos
       [ Upload testAdmin "p1" (Some testFile) None
           (Some (photoUpload "a")) "i1";
         Upload testAdmin "p1" (Some testFile) None
           (Some (photoUpload "b")) "i2";
         DeletePhoto (fun _ => None) testAdmin "p1" "i1" ]
       [testListing]).
Proof.
  apply photo_handlers_keep_one_featured.
  constructor; [left; reflexivity|constructor].
Defined.

(** X14.  After [setFeaturedPhoto] has answered with success, exactly one
    image of the gallery is featured and it carries the requested
    identifier; the answer is the stored gallery, which differs from the
    gallery before in the flags only. *)
Theorem setFeaturedPhoto_features_requested (ls ls' : Listings)
    (user : Actor) (pid photoId : ObjectId) (c : Z)
    (data : list Image.t) :
  setFeaturedPhoto ls user pid photoId = (Sent c data, ls') ->
  exists before after,
    findListingById ls pid = Some before
    /\ findListingById ls' pid = Some after
    /\ data = images after
    /\ listing after = listing before
    /\ featuredCount (images after) = 1%nat
    /\ (forall img, In img (images after) -> Image.isFeatured img = true ->
          Image._id img = photoId)
    /\ map (Image.setIsFeatured false) (images after)
       = map (Image.setIsFeatured false) (images before).
Proof.
  unfold setFeaturedPhoto.
  destruct (findListingById ls pid) as [l|] eqn:Hfind; [|discriminate].
  destruct (notOwner _ _); [discriminate|]. cbv zeta.
  destruct (find _ (images l)) eqn:Hphoto; [|discriminate].
  unfold saveListing. destruct (validateProperty _); [discriminate|].
  intros [= <- <- <-].
  destruct (findListingById_spec _ _ _ Hfind) as [Hid _].
  exists l. eexists. split; [reflexivity|]. split.
  { unfold findListingById, writeListing in *. cbn [listing withImages].
    rewrite Hid. clear Hid Hphoto.
    induction ls as [|a ls IH]; [discriminate|]. cbn in Hfind |- *.
    destruct (String.eqb (Property._id (listing a)) pid) eqn:Ha.
    - injection Hfind as ->. cbn. rewrite Ha. reflexivity.
    - cbn. rewrite Ha. apply IH. exact Hfind. }
  cbn [images withImages listing].
  split; [reflexivity|]. split; [reflexivity|]. split; [|split].
  - apply featureOnly_count. rewrite Hphoto. discriminate.
  - apply featureOnly_featured.
  - apply featureOnly_flags_only.
Qed.

Lemma findListingById_write (ls : Listings) (pid : ObjectId)
    (l doc : Listing) :
  findListingById ls pid = Some l ->
  Property._id (listing doc) = pid ->
  findListingById (writeListing ls doc) pid = Some doc.
Proof.
  unfold findListingById, writeListing. intros Hfind Hid. rewrite Hid.
  induction ls as [|a ls IH]; [discriminate|]. cbn in Hfind |- *.
  destruct (String.eqb (Property._id (listing a)) pid) eqn:Ha.
  - cbn. rewrite Hid, String.eqb_refl. reflexivity.
  - cbn. rewrite Ha. apply IH. exact Hfind.
Qed.

(** Three uploads; the administrator features the second one. *)
Lemma setFeaturedPhoto_features_requested_witness :
  exists after,
    findListingById
      (snd (setFeaturedPhoto
              (servePhotos
                 [ Upload testAdmin "p1" (Some testFile) None
                     (Some (photoUpload "a")) "i1";
                   Upload testAdmin "p1" (Some testFile) None
                     (Some (photoUpload "b")) "i2";
                   Upload testAdmin "p1" (Some testFile) None
                     (Some (photoUpload "c")) "i3" ]
                 [testListing])
              testAdmin "p1" "i2")) "p1" = Some after
    /\ featuredCount (images after) = 1%nat.
Proof.
  destruct (setFeaturedPhoto_features_requested
              (servePhotos
                 [ Upload testAdmin "p1" (Some testFile) None
                     (Some (photoUpload "a")) "i1";
                   Upload testAdmin "p1" (Some testFile) None
                     (Some (photoUpload "b")) "i2";
                   Upload testAdmin "p1" (Some testFile) None
                     (Some (photoUpload "c")) "i3" ]
                 [testListing])
              _ testAdmin "p1" "i2" 200
              (match fst (setFeaturedPhoto
                            (servePhotos
                               [ Upload testAdmin "p1" (Some testFile) None
                                   (Some (photoUpload "a")) "i1";
                                 Upload testAdmin "p1" (Some testFile) None
                                   (Some (photoUpload "b")) "i2";
                                 Upload testAdmin "p1" (Some testFile) None
                                   (Some (photoUpload "c")) "i3" ]
                               [testListing])
                            testAdmin "p1" "i2") with
               | Sent _ d => d
               | Next _ => []
               end)
              ltac:(vm_compute; reflexivity))
    as (before & after & _ & Hafter & _ & _ & Hcount & _).
  exists after. split; assumption.
Defined.

(** X15.  A photo upload that is answered with success has stored the new
    image in front of the images that were there, which are unchanged; the
    new image is featured exactly when the gallery was empty.  The file
    was announced as an image and was not larger than the limit in force:
    the number in [MAX_FILE_UPLOAD] when that is set (no limit at all when
    its text is not a number), and 1000000 otherwise. *)
Theorem propertyPhotoUpload_stores_first (ls ls' : Listings) (user : Actor)
    (pid : ObjectId) (files : option UploadedFile) (env : option EnvValue)
    (uploaded : option UploadResult) (newId : ObjectId) (c : Z)
    (data : list Image.t) :
  propertyPhotoUpload ls user pid files env uploaded newId
  = (Sent c data, ls') ->
  exists before file result image,
    findListingById ls pid = Some before
    /\ files = Some file
    /\ uploaded = Some result
    /\ data = image :: images before
    /\ findListingById ls' pid = Some (withImages before data)
    /\ Image._id image = newId
    /\ Image.url image = secure_url result
    /\ Image.publicId image = public_id result
    /\ (Image.isFeatured image = true <-> images before = [])
    /\ String.prefix "image" (mimetype file) = true
    /\ match env with
       | None => size file <= 1000000
       | Some v =>
           match number v with
           | Some maxSize => size file <= maxSize
           | None => True
           end
       end.
Proof.
  unfold propertyPhotoUpload.
  destruct (findListingById ls pid) as [l|] eqn:Hfind; [|discriminate].
  destruct (notOwner _ _); [discriminate|].
  destruct files as [file|]; [|discriminate].
  destruct (String.prefix "image" (mimetype file)) eqn:Hmime;
    cbn [negb]; [|discriminate].
  cbv zeta.
  match goal with
  | |- context [if ?c then _ else _] => destruct c eqn:Hlarge
  end; [discriminate|].
  destruct uploaded as [result|]; [|discriminate].
  unfold saveListing. destruct (validateProperty _); [discriminate|].
  intros [= <- <- <-].
  destruct (findListingById_spec _ _ _ Hfind) as [Hid _].
  exists l, file, result. eexists.
  split; [reflexivity|]. split; [reflexivity|]. split; [reflexivity|].
  split; [reflexivity|]. split.
  { apply (findListingById_write ls pid l); [exact Hfind|exact Hid]. }
  split; [reflexivity|]. split; [reflexivity|]. split; [reflexivity|].
  split; [|split; [exact Hmime|]].
  - cbn [Image.isFeatured]. destruct (images l); cbn; split;
      congruence.
  - destruct env as [v|].
    + destruct (number v) as [maxSize|]; [|exact I].
      rewrite Z.gtb_ltb in Hlarge. apply Z.ltb_ge in Hlarge. exact Hlarge.
    + rewrite Z.gtb_ltb in Hlarge. apply Z.ltb_ge in Hlarge. exact Hlarge.
Qed.

Lemma propertyPhotoUpload_stores_first_witness :
  exists image,
    fst (propertyPhotoUpload [testListing] testAdmin "p1" (Some testFile)
           None (Some (photoUpload "a")) "i1") = Sent 200 [image]
    /\ Image.isFeatured image = true.
Proof.
  destruct (propertyPhotoUpload_stores_first [testListing] _ testAdmin "p1"
              (Some testFile) None (Some (photoUpload "a")) "i1" 200
              (match fst (propertyPhotoUpload [testListing] testAdmin "p1"
                            (Some testFile) None (Some (photoUpload "a"))
                            "i1") with
               | Sent _ d => d
               | Next _ => []
               end)
              ltac:(vm_compute; reflexivity))
    as (before & file & result & image & Hb & _ & _ & Hdata & _ & _ & _ & _
        & Hfeat & _).
  vm_compute in Hb. injection Hb as <-.
  exists image. split.
  - vm_compute in Hdata. vm_compute. rewrite Hdata. reflexivity.
  - apply Hfeat. reflexivity.
Defined.

(** ** The media store *)

Lemma destroyAll_none (destroy : string -> option Error)
    (imgs : list Image.t) :
  destroyAll destroy imgs = None
  <-> (forall img, In img imgs -> Image.publicId img <> EmptyString ->
         destroy (Image.publicId img) = None).
Proof.
  induction imgs as [|img imgs IH]; cbn [destroyAll].
  - split; [intros _ img []|reflexivity].
  - destruct (Image.publicId img) as [|ch rest] eqn:Hpid.
    + rewrite IH. split.
      * intros H x [<-|Hin] Hx; [congruence|exact (H x Hin Hx)].
      * intros H x Hin. apply H. right. exact Hin.
    + destruct (destroy (String ch rest)) eqn:Hd.
      * split; [discriminate|]. intros H.
        specialize (H img (or_introl eq_refl)). rewrite Hpid, Hd in H.
        assert (Hne : String ch rest <> EmptyString) by discriminate.
        specialize (H Hne). discriminate.
      * rewrite IH. split.
        -- intros H x [<-|Hin] Hx; [rewrite Hpid; exact Hd|exact (H x Hin Hx)].
        -- intros H x Hin. apply H. right. exact Hin.
Qed.

(** X16.  [deleteProperty] removes a listing exactly when the media store
    releases every image that carries a public identifier; a single
    rejected release ends the request in an error and the listing stays.
    The deletion of one photo, in contrast, is answered the same whatever
    the media store does. *)
Theorem deleteProperty_needs_media_store (ls : Listings)
    (destroy : string -> option Error) (user : Actor) (pid : ObjectId)
    (l : Listing) :
  findListingById ls pid = Some l ->
  notOwner (listing l) user = false ->
  ((forall img, In img (images l) -> Image.publicId img <> EmptyString ->
      destroy (Image.publicId img) = None)
   <-> deleteProperty ls destroy user pid
       = (Sent 200 tt,
          removeFirst (fun x => String.eqb (Property._id (listing x)) pid)
            ls))
  /\ ((exists img,
         In img (images l) /\ Image.publicId img <> EmptyString
         /\ destroy (Image.publicId img) <> None)
      -> exists e, deleteProperty ls destroy user pid = (Next e, ls))
  /\ (forall destroy' photoId,
        deletePropertyPhoto ls destroy user pid photoId
        = deletePropertyPhoto ls destroy' user pid photoId).
Proof.
  intros Hfind Howner. unfold deleteProperty. rewrite Hfind, Howner.
  split; [|split].
  - rewrite <- destroyAll_none.
    destruct (destroyAll destroy (images l));
      split; intros H; try discriminate; reflexivity.
  - intros (img & Hin & Hpid & Hfail).
    destruct (destroyAll destroy (images l)) eqn:Hall;
      [eexists; reflexivity|].
    exfalso. apply Hfail.
    exact (proj1 (destroyAll_none _ _) Hall img Hin Hpid).
  - intros destroy' photoId. reflexivity.
Qed.

Lemma deleteProperty_needs_media_store_witness :
  exists e,
    deleteProperty
      (servePhotos
         [ Upload testAdmin "p1" (Some testFile) None
             (Some (photoUpload "a")) "i1" ]
         [testListing])
      (fun _ => Some (PlainError "media store unavailable"))
      testAdmin "p1"
    = (Next e,
       servePhotos
         [ Upload testAdmin "p1" (Some testFile) None
             (Some (photoUpload "a")) "i1" ]
         [testListing]).
Proof.
  refine (proj1 (proj2 (deleteProperty_needs_media_store
                          (servePhotos
                             [ Upload testAdmin "p1" (Some testFile) None
                                 (Some (photoUpload "a")) "i1" ]
                             [testListing])
                          (fun _ => Some (PlainError "media store unavailable"))
                          testAdmin "p1"
                          {| listing := testProperty;
                             images :=
                               [ {| Image._id := "i1";
                                    Image.url := "https://media.example/a";
                                    Image.publicId :=
                                      "cyc-acres/properties/a";
                                    Image.isFeatured := true |} ] |}
                          ltac:(vm_compute; reflexivity)
                          ltac:(reflexivity))) _).
  eexists. split; [left; reflexivity|]. split; discriminate.
Defined.

(** X17.  The photo handlers and [deleteProperty] serve the creator of the
    property and administrators only: for any other actor each of them
    answers 401 and leaves the listings as they were. *)
Theorem photo_handlers_refuse_others (ls : Listings) (user : Actor)
    (pid : ObjectId) (l : Listing) (files : option UploadedFile)
    (env : option EnvValue) (uploaded : option UploadResult)
    (newId photoId : ObjectId) (destroy : string -> option Error) :
  findListingById ls pid = Some l ->
  Property.createdBy (listing l) <> id user ->
  role user <> "admin" ->
  (exists message,
     propertyPhotoUpload ls user pid files env uploaded newId
     = (Next (ErrorResponse message 401), ls))
  /\ (exists message,
        deletePropertyPhoto ls destroy user pid photoId
        = (Next (ErrorResponse message 401), ls))
  /\ (exists message,
        setFeaturedPhoto ls user pid photoId
        = (Next (ErrorResponse message 401), ls))
  /\ (exists message,
        deleteProperty ls destroy user pid
        = (Next (ErrorResponse message 401), ls)).
Proof.
  intros Hfind Hcreator Hrole.
  apply String.eqb_neq in Hcreator, Hrole.
  unfold propertyPhotoUpload, deletePropertyPhoto, setFeaturedPhoto,
    deleteProperty, notOwner.
  rewrite Hfind, Hcreator, Hrole. cbn [negb andb].
  repeat split; eexists; reflexivity.
Qed.

Lemma photo_handlers_refuse_others_witness :
  exists message,
    setFeaturedPhoto [testListing] testUser "p1" "i1"
    = (Next (ErrorResponse message 401), [testListing]).
Proof.
  apply (photo_handlers_refuse_others [testListing] testUser "p1"
           testListing None None None "i1" "i1" (fun _ => None)).
  - reflexivity.
  - discriminate.
  - discriminate.
Defined.

(** * Properties of the review aggregator *)

Lemma aggregate_spec (st : Store) (pid : ObjectId) :
  aggregate st pid
  = match reviewsOf st pid with
    | [] => []
    | _ :: _ =>
        [ {| avgRating := meanRating st pid;
             nRating := Z.of_nat (List.length (reviewsOf st pid)) |} ]
    end.
Proof.
  unfold aggregate, meanRating, reviewsOf.
  destruct (filter _ (reviews st)); reflexivity.
Qed.

Lemma roundUp_bounds (m : Q) :
  let a := (inject_Z (Qceiling (m * 10)) / 10)%Q in
  (m <= a)%Q /\ (a < m + (1 # 10))%Q
  /\ (a * 10 == inject_Z (Qceiling (m * 10)))%Q.
Proof.
  cbv zeta.
  pose proof (Qle_ceiling (m * 10)) as Hle.
  pose proof (Qceiling_lt (m * 10)) as Hlt.
  unfold Z.sub in Hlt. rewrite inject_Z_plus in Hlt.
  change (inject_Z (- (1))) with (- (1))%Q in Hlt.
  set (c := inject_Z (Qceiling (m * 10))) in *.
  assert (Hdiv : (c / 10 == c * (1 # 10))%Q) by reflexivity.
  split; [|split].
  - rewrite Hdiv. lra.
  - rewrite Hdiv. lra.
  - rewrite Hdiv. lra.
Qed.

(** X18.  For a property with at least one review, the update that
    [calculateAverageRating] sends names two paths: [averageRating], with
    the mean of the ratings rounded up to the next tenth (not below the
    mean, less than a tenth above it, a whole number of tenths), and
    [numberOfReviews], with the number of reviews of the property. *)
Theorem averageRating_rounds_up (st : Store) (pid : ObjectId) :
  reviewsOf st pid <> [] ->
  exists a k,
    averageRatingUpdate (aggregate st pid)
    = [ ("averageRating", a);
        ("numberOfReviews",
         inject_Z (Z.of_nat (List.length (reviewsOf st pid)))) ]
    /\ (meanRating st pid <= a)%Q
    /\ (a < meanRating st pid + (1 # 10))%Q
    /\ (a * 10 == inject_Z k)%Q.
Proof.
  intros Hsome. rewrite aggregate_spec.
  destruct (reviewsOf st pid) as [|r rs] eqn:Hrs; [congruence|].
  destruct (roundUp_bounds (meanRating st pid)) as (Hle & Hlt & Hint).
  eexists. exists (Qceiling (meanRating st pid * 10)).
  split; [reflexivity|]. cbn [avgRating].
  split; [exact Hle|]. split; [exact Hlt|exact Hint].
Qed.

(** Ratings 5, 4 and 4: the mean 13/3 is sent as 4.4. *)
Lemma averageRating_rounds_up_witness :
  exists a,
    averageRatingUpdate
      (aggregate
         (reviewStore [testProperty]
            [ testReview;
              {| Review._id := "r2"; Review.property := "p1";
                 Review.user := "user2"; Review.booking := "b2";
                 Review.rating := 4; Review.comment := "Good" |};
              {| Review._id := "r3"; Review.property := "p1";
                 Review.user := "user3"; Review.booking := "b3";
                 Review.rating := 4; Review.comment := "Fine" |} ])
         "p1")
    = [("averageRating", a); ("numberOfReviews", inject_Z 3)]
    /\ (a == 44 # 10)%Q.
Proof.
  destruct (averageRating_rounds_up
              (reviewStore [testProperty]
                 [ testReview;
                   {| Review._id := "r2"; Review.property := "p1";
                      Review.user := "user2"; Review.booking := "b2";
                      Review.rating := 4; Review.comment := "Good" |};
                   {| Review._id := "r3"; Review.property := "p1";
                      Review.user := "user3"; Review.booking := "b3";
                      Review.rating := 4; Review.comment := "Fine" |} ])
              "p1" ltac:(discriminate))
    as (a & k & Hupdate & _).
  exists a. split; [exact Hupdate|].
  vm_compute in Hupdate. injection Hupdate as <-. reflexivity.
Defined.

(** X20.  Neither recomputation of the rating aggregate writes anything:
    the property schema declares none of the paths [averageRating],
    [numberOfReviews], [ratingsAverage] and [ratingsQuantity], so the
    strict update drops every entry, whatever the reviews are.  The store
    is the same after [calculateAverageRating] and after
    [calcAverageRatings], and the removal of a review by
    [findByIdAndDelete] leaves the properties as they were. *)
Theorem recomputations_store_nothing (st : Store) (pid rid : ObjectId) :
  strict (averageRatingUpdate (aggregate st pid)) = []
  /\ strict (ratingsUpdate (aggregate st pid)) = []
  /\ calculateAverageRating st pid = st
  /\ calcAverageRatings st pid = st
  /\ properties (findByIdAndDelete st rid) = properties st.
Proof.
  split; [apply strict_rating_updates|].
  split; [apply strict_rating_updates|].
  split; [apply calculateAverageRating_stores_nothing|].
  split; [apply calcAverageRatings_stores_nothing|].
  unfold findByIdAndDelete. destruct (findReviewById st rid); [|reflexivity].
  cbv zeta. rewrite calcAverageRatings_stores_nothing. reflexivity.
Qed.

Lemma find_eqb_none (x : string) (l : list string) :
  find (String.eqb x) l = None <-> ~ In x l.
Proof.
  rewrite find_none_iff. split.
  - intros Hall Hin. specialize (Hall x Hin).
    rewrite String.eqb_refl in Hall. discriminate.
  - intros Hout y Hin. apply String.eqb_neq. intros ->. contradiction.
Qed.

(** X22.  [deleteReview] serves administrators only.  The review is
    loaded with its author populated, which never prints as the actor's
    identifier: every actor who is no administrator, the author included,
    is answered 401, and when the author's account is gone the request of
    any actor ends in a [TypeError]; in both cases the store stays as it
    was.  For an administrator the review is taken out of the collection,
    and bookings and properties are left alone. *)
Theorem deleteReview_serves_admin_only (st : Store) (users : list ObjectId)
    (user : Actor) (rid : ObjectId) (review : Review.t) :
  findReviewById st rid = Some review ->
  (~ In (Review.user review) users ->
   exists message,
     deleteReview st users user rid = (Next (TypeError message), st))
  /\ (In (Review.user review) users ->
      role user <> "admin" ->
      deleteReview st users user rid
      = (Next (ErrorResponse "Not authorized to delete review" 401), st))
  /\ (In (Review.user review) users ->
      role user = "admin" ->
      deleteReview st users user rid
      = (Sent 200 None,
         withReviews st
           (removeFirst (fun r => String.eqb (Review._id r) rid)
              (reviews st)))).
Proof.
  intros Hfind. unfold deleteReview. rewrite Hfind.
  split; [|split].
  - intros Hout. apply find_eqb_none in Hout. rewrite Hout.
    eexists. reflexivity.
  - intros Hin Hrole.
    destruct (find (String.eqb (Review.user review)) users) eqn:Hauthor.
    + apply String.eqb_neq in Hrole. rewrite Hrole. reflexivity.
    + apply find_eqb_none in Hauthor. contradiction.
  - intros Hin Hrole.
    destruct (find (String.eqb (Review.user review)) users) eqn:Hauthor.
    + rewrite Hrole. cbn [String.eqb Ascii.eqb Bool.eqb negb andb].
      cbv zeta. rewrite calculateAverageRating_stores_nothing. reflexivity.
    + apply find_eqb_none in Hauthor. contradiction.
Qed.

(** The author of the review of the suite asks for its deletion. *)
Lemma deleteReview_serves_admin_only_witness :
  deleteReview (reviewStore [testProperty] [testReview]) ["user1"; "admin1"]
    testUser "r1"
  = (Next (ErrorResponse "Not authorized to delete review" 401),
     reviewStore [testProperty] [testReview]).
Proof.
  apply (proj1 (proj2 (deleteReview_serves_admin_only
                         (reviewStore [testProperty] [testReview])
                         ["user1"; "admin1"] testUser "r1" testReview
                         eq_refl))).
  - left. reflexivity.
  - discriminate.
Defined.

(** * Properties of the token middleware *)

Lemma append_empty_r (s : string) : (s ++ EmptyString)%string = s.
Proof.
  induction s as [|ch s IH]; cbn; [reflexivity|]. rewrite IH. reflexivity.
Qed.

Lemma append_assoc (s t u : string) :
  ((s ++ t) ++ u)%string = (s ++ (t ++ u))%string.
Proof.
  induction s as [|ch s IH]; cbn; [reflexivity|]. rewrite IH. reflexivity.
Qed.

(** A text in which the separator does not occur is one piece. *)
Lemma splitFrom_one_piece (sep s current : string) :
  sep <> EmptyString ->
  includes s sep = false ->
  splitFrom sep s O current = [(current ++ s)%string].
Proof.
  intros Hsep. revert current.
  induction s as [|ch rest IH]; intros current Hno.
  - cbn. rewrite append_empty_r. reflexivity.
  - cbn [includes] in Hno. apply orb_false_iff in Hno.
    destruct Hno as [Hprefix Hrest].
    cbn [splitFrom]. rewrite Hprefix, (IH _ Hrest), append_assoc.
    reflexivity.
Qed.

Lemma prefix_append (s t : string) : String.prefix s (s ++ t) = true.
Proof.
  induction s as [|ch s IH]; cbn; [destruct t; reflexivity|].
  destruct (Ascii.ascii_dec ch ch) as [_|Hne]; [exact IH|].
  contradiction Hne. reflexivity.
Qed.

(** The characters of a separator just found are passed over. *)
Lemma splitFrom_skip (sep passed s current : string) :
  splitFrom sep (passed ++ s) (String.length passed) current
  = splitFrom sep s O current.
Proof.
  induction passed as [|ch passed IH]; cbn [append String.length].
  - reflexivity.
  - cbn [splitFrom]. exact IH.
Qed.

(** A text that starts with the separator and does not hold it again
    splits into the empty text and the rest. *)
Lemma split_leading_separator (ch : Ascii.ascii) (sep' s : string) :
  includes s (String ch sep') = false ->
  split (String ch sep' ++ s) (String ch sep') = [EmptyString; s].
Proof.
  intros Hno. unfold split.
  pose proof (prefix_append (String ch sep') s) as Hprefix.
  cbn [append] in Hprefix |- *. cbn [splitFrom]. rewrite Hprefix.
  cbn [String.length Nat.sub]. rewrite Nat.sub_0_r, splitFrom_skip.
  rewrite (splitFrom_one_piece (String ch sep') s EmptyString);
    [reflexivity|discriminate|exact Hno].
Qed.

(** What [firebaseAuth] does with a header that starts with [Bearer ]. *)
Lemma firebaseAuth_bearer
    (verifyIdToken : option string -> option DecodedToken)
    (authHeader : string) :
  String.prefix "Bearer " authHeader = true ->
  firebaseAuth verifyIdToken (Some authHeader)
  = match verifyIdToken (nth_error (split authHeader "Bearer ") 1) with
    | None => Answered 401 "Unauthorized: Invalid or expired token"
    | Some d =>
        Continued
          {| uid := token_uid d;
             email := token_email d;
             user_role :=
               match token_role d with
               | None | Some EmptyString => "user"
               | Some r => r
               end |}
    end.
Proof.
  intros Hprefix. unfold firebaseAuth. cbv zeta.
  destruct authHeader as [|ch rest]; [discriminate|].
  rewrite Hprefix. reflexivity.
Qed.

(** X23.  For a header [Bearer t], where the text [Bearer ] does not occur
    again in [t], [firebaseAuth] presents exactly [t] to the identity
    service: it answers 401 when the service rejects [t], and otherwise
    lets the request continue with the identifier and the e-mail address
    of the verified token and with its role, or the role [user] when the
    token has none. *)
Theorem firebaseAuth_presents_bearer_token
    (verifyIdToken : option string -> option DecodedToken) (t : string) :
  includes t "Bearer " = false ->
  firebaseAuth verifyIdToken (Some ("Bearer " ++ t)%string)
  = match verifyIdToken (Some t) with
    | None => Answered 401 "Unauthorized: Invalid or expired token"
    | Some d =>
        Continued
          {| uid := token_uid d;
             email := token_email d;
             user_role :=
               match token_role d with
               | None | Some EmptyString => "user"
               | Some r => r
               end |}
    end.
Proof.
  intros Hno.
  rewrite (firebaseAuth_bearer _ _ (prefix_append "Bearer " t)).
  rewrite (split_leading_separator _ _ t Hno). reflexivity.
Qed.

Lemma firebaseAuth_presents_bearer_token_witness :
  firebaseAuth
    (fun token =>
       match token with
       | Some "abc" =>
           Some {| token_uid := "u1"; token_email := "a@test.com";
                   token_role := None |}
       | _ => None
       end)
    (Some "Bearer abc")
  = Continued {| uid := "u1"; email := "a@test.com"; user_role := "user" |}.
Proof.
  exact (firebaseAuth_presents_bearer_token
           (fun token =>
              match token with
              | Some "abc" =>
                  Some {| token_uid := "u1"; token_email := "a@test.com";
                          token_role := None |}
              | _ => None
              end)
           "abc" eq_refl).
Defined.

(** X24.  [firebaseAuth] lets a request continue only with a header that
    starts with [Bearer ] and a token the identity service has verified;
    the user it attaches never has an empty role, and [isAdmin] lets that
    user continue exactly when the verified token carries the role
    [admin].  Without a user [isAdmin] answers 403. *)
Theorem only_verified_tokens_continue
    (verifyIdToken : option string -> option DecodedToken)
    (authorization : option string) (u : FirebaseUser) :
  firebaseAuth verifyIdToken authorization = Continued u ->
  exists authHeader d,
    authorization = Some authHeader
    /\ String.prefix "Bearer " authHeader = true
    /\ verifyIdToken (nth_error (split authHeader "Bearer ") 1) = Some d
    /\ uid u = token_uid d
    /\ email u = token_email d
    /\ user_role u <> EmptyString
    /\ (isAdmin (Some u) = Continued u <-> token_role d = Some "admin")
    /\ isAdmin None = Answered 403 "Forbidden: Admin access required".
Proof.
  unfold firebaseAuth. cbv zeta.
  destruct authorization as [[|ch rest]|]; try discriminate.
  destruct (String.prefix "Bearer " (String ch rest)) eqn:Hprefix;
    cbn [negb]; [|discriminate].
  destruct (verifyIdToken _) as [d|] eqn:Hverify; [|discriminate].
  intros [= <-]. exists (String ch rest), d.
  split; [reflexivity|]. split; [exact Hprefix|]. split; [exact Hverify|].
  split; [reflexivity|]. split; [reflexivity|].
  cbn [user_role isAdmin].
  destruct (token_role d) as [[|c1 r]|].
  - split; [discriminate|]. split; [|reflexivity].
    split; [discriminate|]. intros [= H].
  - split; [discriminate|]. split; [|reflexivity].
    destruct (String.eqb (String c1 r) "admin") eqn:Hr.
    + apply String.eqb_eq in Hr. rewrite Hr. split; reflexivity.
    + apply String.eqb_neq in Hr. split; [discriminate|].
      intros H. contradiction Hr. congruence.
  - split; [discriminate|]. split; [|reflexivity].
    split; discriminate.
Qed.

Lemma only_verified_tokens_continue_witness :
  isAdmin
    (Some {| uid := "u1"; email := "a@test.com"; user_role := "user" |})
  <> Continued {| uid := "u1"; email := "a@test.com"; user_role := "user" |}.
Proof.
  destruct (only_verified_tokens_continue
              (fun token =>
                 match token with
                 | Some "abc" =>
                     Some {| token_uid := "u1"; token_email := "a@test.com";
                             token_role := None |}
                 | _ => None
                 end)
              (Some "Bearer abc")
              {| uid := "u1"; email := "a@test.com"; user_role := "user" |}
              eq_refl)
    as (h & d & Hh & _ & Hd & _ & _ & _ & Hadmin & _).
  injection Hh as <-. vm_compute in Hd. injection Hd as <-.
  intros H. apply Hadmin in H. discriminate.
Defined.
